(** * Personal assistant agent: tools, agent facade and Slack dispatcher

    A shallow embedding of [tools.py], [agent.py] and [slack_bot.py].

    The Python code is dynamically typed glue around three external
    services (Google OAuth + Gmail/Calendar, the language-model SDK and the
    Slack client).  The embedding keeps that shape:

    - Python values exchanged with the services are JSON-like trees
      ([pyval]); dictionaries are insertion-ordered association lists;
    - exceptions are values of type [exn], instances of [Exception] or
      not, and [except Exception] catches only the former; a computation is
      a function from a [World] to a [result] and a new [World] (state is
      kept when an exception is raised, as in Python);
    - the world holds the local files and a chronological [log] of every
      interaction with the outside (request together with its outcome);
    - the outside itself is an [Env]: one oracle per external operation,
      each free to depend on the whole history of interactions. *)

From Stdlib Require Import ZArith Lia Ascii String.
From stdpp Require Import base gmap strings list pretty.
From Equations Require Import Equations.

Local Open Scope string_scope.
Local Open Scope list_scope.
Local Open Scope Z_scope.

Set Warnings "-register-all".

(** ** Python values *)

Inductive pyval :=
| VNone
| VBool (b : bool)
| VInt (n : Z)
| VStr (s : string)
| VList (l : list pyval)
| VDict (d : list (string * pyval)).

(** [bool(v)]: the truth value used by [if v], [not v], [a or b]. *)
Definition truthy (v : pyval) : bool :=
  match v with
  | VNone => false
  | VBool b => b
  | VInt n => negb (n =? 0)
  | VStr s => negb (String.eqb s "")
  | VList l => match l with [] => false | _ => true end
  | VDict d => match d with [] => false | _ => true end
  end.

(** [v == s] for a string literal [s]. *)
Definition eq_str (v : pyval) (s : string) : bool :=
  match v with
  | VStr s' => String.eqb s' s
  | _ => false
  end.

(** Dictionary access on the association list: the first binding of a key
    is the one a Python dict holds. *)
Fixpoint dict_lookup (k : string) (d : list (string * pyval)) : option pyval :=
  match d with
  | [] => None
  | (k', v) :: d' => if String.eqb k' k then Some v else dict_lookup k d'
  end.

(** [d[k] = v]: overwrite in place, or append a new key at the end. *)
Fixpoint dict_set (k : string) (v : pyval) (d : list (string * pyval))
  : list (string * pyval) :=
  match d with
  | [] => [(k, v)]
  | (k', v') :: d' =>
      if String.eqb k' k then (k', v) :: d' else (k', v') :: dict_set k v d'
  end.

(** ** Exceptions and results *)

(** A raised exception: its class name and [str(e)].  [Exn] is an instance
    of [Exception], what an [except Exception] clause catches.  [BaseExn] is
    an instance of [BaseException] that is not one of [Exception]
    ([KeyboardInterrupt], [SystemExit], [asyncio.CancelledError], ...), which
    such a clause lets through. *)
Inductive exn :=
| Exn (cls msg : string)
| BaseExn (cls msg : string).

Definition exn_class (e : exn) : string :=
  match e with Exn cls _ | BaseExn cls _ => cls end.

Definition exn_str (e : exn) : string :=
  match e with Exn _ msg | BaseExn _ msg => msg end.

(** [isinstance(e, Exception)] *)
Definition is_exception (e : exn) : bool :=
  match e with Exn _ _ => true | BaseExn _ _ => false end.

Inductive result (A : Type) :=
| Ok (a : A)
| Raise (e : exn).
Arguments Ok {A} a.
Arguments Raise {A} e.

(** Failures raised by the interpreter itself on ill-shaped values.  Their
    class is fixed; the wording of the message depends on the interpreter
    version and is a parameter ([failure_msg] below). *)
Inductive builtin_failure :=
| NotSubscriptable (v : pyval)            (* v['k'], v not a dict *)
| NoAttribute (v : pyval) (attr : string) (* v.attr *)
| NotIterable (v : pyval)                 (* for x in v *)
| NotOrderable (v : pyval)                (* v > 0 *)
| NotAString (v : pyval).                 (* re.sub(..., v) *)

Definition failure_class (f : builtin_failure) : string :=
  match f with
  | NoAttribute _ _ => "AttributeError"
  | _ => "TypeError"
  end.

(** ** Credentials, files, requests *)

(** The attributes of [google.oauth2.credentials.Credentials] the code
    reads. *)
Record Credentials := {
  token : string;
  valid : bool;
  expired : bool;
  refresh_token : option string;
}.

(** A local file: a pickle stream holding [None] or a credential, or any
    other data. *)
Inductive file :=
| Pickled (obj : option Credentials)
| OtherData (data : string).

(** Requests of the Google API client, sent by [.execute()]. *)
Inductive request :=
| GmailMessagesList (userId : string) (maxResults : Z) (q : string)
| GmailMessagesGet (userId : string) (id : pyval) (format : string)
| CalendarEventsList (calendarId timeMin timeMax : string) (maxResults : Z)
                     (singleEvents : bool) (orderBy : string)
| CalendarEventsInsert (calendarId : string) (body : pyval).

(** One interaction with the outside, with its outcome. *)
Inductive entry :=
| LRefresh (c : Credentials) (r : result Credentials)
| LAuthFlow (secrets : string) (scopes : list string) (r : result Credentials)
| LBuild (api version : string) (c : Credentials) (r : result unit)
| LExecute (req : request) (r : result pyval)
| LNow (t : Z)
| LQuery (prompt : pyval) (system api_key : string) (r : result (list string))
| LSay (text thread_ts : pyval) (r : result unit)
| LLogError (msg : string)
| LAck.

Record World := {
  files : gmap string file;
  log : list entry;
}.

(** The outside world and the interpreter. *)
Record Env := {
  (* creds.refresh(Request()) *)
  oauth_refresh : list entry -> Credentials -> result Credentials;
  (* InstalledAppFlow.from_client_secrets_file(f, scopes).run_local_server(port=0) *)
  oauth_flow : list entry -> string -> list string -> result Credentials;
  (* googleapiclient.discovery.build(api, version, credentials=creds) *)
  discovery_build : list entry -> string -> string -> Credentials -> result unit;
  (* request.execute() *)
  api_execute : list entry -> request -> result pyval;
  (* datetime.utcnow(), in microseconds since 0001-01-01T00:00:00 *)
  clock : list entry -> Z;
  (* claude_agent_sdk.query: str() of every streamed message *)
  sdk_query : list entry -> pyval -> string -> string -> result (list string);
  (* say(text, thread_ts=...) *)
  slack_say : list entry -> pyval -> pyval -> result unit;
  (* interpreter and standard library *)
  failure_msg : builtin_failure -> string;
  unpickle_error : string -> exn;
  repr : pyval -> string;
}.

(** ** The computation monad *)

Definition M (A : Type) : Type := World -> result A * World.

Definition ret {A} (a : A) : M A := fun w => (Ok a, w).

Definition raise {A} (e : exn) : M A := fun w => (Raise e, w).

Definition bind {A B} (m : M A) (k : A -> M B) : M B :=
  fun w =>
    match m w with
    | (Ok a, w') => k a w'
    | (Raise e, w') => (Raise e, w')
    end.

(** [try: m  except Exception as e: h e]: an exception that is not an
    instance of [Exception] is not caught. *)
Definition try_except {A} (m : M A) (h : exn -> M A) : M A :=
  fun w =>
    match m w with
    | (Ok a, w') => (Ok a, w')
    | (Raise e, w') => if is_exception e then h e w' else (Raise e, w')
    end.

Declare Scope py_scope.
Delimit Scope py_scope with py.
Notation "'let*' x ':=' m 'in' k" := (bind m (fun x => k))
  (at level 10, x name, m at level 100, k at level 200) : py_scope.
Notation "'do' m 'in' k" := (bind m (fun _ => k))
  (at level 10, m at level 100, k at level 200) : py_scope.
Local Open Scope py_scope.

(** Append an interaction to the log. *)
Definition logged (e : entry) (w : World) : World :=
  {| files := files w; log := log w ++ [e] |}.

(** Ask the outside: the oracle sees the history, the outcome is logged. *)
Definition ask {A} (oracle : list entry -> result A) (mk : result A -> entry)
  : M A :=
  fun w => let r := oracle (log w) in (r, logged (mk r) w).

(** The entries a run appended to the log. *)
Definition new_entries (w w' : World) : list entry :=
  drop (length (log w)) (log w').

(** ** Strings

    A [string] is the UTF-8 encoding of a Python [str]. *)

Definition code (c : ascii) : Z := Z.of_N (N_of_ascii c).

Definition nl : string := String (ascii_of_nat 10) "".

(** [sep.join(l)] *)
Fixpoint join (sep : string) (l : list string) : string :=
  match l with
  | [] => ""
  | [x] => x
  | x :: l' => x +:+ sep +:+ join sep l'
  end.

(** [''.join(l)] *)
Definition concat_str (l : list string) : string := join "" l.

(** [str.lower()].  Only the ASCII letters are mapped; the bytes of other
    characters are kept.  The code only compares the lowered text with
    the ASCII words "emails" and "calendar", and a text with a character
    outside ASCII never lowers to one of these words (the only such
    characters whose lower case contains an ASCII letter are U+212A, which
    gives "k", and U+0130, which gives "i" followed by U+0307). *)
Definition lower_char (c : ascii) : ascii :=
  if (65 <=? code c) && (code c <=? 90)
  then ascii_of_N (N_of_ascii c + 32) else c.

Fixpoint lower (s : string) : string :=
  match s with
  | "" => ""
  | String c t => String (lower_char c) (lower t)
  end.

(** Whitespace in the sense of [str.isspace], by encoded length:
    U+0009..U+000D, U+001C..U+001F, U+0020; U+0085, U+00A0; U+1680,
    U+2000..U+200A, U+2028, U+2029, U+202F, U+205F, U+3000. *)
Definition is_space1 (a : ascii) : bool :=
  let n := code a in
  ((9 <=? n) && (n <=? 13)) || ((28 <=? n) && (n <=? 31)) || (n =? 32).

Definition is_space2 (a b : ascii) : bool :=
  (code a =? 194) && ((code b =? 133) || (code b =? 160)).

Definition is_space3 (a b c : ascii) : bool :=
  let x := code a in let y := code b in let z := code c in
  ((x =? 225) && (y =? 154) && (z =? 128))
  || ((x =? 226) && (y =? 128)
      && (((128 <=? z) && (z <=? 138)) || (z =? 168) || (z =? 169) || (z =? 175)))
  || ((x =? 226) && (y =? 129) && (z =? 159))
  || ((x =? 227) && (y =? 128) && (z =? 128)).

Fixpoint lstrip (s : list ascii) : list ascii :=
  match s with
  | a :: r1 =>
      if is_space1 a then lstrip r1 else
      match r1 with
      | b :: r2 =>
          if is_space2 a b then lstrip r2 else
          match r2 with
          | c :: r3 => if is_space3 a b c then lstrip r3 else s
          | [] => s
          end
      | [] => s
      end
  | [] => []
  end.

(** [lstrip] on the reversed text: the bytes of a character come last
    first. *)
Fixpoint lstrip_rev (s : list ascii) : list ascii :=
  match s with
  | c :: r1 =>
      if is_space1 c then lstrip_rev r1 else
      match r1 with
      | b :: r2 =>
          if is_space2 b c then lstrip_rev r2 else
          match r2 with
          | a :: r3 => if is_space3 a b c then lstrip_rev r3 else s
          | [] => s
          end
      | [] => s
      end
  | [] => []
  end.

(** [str.strip()] *)
Definition strip (s : string) : string :=
  string_of_list_ascii
    (lstrip (rev (lstrip_rev (rev (list_ascii_of_string s))))).

(** The characters of a text, as [for c in s] yields them: a character
    is a byte that is not a continuation byte (10xxxxxx), followed by its
    continuation bytes. *)
Definition is_continuation (c : ascii) : bool :=
  (128 <=? code c) && (code c <=? 191).

Fixpoint chars_from (cur : string) (s : string) : list string :=
  match s with
  | "" => [cur]
  | String c t =>
      if is_continuation c then chars_from (cur +:+ String c "") t
      else cur :: chars_from (String c "") t
  end.

Definition chars (s : string) : list string :=
  match s with
  | "" => []
  | String c t => chars_from (String c "") t
  end.

(** *** The mention pattern [<@[A-Z0-9]+>] *)

Definition mention_class (c : ascii) : bool :=
  ((65 <=? code c) && (code c <=? 90)) || ((48 <=? code c) && (code c <=? 57)).

(** The longest run of [[A-Z0-9]] at the head: its length and the rest. *)
Fixpoint class_run (s : string) : nat * string :=
  match s with
  | String c t =>
      if mention_class c then let '(n, r) := class_run t in (S n, r)
      else (O, s)
  | "" => (O, "")
  end.

(** [re.match(r'<@[A-Z0-9]+>', s)]: the text after the match.  The class
    excludes ">", so the greedy run never has to give characters back. *)
Definition match_mention (s : string) : option string :=
  match s with
  | String "<" (String "@" t) =>
      match class_run t with
      | (S _, String ">" rest) => Some rest
      | _ => None
      end
  | _ => None
  end.

(** A value together with the equation that it is the value of [x]. *)
Definition remember_eq {A : Type} (x : A) : {y : A | x = y} :=
  exist _ x eq_refl.

(** [re.sub(r'<@[A-Z0-9]+>', '', s)]: scan from the left; where the
    pattern matches, drop the match and go on after it; elsewhere keep the
    character and move one to the right. *)
Equations? re_sub_mention (s : string) : string by wf (String.length s) lt :=
re_sub_mention "" := "";
re_sub_mention (String c t) with remember_eq (match_mention (String c t)) := {
  | exist _ (Some rest) H => re_sub_mention rest;
  | exist _ None _ => String c (re_sub_mention t) }.
Proof.
  (* the text after a match is shorter than the text *)
  assert (forall s, (String.length (class_run s).2 <= String.length s)%nat)
    as Hrun.
  { induction s as [|a s IH]; simpl; [lia|].
    destruct (mention_class a); simpl; [|lia].
    destruct (class_run s); simpl in *; lia. }
  change (match_mention (String c t) = Some rest) in H.
  unfold match_mention in H.
  destruct (Ascii.eqb_spec c "<"); [subst|];
    [|destruct c as [[] [] [] [] [] [] [] []]; congruence].
  destruct t as [|b t]; [discriminate|].
  destruct (Ascii.eqb_spec b "@"); [subst|];
    [|destruct b as [[] [] [] [] [] [] [] []]; congruence].
  specialize (Hrun t).
  destruct (class_run t) as [n r]; simpl in Hrun.
  destruct n; [discriminate|].
  destruct r as [|d r]; [discriminate|].
  assert (rest = r) as ->.
  { destruct d as [[] [] [] [] [] [] [] []]; congruence. }
  simpl in *. lia.
Qed.

(** [str(v)], as an f-string formats a value; the [repr] of containers
    is the interpreter's. *)
Definition py_str (env : Env) (v : pyval) : string :=
  match v with
  | VStr s => s
  | VNone => "None"
  | VBool true => "True"
  | VBool false => "False"
  | VInt n => pretty n
  | _ => repr env v
  end.

(** ** Dates

    A naive [datetime] is its distance from [datetime.min] in microseconds;
    [datetime.max] is 9999-12-31T23:59:59.999999. *)

Definition datetime_max : Z := 3652059 * 86400 * 1000000 - 1.

(** [timedelta(days=n)] *)
Definition timedelta_days (n : Z) : Z := n * 86400 * 1000000.

(** [str(n).zfill(width)] for [n >= 0] *)
Definition zero_pad (width : nat) (n : Z) : string :=
  let s := pretty n in
  String.concat "" (replicate (width - String.length s) "0") +:+ s.

Definition is_leap (year : Z) : bool :=
  ((year mod 4 =? 0) && negb (year mod 100 =? 0)) || (year mod 400 =? 0).

Definition days_in_month (year month : Z) : Z :=
  if month =? 2 then (if is_leap year then 29 else 28)
  else if (month =? 4) || (month =? 6) || (month =? 9) || (month =? 11)
       then 30 else 31.

(** Month and day of the [n]-th day (from 0) of [year], looking from
    [month] on. *)
Fixpoint month_day (fuel : nat) (year month n : Z) : Z * Z :=
  match fuel with
  | O => (month, n + 1)
  | S fuel' =>
      let dim := days_in_month year month in
      if n <? dim then (month, n + 1)
      else month_day fuel' year (month + 1) (n - dim)
  end.

(** Year, month and day of the day [n] days after 0001-01-01 (proleptic
    Gregorian calendar). *)
Definition civil (n : Z) : Z * Z * Z :=
  let n400 := n / 146097 in let n := n mod 146097 in
  let n100 := n / 36524 in let n := n mod 36524 in
  let n4 := n / 1461 in let n := n mod 1461 in
  let n1 := n / 365 in let n := n mod 365 in
  let year := n400 * 400 + n100 * 100 + n4 * 4 + n1 + 1 in
  if (n1 =? 4) || (n100 =? 4) then (year - 1, 12, 31)
  else let '(m, d) := month_day 11 year 1 n in (year, m, d).

(** [t.isoformat()] for a naive datetime:
    YYYY-MM-DDTHH:MM:SS, followed by .ffffff when the microseconds are not
    zero. *)
Definition isoformat (t : Z) : string :=
  let days := t / 86400000000 in
  let us_of_day := t mod 86400000000 in
  let '(y, m, d) := civil days in
  let secs := us_of_day / 1000000 in
  let us := us_of_day mod 1000000 in
  zero_pad 4 y +:+ "-" +:+ zero_pad 2 m +:+ "-" +:+ zero_pad 2 d +:+ "T"
  +:+ zero_pad 2 (secs / 3600) +:+ ":" +:+ zero_pad 2 (secs mod 3600 / 60)
  +:+ ":" +:+ zero_pad 2 (secs mod 60)
  +:+ (if us =? 0 then "" else "." +:+ zero_pad 6 us).

(** ** Interpreter primitives *)

Module Py.
Section WithEnv.
Variable env : Env.

Definition builtin_error (f : builtin_failure) : exn :=
  Exn (failure_class f) (failure_msg env f).

(** [v[k]] for a string literal [k] *)
Definition getitem (v : pyval) (k : string) : M pyval :=
  match v with
  | VDict d =>
      match dict_lookup k d with
      | Some x => ret x
      | None => raise (Exn "KeyError" ("'" +:+ k +:+ "'"))
      end
  | _ => raise (builtin_error (NotSubscriptable v))
  end.

(** [v.get(k, default)] *)
Definition dict_get (v : pyval) (k : string) (default : pyval) : M pyval :=
  match v with
  | VDict d => ret (from_option id default (dict_lookup k d))
  | _ => raise (builtin_error (NoAttribute v "get"))
  end.

(** The elements [for x in v] runs through. *)
Definition py_iter (v : pyval) : M (list pyval) :=
  match v with
  | VList l => ret l
  | VDict d => ret (map (fun kv => VStr kv.1) d)
  | VStr s => ret (map VStr (chars s))
  | _ => raise (builtin_error (NotIterable v))
  end.

(** [v > 0] *)
Definition gt_zero (v : pyval) : M bool :=
  match v with
  | VInt n => ret (0 <? n)
  | VBool b => ret b
  | _ => raise (builtin_error (NotOrderable v))
  end.

(** Run [f] on every element in order, stopping at the first exception. *)
Fixpoint for_each {A B} (f : A -> M B) (l : list A) : M (list B) :=
  match l with
  | [] => ret []
  | x :: l' =>
      let* y := f x in
      let* ys := for_each f l' in
      ret (y :: ys)
  end.

(** [t + delta] on datetimes *)
Definition datetime_add (t delta : Z) : M Z :=
  if (0 <=? t + delta) && (t + delta <=? datetime_max) then ret (t + delta)
  else raise (Exn "OverflowError" "date value out of range").

(** [datetime.utcnow()] *)
Definition utcnow : M Z :=
  fun w => let t := clock env (log w) in (Ok t, logged (LNow t) w).

(** [os.path.exists(path)] *)
Definition path_exists (path : string) : M bool :=
  fun w => (Ok (bool_decide (is_Some (files w !! path))), w).

(** [with open(path, 'rb') as f: pickle.load(f)] *)
Definition pickle_load (path : string) : M (option Credentials) :=
  fun w =>
    match files w !! path with
    | Some (Pickled obj) => (Ok obj, w)
    | Some (OtherData data) => (Raise (unpickle_error env data), w)
    | None =>
        (Raise (Exn "FileNotFoundError"
                  ("[Errno 2] No such file or directory: '" +:+ path +:+ "'")), w)
    end.

(** [with open(path, 'wb') as f: pickle.dump(creds, f)] *)
Definition pickle_dump (path : string) (creds : Credentials) : M unit :=
  fun w =>
    (Ok tt, {| files := <[path := Pickled (Some creds)]> (files w);
               log := log w |}).

End WithEnv.
End Py.

(** * tools.py *)

Module Tools.
Import Py.
Section WithEnv.
Variable env : Env.

Definition GMAIL_SCOPES : list string :=
  ["https://www.googleapis.com/auth/gmail.readonly"].
Definition CALENDAR_SCOPES : list string :=
  ["https://www.googleapis.com/auth/calendar"].

(** [creds.refresh(Request())] *)
Definition refresh (creds : Credentials) : M Credentials :=
  ask (fun h => oauth_refresh env h creds) (LRefresh creds).

(** [InstalledAppFlow.from_client_secrets_file(secrets, scopes)] followed by
    [flow.run_local_server(port=0)] *)
Definition run_flow (secrets : string) (scopes : list string) : M Credentials :=
  ask (fun h => oauth_flow env h secrets scopes) (LAuthFlow secrets scopes).

(** [build(api, version, credentials=creds)] *)
Definition build (api version : string) (creds : Credentials) : M unit :=
  ask (fun h => discovery_build env h api version creds)
      (LBuild api version creds).

(** [request.execute()] *)
Definition execute (req : request) : M pyval :=
  ask (fun h => api_execute env h req) (LExecute req).

(** [creds and creds.expired and creds.refresh_token]: the credential to
    refresh, if the test passes. *)
Definition refreshable (creds : option Credentials) : option Credentials :=
  match creds with
  | Some c =>
      if expired c && match refresh_token c with
                      | Some t => negb (String.eqb t "")
                      | None => false
                      end
      then Some c else None
  | None => None
  end.

Definition credentials_json_missing : exn :=
  Exn "FileNotFoundError"
      "credentials.json not found. Please download it from Google Cloud Console.".

(** The body of [if not creds or not creds.valid:]. *)
Definition renew (scopes : list string) (token_file : string)
                 (creds : option Credentials) : M Credentials :=
  let* creds' :=
    match refreshable creds with
    | Some c => refresh c
    | None =>
        let* secrets := path_exists "credentials.json" in
        if (secrets : bool) then run_flow "credentials.json" scopes
        else raise credentials_json_missing
    end in
  do pickle_dump token_file creds' in
  ret creds'.

Definition get_google_credentials (scopes : list string) (token_file : string)
  : M Credentials :=
  let* found := path_exists token_file in
  let* creds := (if (found : bool) then pickle_load env token_file
                 else ret None) in
  match creds with
  | None => renew scopes token_file creds
  | Some c => if valid c then ret c else renew scopes token_file creds
  end.

(** *** read_emails *)

(** [next((h['value'] for h in headers if h['name'] == name), default)]:
    the generator is consumed up to its first element. *)
Fixpoint first_header (name : string) (default : pyval) (headers : list pyval)
  : M pyval :=
  match headers with
  | [] => ret default
  | h :: rest =>
      let* n := getitem env h "name" in
      if eq_str n name then getitem env h "value"
      else first_header name default rest
  end.

Definition header (headers : pyval) (name : string) (default : pyval)
  : M pyval :=
  let* hs := py_iter env headers in
  first_header name default hs.

(** The projection of one fetched message (the tail of the loop body). *)
Definition email_summary (message : pyval) : M pyval :=
  let* payload := getitem env message "payload" in
  let* headers := getitem env payload "headers" in
  let* subject := header headers "Subject" (VStr "No Subject") in
  let* sender := header headers "From" (VStr "Unknown") in
  let* date := header headers "Date" (VStr "Unknown") in
  let* id := getitem env message "id" in
  let* snippet := dict_get env message "snippet" (VStr "") in
  ret (VDict [("id", id); ("subject", subject); ("from", sender);
              ("date", date); ("snippet", snippet)]).

(** One turn of [for msg in messages]. *)
Definition fetch_email (msg : pyval) : M pyval :=
  let* id := getitem env msg "id" in
  let* message := execute (GmailMessagesGet "me" id "full") in
  email_summary message.

Definition error_result (e : exn) : pyval :=
  VDict [("status", VStr "error"); ("message", VStr (exn_str e))].

Definition read_emails (max_results : Z) (query : string) : M pyval :=
  try_except
    (let* creds := get_google_credentials GMAIL_SCOPES "gmail_token.pickle" in
     do build "gmail" "v1" creds in
     let* results := execute (GmailMessagesList "me" max_results query) in
     let* messages := dict_get env results "messages" (VList []) in
     if negb (truthy messages) then
       ret (VDict [("status", VStr "success"); ("count", VInt 0);
                   ("emails", VList [])])
     else
       let* msgs := py_iter env messages in
       let* emails := for_each fetch_email msgs in
       ret (VDict [("status", VStr "success");
                   ("count", VInt (Z.of_nat (length emails)));
                   ("emails", VList emails)]))
    (fun e => ret (error_result e)).

(** *** list_calendar_events *)

(** [x.get('dateTime', x.get('date'))] for [x = event[field]] *)
Definition event_time (event : pyval) (field : string) : M pyval :=
  let* x := getitem env event field in
  let* date := dict_get env x "date" VNone in
  dict_get env x "dateTime" date.

Definition format_event (event : pyval) : M pyval :=
  let* start := event_time event "start" in
  let* end_ := event_time event "end" in
  let* id := getitem env event "id" in
  let* summary := dict_get env event "summary" (VStr "No Title") in
  let* location := dict_get env event "location" (VStr "") in
  let* description := dict_get env event "description" (VStr "") in
  ret (VDict [("id", id); ("summary", summary); ("start", start);
              ("end", end_); ("location", location);
              ("description", description)]).

Definition list_calendar_events (max_results : Z) (time_min time_max : option Z)
  : M pyval :=
  try_except
    (let* creds := get_google_credentials CALENDAR_SCOPES "calendar_token.pickle" in
     do build "calendar" "v3" creds in
     let* time_min := match time_min with
                      | None => utcnow env
                      | Some t => ret t
                      end in
     let* time_max := match time_max with
                      | None => datetime_add time_min (timedelta_days 7)
                      | Some t => ret t
                      end in
     let* events_result :=
       execute (CalendarEventsList "primary"
                  (isoformat time_min +:+ "Z")
                  (isoformat time_max +:+ "Z")
                  max_results true "startTime") in
     let* events := dict_get env events_result "items" (VList []) in
     let* evs := py_iter env events in
     let* formatted_events := for_each format_event evs in
     ret (VDict [("status", VStr "success");
                 ("count", VInt (Z.of_nat (length formatted_events)));
                 ("events", VList formatted_events)]))
    (fun e => ret (error_result e)).

(** *** create_calendar_event *)

(** The request body: the [event] literal, then
    [if attendees: event['attendees'] = [{'email': email} for email in attendees]];
    [None] and the empty list are the falsy arguments. *)
Definition event_body (summary start_time end_time description location : string)
                      (attendees : option (list string)) : pyval :=
  let event :=
    [("summary", VStr summary);
     ("location", VStr location);
     ("description", VStr description);
     ("start", VDict [("dateTime", VStr start_time); ("timeZone", VStr "UTC")]);
     ("end", VDict [("dateTime", VStr end_time); ("timeZone", VStr "UTC")])] in
  match attendees with
  | Some ((_ :: _) as emails) =>
      VDict (dict_set "attendees"
               (VList (map (fun email => VDict [("email", VStr email)]) emails))
               event)
  | _ => VDict event
  end.

Definition create_calendar_event
    (summary start_time end_time description location : string)
    (attendees : option (list string)) : M pyval :=
  try_except
    (let* creds := get_google_credentials CALENDAR_SCOPES "calendar_token.pickle" in
     do build "calendar" "v3" creds in
     let event := event_body summary start_time end_time description location
                             attendees in
     let* created_event := execute (CalendarEventsInsert "primary" event) in
     let* id := getitem env created_event "id" in
     let* link := dict_get env created_event "htmlLink" (VStr "") in
     ret (VDict [("status", VStr "success"); ("event_id", id);
                 ("event_link", link)]))
    (fun e => ret (error_result e)).

End WithEnv.
End Tools.

(** * agent.py *)

Module Agent.
Section WithEnv.
Variable env : Env.

(** The attributes [__init__] sets: the API key and the fixed
    role-defining system prompt. *)
Record PersonalAssistantAgent := {
  api_key : string;
  system_prompt : string;
}.

Variable self : PersonalAssistantAgent.

(** Collects [str(message)] for every streamed message and joins them. *)
Definition simple_query (prompt : pyval) : M string :=
  let* response_parts :=
    ask (fun h => sdk_query env h prompt (system_prompt self) (api_key self))
        (LQuery prompt (system_prompt self) (api_key self)) in
  ret (concat_str response_parts).

Definition read_recent_emails (max_results : Z) (query : string) : M pyval :=
  Tools.read_emails env max_results query.

Definition get_calendar_events (max_results : Z) : M pyval :=
  Tools.list_calendar_events env max_results None None.

Definition schedule_event
    (summary start_time end_time description location : string)
    (attendees : option (list string)) : M pyval :=
  Tools.create_calendar_event env summary start_time end_time description
                              location attendees.

End WithEnv.
End Agent.

(** * slack_bot.py *)

Module SlackBot.
Import Py.
Section WithEnv.
Variable env : Env.
Variable agent : Agent.PersonalAssistantAgent.

(** [say(text)] and [say(text=..., thread_ts=...)]; an omitted
    [thread_ts] is [None]. *)
Definition say (text thread_ts : pyval) : M unit :=
  ask (fun h => slack_say env h text thread_ts) (LSay text thread_ts).

(** [logger.error(msg)] *)
Definition logger_error (msg : string) : M unit :=
  fun w => (Ok tt, logged (LLogError msg) w).

(** [ack()] *)
Definition ack : M unit := fun w => (Ok tt, logged LAck w).

(** [re.sub(r'<@[A-Z0-9]+>', '', text)] *)
Definition re_sub (text : pyval) : M string :=
  match text with
  | VStr s => ret (re_sub_mention s)
  | _ => raise (builtin_error env (NotAString text))
  end.

(** [text.strip()] *)
Definition py_strip (text : pyval) : M string :=
  match text with
  | VStr s => ret (strip s)
  | _ => raise (builtin_error env (NoAttribute text "strip"))
  end.

Definition greeting : string := "Hi! How can I assist you today?".

(** The [except Exception as e:] block of the mention handler. *)
Definition mention_except (event : pyval) (e : exn) : M unit :=
  do logger_error ("Error handling mention: " +:+ exn_str e) in
  let* ts := dict_get env event "ts" VNone in
  say (VStr ("Sorry, I encountered an error: " +:+ exn_str e)) ts.

Definition _handle_mention_async (event : pyval) : M unit :=
  try_except
    (let* text := dict_get env event "text" (VStr "") in
     let* user_id := dict_get env event "user" VNone in
     let* channel_id := dict_get env event "channel" VNone in
     let* replaced := re_sub text in
     let clean_text := strip replaced in
     if String.eqb clean_text "" then say (VStr greeting) VNone
     else
       let* ts := dict_get env event "ts" VNone in
       do say (VStr "Processing your request...") ts in
       let* response := Agent.simple_query env agent (VStr clean_text) in
       let* ts := dict_get env event "ts" VNone in
       say (VStr response) ts)
    (mention_except event).

(** The [except Exception as e:] block of the message handler. *)
Definition message_except (e : exn) : M unit :=
  do logger_error ("Error handling message: " +:+ exn_str e) in
  say (VStr ("Sorry, I encountered an error: " +:+ exn_str e)) VNone.

Definition _handle_message_async (event : pyval) : M unit :=
  try_except
    (let* channel_type := dict_get env event "channel_type" VNone in
     if negb (eq_str channel_type "im") then ret tt
     else
       let* text := dict_get env event "text" (VStr "") in
       let* user_id := dict_get env event "user" VNone in
       if negb (truthy text) then ret tt
       else
         let* response := Agent.simple_query env agent text in
         say (VStr response) VNone)
    message_except.

Definition help_listing : pyval :=
  VDict
    [("text", VStr "Personal Assistant Commands");
     ("blocks",
      VList
        [VDict
           [("type", VStr "section");
            ("text",
             VDict
               [("type", VStr "mrkdwn");
                ("text",
                 VStr ("*Available commands:*" +:+ nl +:+
                       "• `/assistant emails` - Check recent unread emails" +:+ nl +:+
                       "• `/assistant calendar` - View upcoming events" +:+ nl +:+
                       "• `/assistant schedule [details]` - Schedule a new event" +:+ nl +:+
                       "• `/assistant [question]` - Ask any question"))])]])].

(** [result['status'] == 'success' and result['count'] > 0] *)
Definition has_items (result : pyval) : M bool :=
  let* status := getitem env result "status" in
  if eq_str status "success" then
    let* count := getitem env result "count" in
    gt_zero env count
  else ret false.

(** [f"• *{item[a]}* {sep}{item[b]}"] *)
Definition bullet (a sep b : string) (item : pyval) : M string :=
  let* x := getitem env item a in
  let* y := getitem env item b in
  ret ("• *" +:+ py_str env x +:+ "*" +:+ sep +:+ py_str env y).

(** The reply to the result of the "emails" subcommand. *)
Definition render_emails (result : pyval) : M unit :=
  let* some := has_items result in
  if (some : bool) then
    let* emails := getitem env result "emails" in
    let* items := py_iter env emails in
    let* lines := for_each (bullet "subject" " from " "from") items in
    let email_list := join nl lines in
    let* count := getitem env result "count" in
    say (VStr ("You have " +:+ py_str env count +:+ " unread emails:" +:+ nl
               +:+ email_list)) VNone
  else say (VStr "No unread emails found or unable to access Gmail.") VNone.

(** The reply to the result of the "calendar" subcommand. *)
Definition render_events (result : pyval) : M unit :=
  let* some := has_items result in
  if (some : bool) then
    let* events := getitem env result "events" in
    let* items := py_iter env events in
    let* lines := for_each (bullet "summary" " - " "start") items in
    let event_list := join nl lines in
    say (VStr ("Upcoming events:" +:+ nl +:+ event_list)) VNone
  else say (VStr "No upcoming events found or unable to access Calendar.") VNone.

(** The [except Exception as e:] block of the command handler. *)
Definition command_except (e : exn) : M unit :=
  do logger_error ("Error handling command: " +:+ exn_str e) in
  say (VStr ("Sorry, I encountered an error: " +:+ exn_str e)) VNone.

Definition _handle_command_async (command : pyval) : M unit :=
  try_except
    (let* text := dict_get env command "text" (VStr "") in
     let* command_text := py_strip text in
     if String.eqb command_text "" then say help_listing VNone
     else if String.eqb (lower command_text) "emails" then
       let* result := Agent.read_recent_emails env 5 "is:unread" in
       render_emails result
     else if String.eqb (lower command_text) "calendar" then
       let* result := Agent.get_calendar_events env 5 in
       render_events result
     else
       let* response := Agent.simple_query env agent (VStr command_text) in
       say (VStr response) VNone)
    command_except.

(** The registered handlers; [asyncio.run] runs the coroutine to its end. *)
Definition handle_mention (event : pyval) : M unit :=
  _handle_mention_async event.

Definition handle_message (event : pyval) : M unit :=
  let* subtype := dict_get env event "subtype" VNone in
  if truthy subtype then ret tt
  else
    let* bot_id := dict_get env event "bot_id" VNone in
    if truthy bot_id then ret tt
    else _handle_message_async event.

Definition handle_assistant_command (command : pyval) : M unit :=
  do ack in
  _handle_command_async command.

End WithEnv.
End SlackBot.

(** * The rest of agent.py: construction and the example program

    The process environment ([os.getenv], after [load_dotenv()]) is a finite
    map from variable names to values. *)

Module AgentStartup.

(** The role-defining prompt [__init__] stores. *)
Definition SYSTEM_PROMPT : string :=
  join nl
    ["You are a helpful personal assistant with the following capabilities:";
     "";
     "1. Email Management:";
     "   - Read emails from Gmail";
     "   - Filter emails by various criteria (unread, sender, etc.)";
     "   - Summarize email contents";
     "";
     "2. Calendar Management:";
     "   - View upcoming calendar events";
     "   - Create new calendar events";
     "   - Schedule meetings with attendees";
     "";
     "3. Web Search:";
     "   - Search for current information on the web";
     "   - Provide up-to-date answers to questions";
     "";
     "Your goal is to help the user manage their schedule and communications efficiently.";
     "Be proactive, concise, and helpful. When scheduling meetings, always confirm details";
     "like time, duration, and attendees before creating events.";
     "";
     "Always provide clear summaries and actionable insights from emails and calendar events."].

(** [a or b] on optional strings: [a] when it is a non-empty string,
    otherwise [b]. *)
Definition str_or (a b : option string) : option string :=
  match a with
  | Some s => if String.eqb s "" then b else a
  | None => b
  end.

(** [PersonalAssistantAgent(api_key)] *)
Definition __init__ (environ : gmap string string) (api_key : option string)
  : result Agent.PersonalAssistantAgent :=
  match str_or api_key (environ !! "ANTHROPIC_API_KEY") with
  | Some key =>
      if String.eqb key "" then
        Raise (Exn "ValueError" "ANTHROPIC_API_KEY must be set")
      else Ok {| Agent.api_key := key; Agent.system_prompt := SYSTEM_PROMPT |}
  | None => Raise (Exn "ValueError" "ANTHROPIC_API_KEY must be set")
  end.

Section WithEnv.
Variable env : Env.

(** The [except Exception as e:] block of [main]: the lines it prints. *)
Definition main_except (e : exn) : list string :=
  ["Error: " +:+ exn_str e;
   nl +:+ "Make sure ANTHROPIC_API_KEY is set in your environment or .env file"].

(** What [except Exception as e:] prints for [e]: nothing when [e] is not
    an instance of [Exception], which then leaves [main]. *)
Definition main_handler (e : exn) : list string :=
  if is_exception e then main_except e else [].

(** [main]: the lines it prints, one per [print] call, and the world it
    leaves. *)
Definition main (environ : gmap string string) (w : World)
  : list string * World :=
  match __init__ environ None with
  | Raise e => (main_handler e, w)
  | Ok agent =>
      let printed :=
        ["Personal Assistant Agent initialized successfully!";
         nl +:+ "Example: Asking a simple question..."] in
      match Agent.simple_query env agent
              (VStr "What's the weather like today and should I bring an umbrella?")
              w with
      | (Ok response, w') =>
          (printed ++ [nl +:+ "Agent Response:" +:+ nl +:+ response], w')
      | (Raise e, w') => (printed ++ main_handler e, w')
      end
  end.

End WithEnv.
End AgentStartup.

(** * The rest of slack_bot.py: construction, start and the program *)

Module SlackStartup.

(** The Slack runtime the bot is started on, and what the interpreter
    knows about exception classes. *)
Record Runtime := {
  (* App(token=bot_token) *)
  new_app : string -> result unit;
  (* SocketModeHandler(app, app_token) *)
  new_socket_handler : string -> result unit;
  (* handler.start(), when it comes back *)
  socket_start : result unit;
  (* the class names that derive from ValueError *)
  value_error_subclass : string -> bool;
}.

Record PersonalAssistantSlackBot := {
  bot_token : string;
  app_token : string;
  agent : Agent.PersonalAssistantAgent;
  user_contexts : gmap string (list pyval);
}.

(** [not value] for the result of [os.getenv] *)
Definition unset (value : option string) : bool :=
  match value with
  | Some s => String.eqb s ""
  | None => true
  end.

(** [PersonalAssistantSlackBot()] *)
Definition __init__ (rt : Runtime) (environ : gmap string string)
  : result PersonalAssistantSlackBot :=
  let bot_token := environ !! "SLACK_BOT_TOKEN" in
  let app_token := environ !! "SLACK_APP_TOKEN" in
  if unset bot_token || unset app_token then
    Raise (Exn "ValueError" "SLACK_BOT_TOKEN and SLACK_APP_TOKEN must be set")
  else
    match new_app rt (default "" bot_token) with
    | Raise e => Raise e
    | Ok _ =>
        match AgentStartup.__init__ environ None with
        | Raise e => Raise e
        | Ok agent =>
            Ok {| bot_token := default "" bot_token;
                  app_token := default "" app_token;
                  agent := agent;
                  user_contexts := ∅ |}
        end
    end.

(** [bot.start()]: the lines printed and the outcome. *)
Definition start (rt : Runtime) (self : PersonalAssistantSlackBot)
  : list string * result unit :=
  match new_socket_handler rt (app_token self) with
  | Raise e => ([], Raise e)
  | Ok _ => (["Personal Assistant Slack Bot is running!"], socket_start rt)
  end.

(** [isinstance(e, ValueError)] *)
Definition is_value_error (rt : Runtime) (e : exn) : bool :=
  is_exception e &&
  (String.eqb (exn_class e) "ValueError"
   || value_error_subclass rt (exn_class e)).

(** The two [except] blocks of [main], [except ValueError] and
    [except Exception]: the lines they print for [e]; nothing when [e] is
    not an instance of [Exception], which then leaves [main]. *)
Definition main_except (rt : Runtime) (e : exn) : list string :=
  if is_value_error rt e then
    ["Configuration error: " +:+ exn_str e;
     nl +:+ "Make sure the following environment variables are set:";
     "  - SLACK_BOT_TOKEN";
     "  - SLACK_APP_TOKEN";
     "  - ANTHROPIC_API_KEY"]
  else if is_exception e then ["Error starting bot: " +:+ exn_str e]
  else [].

(** [main]: the lines it prints, one per [print] call. *)
Definition main (rt : Runtime) (environ : gmap string string) : list string :=
  match __init__ rt environ with
  | Raise e => main_except rt e
  | Ok bot =>
      match start rt bot with
      | (printed, Ok _) => printed
      | (printed, Raise e) => printed ++ main_except rt e
      end
  end.

End SlackStartup.

(** * Vocabulary for the properties of runs *)

(** The exception an interaction ended with, if it raised. *)
Definition raised (ent : entry) : option exn :=
  match ent with
  | LRefresh _ (Raise e)
  | LAuthFlow _ _ (Raise e)
  | LBuild _ _ _ (Raise e)
  | LExecute _ (Raise e)
  | LQuery _ _ _ (Raise e)
  | LSay _ _ (Raise e) => Some e
  | _ => None
  end.

(** Every run of [m] appends to the log, and only entries satisfying [Q]. *)
Definition emits {A} (Q : entry -> Prop) (m : M A) : Prop :=
  forall w, exists t, log (m w).2 = log w ++ t /\ Forall Q t.

(** Every run of [m] appends to the log, and an interaction that raised
    ends the run with that very exception. *)
Definition consistent {A} (m : M A) : Prop :=
  forall w, exists t,
    log (m w).2 = log w ++ t /\
    forall ent e, In ent t -> raised ent = Some e -> (m w).1 = Raise e.

(** What [m] returns, when it returns, satisfies [P]. *)
Definition returns {A} (P : A -> Prop) (m : M A) : Prop :=
  forall w a w', m w = (Ok a, w') -> P a.

(** Computations that leave the log as it is. *)
Definition silent {A} (m : M A) : Prop := forall w, log (m w).2 = log w.

(** Every run of [m] appends a trace [t] to the log and ends with a result
    [r] such that [P t r]. *)
Definition sat {A} (m : M A) (P : list entry -> result A -> Prop) : Prop :=
  forall w, exists t, log (m w).2 = log w ++ t /\ P t (m w).1.

(** A dictionary with a [status] key. *)
Definition has_status (v : pyval) : Prop :=
  exists d, v = VDict d /\ is_Some (dict_lookup "status" d).

(** Interactions of the credential manager and of [build]. *)
Definition is_setup (ent : entry) : Prop :=
  match ent with
  | LRefresh _ _ | LAuthFlow _ _ _ | LBuild _ _ _ _ => True
  | _ => False
  end.

(** Replies to the user and log lines of the dispatcher. *)
Definition is_reply (ent : entry) : Prop :=
  match ent with
  | LSay _ _ _ | LLogError _ => True
  | _ => False
  end.

(** What the "emails" subcommand may do besides replying: acquire the
    credential, and fetch with limit 5 and filter "is:unread". *)
Definition emails_fetch (ent : entry) : Prop :=
  match ent with
  | LExecute (GmailMessagesList userId maxResults q) _ =>
      userId = "me" /\ maxResults = 5 /\ q = "is:unread"
  | LExecute (GmailMessagesGet _ _ _) _ => True
  | LExecute _ _ | LQuery _ _ _ _ | LNow _ | LAck => False
  | _ => True
  end.

(** What the "calendar" subcommand may do besides replying: acquire the
    credential, read the clock, and list events with limit 5. *)
Definition events_fetch (ent : entry) : Prop :=
  match ent with
  | LExecute (CalendarEventsList calendarId _ _ maxResults _ _) _ =>
      calendarId = "primary" /\ maxResults = 5
  | LExecute _ _ | LQuery _ _ _ _ | LAck => False
  | _ => True
  end.

(** The only request an entry may carry. *)
Definition only_request (req0 : request) (ent : entry) : Prop :=
  match ent with
  | LExecute req _ => req = req0
  | _ => True
  end.

(** Anything but a Gmail listing request. *)
Definition not_messages_list (ent : entry) : Prop :=
  match ent with
  | LExecute (GmailMessagesList _ _ _) _ => False
  | _ => True
  end.

(** A call that never lets any exception out: it returns a dictionary
    with a [status] key, and when an interaction with the outside raised,
    that dictionary is the error result built from the exception. *)
Definition never_raises (m : M pyval) : Prop :=
  forall w, exists d,
    (m w).1 = Ok (VDict d) /\
    is_Some (dict_lookup "status" d) /\
    forall ent e,
      In ent (new_entries w (m w).2) -> raised ent = Some e ->
      d = [("status", VStr "error"); ("message", VStr (exn_str e))].

(** A call that lets no instance of [Exception] out.  When it returns,
    the value is a dictionary with a [status] key; an exception it raises is
    not an instance of [Exception]; and an exception [e] that an interaction
    with the outside raised during the call decides the outcome: the error
    result built from [e] when [e] is an instance of [Exception], and [e]
    itself reaching the caller when it is not. *)
Definition catches_exceptions (m : M pyval) : Prop :=
  forall w,
    match (m w).1 with
    | Ok v => exists d, v = VDict d /\ is_Some (dict_lookup "status" d)
    | Raise e => is_exception e = false
    end /\
    forall ent e,
      In ent (new_entries w (m w).2) -> raised ent = Some e ->
      (m w).1
      = if is_exception e
        then Ok (VDict [("status", VStr "error");
                        ("message", VStr (exn_str e))])
        else Raise e.

(** An outcome that lets no instance of [Exception] out: a normal return,
    or an exception that no [except Exception] clause catches. *)
Definition no_exception_out {A} (r : result A) : Prop :=
  match r with
  | Ok _ => True
  | Raise e => is_exception e = false
  end.

(** [event.get(k)] on the fields of an event. *)
Definition field (d : list (string * pyval)) (k : string) : pyval :=
  from_option id VNone (dict_lookup k d).

(** The key is absent from the response, or bound to an empty list. *)
Definition no_items (d : list (string * pyval)) (k : string) : Prop :=
  dict_lookup k d = None \/ dict_lookup k d = Some (VList []).

(** The request [list_calendar_events] sends for a given window. *)
Definition events_request (max_results time_min time_max : Z) : request :=
  CalendarEventsList "primary"
    (isoformat time_min +:+ "Z") (isoformat time_max +:+ "Z")
    max_results true "startTime".

(** The success result for an empty calendar window. *)
Definition no_events_result : pyval :=
  VDict [("status", VStr "success"); ("count", VInt 0); ("events", VList [])].

(** What [list_calendar_events] does once [time_min] is known: either the
    default [time_max] overflows and nothing is sent, or exactly one
    request is sent, for the window that ends at the given [time_max] or,
    by default, seven days after [time_min]; a response without events
    gives the empty success result. *)
Definition window_post (max_results tmin : Z) (time_max : option Z)
    (t : list entry) (r : result pyval) : Prop :=
  (t = [] /\ exists e, r = Raise e) \/
  (exists tmax r1,
     (time_max = Some tmax \/
      time_max = None /\ tmax = tmin + timedelta_days 7) /\
     t = [LExecute (events_request max_results tmin tmax) r1] /\
     forall d, r1 = Ok (VDict d) -> no_items d "items" ->
               r = Ok no_events_result).

(** [h['name']] and [h['value']], when the header has them. *)
Definition header_name (h : pyval) : option pyval :=
  match h with VDict d => dict_lookup "name" d | _ => None end.

Definition header_value (h : pyval) : option pyval :=
  match h with VDict d => dict_lookup "value" d | _ => None end.

(** A header whose name is [name]. *)
Definition header_named (name : string) (h : pyval) : Prop :=
  exists n, header_name h = Some n /\ eq_str n name = true.

(** A header with another name. *)
Definition other_header (name : string) (h : pyval) : Prop :=
  exists n, header_name h = Some n /\ eq_str n name = false.

(** [x] is the value of the first header named [name], or [default] when
    no header has that name. *)
Definition first_match (hs : list pyval) (name : string) (default x : pyval)
  : Prop :=
  (Forall (other_header name) hs /\ x = default) \/
  (exists pre h post,
     hs = pre ++ h :: post /\ Forall (other_header name) pre /\
     header_named name h /\ header_value h = Some x).

(** The elements a header collection yields when iterated: those of a
    list; the keys of an object; the characters of a text. *)
Definition elements (v : pyval) : option (list pyval) :=
  match v with
  | VList l => Some l
  | VDict d => Some (map (fun kv => VStr kv.1) d)
  | VStr s => Some (map VStr (chars s))
  | _ => None
  end.

(** The messages the Gmail service returned to the fetches of a run, in
    the order they were fetched. *)
Definition fetched (t : list entry) : list pyval :=
  omap (fun ent => match ent with
                   | LExecute (GmailMessagesGet _ _ _) (Ok message) =>
                       Some message
                   | _ => None
                   end) t.

(** [summary] is the projection of the fetched [message]: its id and
    snippet, and for subject, sender and date the value of the first header
    of [message['payload']['headers']] with the name "Subject", "From" and
    "Date", or the fallback when no header has that name. *)
Definition summarises (message summary : pyval) : Prop :=
  exists m payload headers hs mid subject sender date,
    message = VDict m /\
    dict_lookup "payload" m = Some (VDict payload) /\
    dict_lookup "headers" payload = Some headers /\
    elements headers = Some hs /\
    dict_lookup "id" m = Some mid /\
    first_match hs "Subject" (VStr "No Subject") subject /\
    first_match hs "From" (VStr "Unknown") sender /\
    first_match hs "Date" (VStr "Unknown") date /\
    (Forall (other_header "Subject") hs -> subject = VStr "No Subject") /\
    (Forall (other_header "From") hs -> sender = VStr "Unknown") /\
    summary
    = VDict [("id", mid); ("subject", subject); ("from", sender);
             ("date", date);
             ("snippet", from_option id (VStr "") (dict_lookup "snippet" m))].

(** The argument text of a command: [command.get("text", "").strip()],
    when the text is a string. *)
Definition argument_text (command : pyval) : option string :=
  match command with
  | VDict d =>
      match from_option id (VStr "") (dict_lookup "text" d) with
      | VStr raw => Some (strip raw)
      | _ => None
      end
  | _ => None
  end.

(** A mention token, as Slack writes one: "<@", an identifier of one or
    more uppercase letters and digits, ">". *)
Definition ident_char (c : ascii) : bool :=
  existsb (Ascii.eqb c)
    (list_ascii_of_string "ABCDEFGHIJKLMNOPQRSTUVWXYZ0123456789").

Definition ident (s : string) : bool :=
  negb (String.eqb s "") && forallb ident_char (list_ascii_of_string s).

Definition mention_token (tok : string) : Prop :=
  exists name, ident name = true /\ tok = "<@" +:+ name +:+ ">".

(** What stripping only a leading mention token, then trimming, would
    give. *)
Definition strip_leading_mention (text : string) : string :=
  strip (match match_mention text with
         | Some rest => rest
         | None => text
         end).

(** Every run of [m] leaves all files but [path] as they are. *)
Definition writes_only {A} (path : string) (m : M A) : Prop :=
  forall w q, q <> path -> files (m w).2 !! q = files w !! q.

(** What [read_emails max_results query] may do: acquire the credential,
    build the Gmail client, list with the given limit and filter, and get
    messages in full. *)
Definition gmail_only (max_results : Z) (query : string) (ent : entry) : Prop :=
  match ent with
  | LRefresh _ _ => True
  | LAuthFlow secrets scopes _ =>
      secrets = "credentials.json" /\
      scopes = ["https://www.googleapis.com/auth/gmail.readonly"]
  | LBuild api version _ _ => api = "gmail" /\ version = "v1"
  | LExecute (GmailMessagesList userId n q) _ =>
      userId = "me" /\ n = max_results /\ q = query
  | LExecute (GmailMessagesGet userId _ format) _ =>
      userId = "me" /\ format = "full"
  | _ => False
  end.

(** What the calendar functions may do besides their one request: acquire
    the credential, build the Calendar client, read the clock. *)
Definition calendar_only (allowed : request -> Prop) (ent : entry) : Prop :=
  match ent with
  | LRefresh _ _ => True
  | LAuthFlow secrets scopes _ =>
      secrets = "credentials.json" /\
      scopes = ["https://www.googleapis.com/auth/calendar"]
  | LBuild api version _ _ => api = "calendar" /\ version = "v3"
  | LNow _ => True
  | LExecute req _ => allowed req
  | _ => False
  end.

(** An events listing of the primary calendar with the given limit, single
    events, ordered by start time. *)
Definition is_events_list (max_results : Z) (req : request) : Prop :=
  match req with
  | CalendarEventsList calendarId _ _ n singleEvents orderBy =>
      calendarId = "primary" /\ n = max_results /\ singleEvents = true /\
      orderBy = "startTime"
  | _ => False
  end.

(** An insertion into the primary calendar. *)
Definition is_events_insert (req : request) : Prop :=
  match req with
  | CalendarEventsInsert calendarId _ => calendarId = "primary"
  | _ => False
  end.

(** Gmail listings and message fetches among the entries of a log. *)
Definition is_messages_list (ent : entry) : bool :=
  match ent with
  | LExecute (GmailMessagesList _ _ _) _ => true
  | _ => false
  end.

Definition is_messages_get (ent : entry) : bool :=
  match ent with
  | LExecute (GmailMessagesGet _ _ _) _ => true
  | _ => false
  end.

(** A message fetch that was answered. *)
Definition answered_get (ent : entry) : Prop :=
  match ent with
  | LExecute (GmailMessagesGet _ _ _) (Ok _) => True
  | _ => False
  end.

(** Interactions of the credential manager alone. *)
Definition is_oauth (ent : entry) : Prop :=
  match ent with
  | LRefresh _ _ | LAuthFlow _ _ _ => True
  | _ => False
  end.

(** The [build] call succeeded. *)
Definition is_built (ent : entry) : Prop :=
  match ent with
  | LBuild _ _ _ (Ok _) => True
  | _ => False
  end.

(** The displayed time of an event boundary: the timestamp when there is
    one, else the date, else [None]. *)
Definition shown_time (x : list (string * pyval)) : pyval :=
  match dict_lookup "dateTime" x with
  | Some t => t
  | None =>
      match dict_lookup "date" x with
      | Some d => d
      | None => VNone
      end
  end.

(** The projection of a calendar event that has an [id] and dictionaries
    under [start] and [end]. *)
Definition event_projection (event : list (string * pyval)) : option pyval :=
  match dict_lookup "start" event, dict_lookup "end" event,
        dict_lookup "id" event with
  | Some (VDict s), Some (VDict e), Some eid =>
      Some (VDict [("id", eid);
                   ("summary",
                    from_option id (VStr "No Title") (dict_lookup "summary" event));
                   ("start", shown_time s);
                   ("end", shown_time e);
                   ("location",
                    from_option id (VStr "") (dict_lookup "location" event));
                   ("description",
                    from_option id (VStr "") (dict_lookup "description" event))])
  | _, _, _ => None
  end.

Definition projects (event out : pyval) : Prop :=
  exists d, event = VDict d /\ event_projection d = Some out.

(** The part of [list_calendar_events] that follows its request. *)
Definition format_events (env : Env) (events_result : pyval) : M pyval :=
  let* events := Py.dict_get env events_result "items" (VList []) in
  let* evs := Py.py_iter env events in
  let* formatted_events := Py.for_each (Tools.format_event env) evs in
  ret (VDict [("status", VStr "success");
              ("count", VInt (Z.of_nat (length formatted_events)));
              ("events", VList formatted_events)]).

(** The upper bound of the window that starts at [tmin], unless the
    default overflows. *)
Definition window_end (tmin : Z) (time_max : option Z) : option Z :=
  match time_max with
  | Some t => Some t
  | None =>
      if (0 <=? tmin + timedelta_days 7)
         && (tmin + timedelta_days 7 <=? datetime_max)
      then Some (tmin + timedelta_days 7) else None
  end.

(** What [list_calendar_events] does after [build]: it reads the clock
    only when [time_min] is missing; when the default upper bound
    overflows it raises without sending anything; otherwise it sends one
    request for the window and formats the response. *)
Definition calendar_listing (env : Env) (max_results : Z)
    (time_min time_max : option Z) (t : list entry) (r : result pyval)
  : Prop :=
  exists pre tmin,
    (time_min = Some tmin /\ pre = [] \/
     time_min = None /\ pre = [LNow tmin]) /\
    match window_end tmin time_max with
    | None =>
        t = pre /\ r = Raise (Exn "OverflowError" "date value out of range")
    | Some tmax =>
        exists r1 w1,
          t = pre ++ [LExecute (events_request max_results tmin tmax) r1] /\
          r = match r1 with
              | Ok events_result => (format_events env events_result w1).1
              | Raise e => Raise e
              end
    end.

(** What [create_calendar_event] returns for the answer of the calendar
    service. *)
Definition created_result (created_event : list (string * pyval)) : pyval :=
  match dict_lookup "id" created_event with
  | Some eid =>
      VDict [("status", VStr "success"); ("event_id", eid);
             ("event_link",
              from_option id (VStr "") (dict_lookup "htmlLink" created_event))]
  | None => Tools.error_result (Exn "KeyError" "'id'")
  end.

(** * Example worlds *)

(** What the mention handler may do once it has acknowledged a request:
    query the agent, log, and reply in the thread [ts]. *)
Definition in_thread (ts : pyval) (ent : entry) : Prop :=
  match ent with
  | LSay _ ts' _ => ts' = ts
  | LQuery _ _ _ _ | LLogError _ => True
  | _ => False
  end.

(** [line] is the bullet [f"• *{item[a]}* {sep}{item[b]}"] of [item]. *)
Definition bullet_line (env : Env) (a sep b : string)
    (item : pyval) (line : string) : Prop :=
  exists d x y,
    item = VDict d /\ dict_lookup a d = Some x /\ dict_lookup b d = Some y /\
    line = "• *" +:+ py_str env x +:+ "*" +:+ sep +:+ py_str env y.

(** The two results after which a listing command has nothing to show. *)
Definition nothing_to_show (key : string) (result : pyval) : Prop :=
  (exists e, result = Tools.error_result e) \/
  result = VDict [("status", VStr "success"); ("count", VInt 0);
                  (key, VList [])].

(** What the Slack program prints for a configuration error. *)
Definition configuration_error (msg : string) : list string :=
  ["Configuration error: " +:+ msg;
   nl +:+ "Make sure the following environment variables are set:";
   "  - SLACK_BOT_TOKEN";
   "  - SLACK_APP_TOKEN";
   "  - ANTHROPIC_API_KEY"].

(** The environment variable [name] holds the non-empty string [value]. *)
Definition set_to (environ : gmap string string) (name value : string) : Prop :=
  environ !! name = Some value /\ value <> "".

(** The question the example program asks. *)
Definition example_question : pyval :=
  VStr "What's the weather like today and should I bring an umbrella?".

Module Demo.

Definition creds : Credentials :=
  {| token := "ya29.a0Af"; valid := true; expired := false;
     refresh_token := Some "1//0g" |}.

(** A message as the Gmail API returns it, without a Subject header. *)
Definition message_without_subject : list (string * pyval) :=
  [("id", VStr "18c2f0");
   ("snippet", VStr "See you at ten");
   ("payload",
    VDict [("headers",
            VList [VDict [("name", VStr "From"); ("value", VStr "ann@example.com")];
                   VDict [("name", VStr "Date");
                          ("value", VStr "Fri, 24 Oct 2025 09:12:00 +0000")]])])].

(** 2025-10-24T10:00:00 *)
Definition now : Z := (739547 * 86400 + 36000) * 1000000.

(** Services that answer: the mailbox holds one message, except under the
    filter "from:nobody@example.com"; the calendar is empty. *)
Definition env : Env := {|
  oauth_refresh := fun _ c => Ok c;
  oauth_flow := fun _ _ _ => Ok creds;
  discovery_build := fun _ _ _ _ => Ok tt;
  api_execute := fun _ req =>
    match req with
    | GmailMessagesList _ _ q =>
        if String.eqb q "from:nobody@example.com"
        then Ok (VDict [("resultSizeEstimate", VInt 0)])
        else Ok (VDict [("messages", VList [VDict [("id", VStr "18c2f0")]]);
                        ("resultSizeEstimate", VInt 1)])
    | GmailMessagesGet _ _ _ => Ok (VDict message_without_subject)
    | CalendarEventsList _ _ _ _ _ _ =>
        Ok (VDict [("kind", VStr "calendar#events"); ("items", VList [])])
    | CalendarEventsInsert _ _ =>
        Ok (VDict [("id", VStr "ev42");
                   ("htmlLink", VStr "https://www.google.com/calendar/event?eid=ev42")])
    end;
  clock := fun _ => now;
  sdk_query := fun _ _ _ _ => Ok ["You have "; "a free afternoon."];
  slack_say := fun _ _ _ => Ok tt;
  failure_msg := fun _ => "unsupported operand";
  unpickle_error := fun _ => Exn "UnpicklingError" "invalid load key";
  repr := fun _ => "[...]";
|}.

(** The same services during an outage of the Google APIs. *)
Definition outage : Env := {|
  oauth_refresh := oauth_refresh env;
  oauth_flow := oauth_flow env;
  discovery_build := discovery_build env;
  api_execute := fun _ _ => Raise (Exn "HttpError" "503 Service Unavailable");
  clock := clock env;
  sdk_query := sdk_query env;
  slack_say := slack_say env;
  failure_msg := failure_msg env;
  unpickle_error := unpickle_error env;
  repr := repr env;
|}.

(** Both token files are present and valid. *)
Definition world : World :=
  {| files := {[ "gmail_token.pickle" := Pickled (Some creds);
                 "calendar_token.pickle" := Pickled (Some creds) ]};
     log := [] |}.

(** A fresh checkout: no token file and no [credentials.json]. *)
Definition fresh_world : World := {| files := ∅; log := [] |}.

Definition agent : Agent.PersonalAssistantAgent :=
  {| Agent.api_key := "sk-ant-test";
     Agent.system_prompt := "You are a helpful personal assistant" |}.

Definition two_mentions : string := "<@U123ABC> ask <@U456DEF> to join".

End Demo.

(** More situations: stale and missing tokens, a calendar with events,
    Slack refusing messages, and the events and commands of a workspace. *)
Module Cases.

(** An access token past its lifetime, with a refresh token. *)
Definition expired_creds : Credentials :=
  {| token := "ya29.old"; valid := false; expired := true;
     refresh_token := Some "1//0g" |}.

(** The Gmail token file holds the expired credential. *)
Definition stale_world : World :=
  {| files := {[ "gmail_token.pickle" := Pickled (Some expired_creds) ]};
     log := [] |}.

(** The client secrets are installed but no token was ever stored. *)
Definition installed_world : World :=
  {| files := {[ "credentials.json" := OtherData "client secrets" ]};
     log := [] |}.

Definition standup : list (string * pyval) :=
  [("id", VStr "ev1"); ("summary", VStr "Standup");
   ("start", VDict [("dateTime", VStr "2025-10-27T09:00:00Z")]);
   ("end", VDict [("dateTime", VStr "2025-10-27T09:15:00Z")]);
   ("location", VStr "Room 4")].

(** An all-day event without a title. *)
Definition holiday : list (string * pyval) :=
  [("id", VStr "ev2");
   ("start", VDict [("date", VStr "2025-10-28")]);
   ("end", VDict [("date", VStr "2025-10-29")])].

(** The services of [Demo.env] with two events in the calendar. *)
Definition busy : Env := {|
  oauth_refresh := oauth_refresh Demo.env;
  oauth_flow := oauth_flow Demo.env;
  discovery_build := discovery_build Demo.env;
  api_execute := fun h req =>
    match req with
    | CalendarEventsList _ _ _ _ _ _ =>
        Ok (VDict [("kind", VStr "calendar#events");
                   ("items", VList [VDict standup; VDict holiday])])
    | _ => api_execute Demo.env h req
    end;
  clock := clock Demo.env;
  sdk_query := sdk_query Demo.env;
  slack_say := slack_say Demo.env;
  failure_msg := failure_msg Demo.env;
  unpickle_error := unpickle_error Demo.env;
  repr := repr Demo.env;
|}.

(** The calendar answers its listing with [items: null]. *)
Definition null_items : Env := {|
  oauth_refresh := oauth_refresh Demo.env;
  oauth_flow := oauth_flow Demo.env;
  discovery_build := discovery_build Demo.env;
  api_execute := fun h req =>
    match req with
    | CalendarEventsList _ _ _ _ _ _ =>
        Ok (VDict [("kind", VStr "calendar#events"); ("items", VNone)])
    | GmailMessagesList _ _ _ =>
        Ok (VDict [("messages", VNone); ("resultSizeEstimate", VInt 0)])
    | _ => api_execute Demo.env h req
    end;
  clock := clock Demo.env;
  sdk_query := sdk_query Demo.env;
  slack_say := slack_say Demo.env;
  failure_msg := failure_msg Demo.env;
  unpickle_error := unpickle_error Demo.env;
  repr := repr Demo.env;
|}.

(** The user presses Ctrl-C while a request to the Google APIs is under
    way: [execute()] raises [KeyboardInterrupt], which is not an instance of
    [Exception]. *)
Definition interrupted : Env := {|
  oauth_refresh := oauth_refresh Demo.env;
  oauth_flow := oauth_flow Demo.env;
  discovery_build := discovery_build Demo.env;
  api_execute := fun _ _ => Raise (BaseExn "KeyboardInterrupt" "");
  clock := clock Demo.env;
  sdk_query := sdk_query Demo.env;
  slack_say := slack_say Demo.env;
  failure_msg := failure_msg Demo.env;
  unpickle_error := unpickle_error Demo.env;
  repr := repr Demo.env;
|}.

(** Slack refuses every message. *)
Definition slack_down : Env := {|
  oauth_refresh := oauth_refresh Demo.env;
  oauth_flow := oauth_flow Demo.env;
  discovery_build := discovery_build Demo.env;
  api_execute := api_execute Demo.env;
  clock := clock Demo.env;
  sdk_query := sdk_query Demo.env;
  slack_say := fun _ _ _ => Raise (Exn "SlackApiError" "channel_not_found");
  failure_msg := failure_msg Demo.env;
  unpickle_error := unpickle_error Demo.env;
  repr := repr Demo.env;
|}.

Definition mention : list (string * pyval) :=
  [("type", VStr "app_mention"); ("user", VStr "U777");
   ("text", VStr "<@U123ABC> what's on my calendar");
   ("ts", VStr "1729764000.000100"); ("channel", VStr "C042")].

Definition direct_message : list (string * pyval) :=
  [("type", VStr "message"); ("channel_type", VStr "im");
   ("user", VStr "U777"); ("text", VStr "any plans today?");
   ("ts", VStr "1729764001.000200")].

Definition empty_direct_message : list (string * pyval) :=
  [("type", VStr "message"); ("channel_type", VStr "im");
   ("user", VStr "U777"); ("text", VStr "")].

Definition emails_command : pyval :=
  VDict [("command", VStr "/assistant"); ("text", VStr " Emails ")].

Definition calendar_command : pyval :=
  VDict [("command", VStr "/assistant"); ("text", VStr "calendar")].

(** Headers with a second, malformed, Subject entry. *)
Definition headers : list pyval :=
  [VDict [("name", VStr "From"); ("value", VStr "ann@example.com")];
   VDict [("name", VStr "Subject"); ("value", VStr "Lunch")];
   VDict [("name", VStr "Subject")];
   VInt 7].

(** The summary of the message of [Demo.env]. *)
Definition unread_summary : pyval :=
  VDict [("id", VStr "18c2f0");
         ("subject", VStr "No Subject");
         ("from", VStr "ann@example.com");
         ("date", VStr "Fri, 24 Oct 2025 09:12:00 +0000");
         ("snippet", VStr "See you at ten")].

(** The two events of [busy], as [list_calendar_events] returns them. *)
Definition listed_events : list pyval :=
  [VDict [("id", VStr "ev1"); ("summary", VStr "Standup");
          ("start", VStr "2025-10-27T09:00:00Z");
          ("end", VStr "2025-10-27T09:15:00Z");
          ("location", VStr "Room 4"); ("description", VStr "")];
   VDict [("id", VStr "ev2"); ("summary", VStr "No Title");
          ("start", VStr "2025-10-28"); ("end", VStr "2025-10-29");
          ("location", VStr ""); ("description", VStr "")]].

(** What the calendar of [Demo.env] answers to an insertion. *)
Definition created : list (string * pyval) :=
  [("id", VStr "ev42");
   ("htmlLink", VStr "https://www.google.com/calendar/event?eid=ev42")].

(** A Slack runtime in which everything works. *)
Definition runtime : SlackStartup.Runtime :=
  {| SlackStartup.new_app := fun _ => Ok tt;
     SlackStartup.new_socket_handler := fun _ => Ok tt;
     SlackStartup.socket_start := Ok tt;
     SlackStartup.value_error_subclass :=
       fun c => String.eqb c "UnicodeDecodeError" |}.

Definition configured : gmap string string :=
  {[ "SLACK_BOT_TOKEN" := "xoxb-1"; "SLACK_APP_TOKEN" := "xapp-1";
     "ANTHROPIC_API_KEY" := "sk-ant-test" ]}.

(** Only the Slack tokens are set. *)
Definition without_key : gmap string string :=
  {[ "SLACK_BOT_TOKEN" := "xoxb-1"; "SLACK_APP_TOKEN" := "xapp-1" ]}.

End Cases.

(** * Properties of runs *)

Lemma new_entries_app w w' t : log w' = log w ++ t -> new_entries w w' = t.
Proof.
  intros H. unfold new_entries. rewrite H. apply drop_app_length.
Qed.

Section Rules.
Context {A B : Type}.

Lemma bind_ok (m : M A) (k : A -> M B) w a w1 :
  m w = (Ok a, w1) -> bind m k w = k a w1.
Proof. intros H. unfold bind. rewrite H. reflexivity. Qed.

Lemma bind_raise (m : M A) (k : A -> M B) w e w1 :
  m w = (Raise e, w1) -> bind m k w = (Raise e, w1).
Proof. intros H. unfold bind. rewrite H. reflexivity. Qed.

Lemma emits_ret Q (a : A) : emits Q (ret a).
Proof. intros w. exists []. simpl. rewrite app_nil_r. auto. Qed.

Lemma emits_raise Q e : emits Q (@raise A e).
Proof. intros w. exists []. simpl. rewrite app_nil_r. auto. Qed.

Lemma emits_ask (Q : entry -> Prop) (oracle : list entry -> result A) mk :
  (forall r, Q (mk r)) -> emits Q (ask oracle mk).
Proof. intros H w. exists [mk (oracle (log w))]. simpl. auto. Qed.

Lemma emits_bind Q (m : M A) (k : A -> M B) :
  emits Q m -> (forall a, emits Q (k a)) -> emits Q (bind m k).
Proof.
  intros Hm Hk w. unfold bind.
  destruct (Hm w) as (t1 & Hl1 & HQ1).
  destruct (m w) as [[a|e] w1]; simpl in *.
  - destruct (Hk a w1) as (t2 & Hl2 & HQ2).
    exists (t1 ++ t2). split.
    + rewrite Hl2, Hl1, app_assoc. reflexivity.
    + apply Forall_app. auto.
  - exists t1. auto.
Qed.

Lemma emits_try Q (m : M A) (h : exn -> M A) :
  emits Q m -> (forall e, emits Q (h e)) -> emits Q (try_except m h).
Proof.
  intros Hm Hh w. unfold try_except.
  destruct (Hm w) as (t1 & Hl1 & HQ1).
  destruct (m w) as [[a|e] w1]; simpl in *.
  - exists t1. auto.
  - destruct (is_exception e); [|exists t1; auto].
    destruct (Hh e w1) as (t2 & Hl2 & HQ2).
    exists (t1 ++ t2). split.
    + rewrite Hl2, Hl1, app_assoc. reflexivity.
    + apply Forall_app. auto.
Qed.

Lemma consistent_ret (a : A) : consistent (ret a).
Proof. intros w. exists []. simpl. rewrite app_nil_r. split; [auto|]. intros ? ? []. Qed.

Lemma consistent_raise e : consistent (@raise A e).
Proof. intros w. exists []. simpl. rewrite app_nil_r. split; [auto|]. intros ? ? []. Qed.

Lemma consistent_ask (oracle : list entry -> result A) mk :
  (forall r e, raised (mk r) = Some e -> r = Raise e) ->
  consistent (ask oracle mk).
Proof.
  intros H w. exists [mk (oracle (log w))]. simpl. split; [auto|].
  intros ent e [<-|[]] Hr. auto.
Qed.

Lemma consistent_bind (m : M A) (k : A -> M B) :
  consistent m -> (forall a, consistent (k a)) -> consistent (bind m k).
Proof.
  intros Hm Hk w. unfold bind.
  destruct (Hm w) as (t1 & Hl1 & H1).
  destruct (m w) as [[a|e] w1]; simpl in *.
  - destruct (Hk a w1) as (t2 & Hl2 & H2).
    exists (t1 ++ t2). split.
    + rewrite Hl2, Hl1, app_assoc. reflexivity.
    + intros ent e Hin Hr. apply in_app_or in Hin as [Hin|Hin].
      * specialize (H1 ent e Hin Hr). discriminate.
      * eauto.
  - exists t1. split; [assumption|].
    intros ent e' Hin Hr. specialize (H1 ent e' Hin Hr).
    injection H1 as ->. reflexivity.
Qed.

Lemma emits_consistent (m : M A) :
  emits (fun ent => raised ent = None) m -> consistent m.
Proof.
  intros Hm w. destruct (Hm w) as (t & Hl & HQ).
  exists t. split; [assumption|].
  intros ent e Hin Hr. rewrite Forall_forall in HQ.
  apply list_elem_of_In in Hin. rewrite (HQ ent Hin) in Hr. discriminate.
Qed.

Lemma returns_ret (P : A -> Prop) a : P a -> returns P (ret a).
Proof. intros H w a' w' [= <- _]. assumption. Qed.

Lemma returns_raise (P : A -> Prop) e : returns P (raise e).
Proof. intros w a w' [=]. Qed.

Lemma returns_bind (P : B -> Prop) (m : M A) (k : A -> M B) :
  (forall a, returns P (k a)) -> returns P (bind m k).
Proof.
  intros Hk w b w'. unfold bind.
  destruct (m w) as [[a|e] w1]; [apply Hk|discriminate].
Qed.

End Rules.

Lemma emits_for_each {A B} Q (f : A -> M B) l :
  (forall x, emits Q (f x)) -> emits Q (Py.for_each f l).
Proof.
  intros Hf. induction l as [|x l IH]; simpl.
  - apply emits_ret.
  - apply emits_bind; [apply Hf|]. intros y.
    apply emits_bind; [apply IH|]. intros ys. apply emits_ret.
Qed.

Lemma consistent_for_each {A B} (f : A -> M B) l :
  (forall x, consistent (f x)) -> consistent (Py.for_each f l).
Proof.
  intros Hf. induction l as [|x l IH]; simpl.
  - apply consistent_ret.
  - apply consistent_bind; [apply Hf|]. intros y.
    apply consistent_bind; [apply IH|]. intros ys. apply consistent_ret.
Qed.

Lemma emits_silent {A} Q (m : M A) : silent m -> emits Q m.
Proof. intros H w. exists []. rewrite H, app_nil_r. auto. Qed.

Lemma consistent_silent {A} (m : M A) : silent m -> consistent m.
Proof.
  intros H w. exists []. rewrite H, app_nil_r. split; [auto|]. intros ? ? [].
Qed.

Lemma silent_path_exists path : silent (Py.path_exists path).
Proof. intros w. reflexivity. Qed.

Lemma silent_pickle_load env path : silent (Py.pickle_load env path).
Proof.
  intros w. unfold Py.pickle_load.
  destruct (files w !! path) as [[]|]; reflexivity.
Qed.

Lemma silent_pickle_dump path creds : silent (Py.pickle_dump path creds).
Proof. intros w. reflexivity. Qed.

Lemma emits_utcnow env (Q : entry -> Prop) :
  (forall t, Q (LNow t)) -> emits Q (Py.utcnow env).
Proof. intros H w. exists [LNow (clock env (log w))]. simpl. auto. Qed.

Lemma emits_logger_error (Q : entry -> Prop) msg :
  Q (LLogError msg) -> emits Q (SlackBot.logger_error msg).
Proof. intros H w. exists [LLogError msg]. simpl. auto. Qed.

Lemma emits_ack (Q : entry -> Prop) : Q LAck -> emits Q SlackBot.ack.
Proof. intros H w. exists [LAck]. simpl. auto. Qed.

Create HintDb runs.
#[local] Hint Resolve silent_path_exists silent_pickle_load silent_pickle_dump : runs.
#[local] Hint Unfold Py.getitem Py.dict_get Py.py_iter Py.gt_zero Py.datetime_add
  Tools.refresh Tools.run_flow Tools.build Tools.execute Tools.renew
  Tools.get_google_credentials Tools.header Tools.email_summary
  Tools.fetch_email Tools.event_time Tools.format_event
  Agent.simple_query SlackBot.say SlackBot.command_except
  SlackBot.message_except SlackBot.mention_except SlackBot.has_items
  SlackBot.bullet SlackBot.render_emails SlackBot.render_events : runs.

(** One step of a syntax-directed proof of [emits], [consistent] or
    [returns]. *)
Ltac run_basic :=
  match goal with
  | |- emits _ (bind _ _) => apply emits_bind; [|intros ?]
  | |- emits _ (try_except _ _) => apply emits_try; [|intros ?]
  | |- emits _ (ret _) => apply emits_ret
  | |- emits _ (raise _) => apply emits_raise
  | |- emits _ (ask _ _) => apply emits_ask; intros ?; simpl; auto
  | |- emits _ (Py.for_each _ _) => apply emits_for_each; intros ?
  | |- emits _ (Py.utcnow _) => apply emits_utcnow; intros ?; simpl; auto
  | |- emits _ (SlackBot.logger_error _) =>
      apply emits_logger_error; simpl; auto
  | |- emits _ SlackBot.ack => apply emits_ack; simpl; auto
  | |- emits _ (Py.path_exists _) => apply emits_silent; auto with runs
  | |- emits _ (Py.pickle_load _ _) => apply emits_silent; auto with runs
  | |- emits _ (Py.pickle_dump _ _) => apply emits_silent; auto with runs
  | |- consistent (bind _ _) => apply consistent_bind; [|intros ?]
  | |- consistent (ret _) => apply consistent_ret
  | |- consistent (raise _) => apply consistent_raise
  | |- consistent (ask _ _) =>
      apply consistent_ask; intros [?|?] ?; simpl; congruence
  | |- consistent (Py.for_each _ _) => apply consistent_for_each; intros ?
  | |- consistent (Py.utcnow _) =>
      apply emits_consistent, emits_utcnow; reflexivity
  | |- consistent (Py.path_exists _) => apply consistent_silent; auto with runs
  | |- consistent (Py.pickle_load _ _) => apply consistent_silent; auto with runs
  | |- consistent (Py.pickle_dump _ _) => apply consistent_silent; auto with runs
  | |- returns _ (bind _ _) => apply returns_bind; intros ?
  | |- returns has_status (ret _) =>
      apply returns_ret; eexists; split; [reflexivity|simpl; eauto]
  | |- returns _ (raise _) => apply returns_raise
  | |- emits _ (match ?x with _ => _ end) => destruct x
  | |- consistent (match ?x with _ => _ end) => destruct x
  | |- returns _ (match ?x with _ => _ end) => destruct x
  end.

Lemma emits_first_header env Q name default hs :
  emits Q (Tools.first_header env name default hs).
Proof.
  induction hs as [|h hs IH]; simpl;
    repeat (run_basic || autounfold with runs); assumption.
Qed.

Lemma consistent_first_header env name default hs :
  consistent (Tools.first_header env name default hs).
Proof.
  induction hs as [|h hs IH]; simpl;
    repeat (run_basic || autounfold with runs); assumption.
Qed.

Ltac run_step :=
  first
    [ run_basic
    | match goal with
      | |- emits _ (Tools.first_header _ _ _ _) => apply emits_first_header
      | |- consistent (Tools.first_header _ _ _ _) =>
          apply consistent_first_header
      end ].

Ltac run_auto := repeat (run_step || autounfold with runs).

Section ToolsFacts.
Variable env : Env.

Lemma emits_get_google_credentials scopes token_file :
  emits is_setup (Tools.get_google_credentials env scopes token_file).
Proof. run_auto. Qed.

Lemma consistent_get_google_credentials scopes token_file :
  consistent (Tools.get_google_credentials env scopes token_file).
Proof. run_auto. Qed.

End ToolsFacts.

Lemma try_except_catches (body : M pyval) :
  consistent body -> returns has_status body ->
  catches_exceptions (try_except body (fun e => ret (Tools.error_result e))).
Proof.
  intros Hc Hr w. destruct (Hc w) as (t & Hl & Ht).
  unfold try_except.
  destruct (body w) as [[v|e] w1] eqn:E; simpl in *.
  - split; [exact (Hr _ _ _ E)|].
    intros ent e' Hin Hra. rewrite (new_entries_app _ _ _ Hl) in Hin.
    specialize (Ht _ _ Hin Hra). discriminate.
  - destruct (is_exception e) eqn:Hex; simpl.
    + split; [eexists; split; [reflexivity|simpl; eauto]|].
      intros ent e' Hin Hra. rewrite (new_entries_app _ _ _ Hl) in Hin.
      specialize (Ht _ _ Hin Hra). injection Ht as ->.
      rewrite Hex. reflexivity.
    + split; [assumption|].
      intros ent e' Hin Hra. rewrite (new_entries_app _ _ _ Hl) in Hin.
      specialize (Ht _ _ Hin Hra). injection Ht as ->.
      rewrite Hex. reflexivity.
Qed.

(** C1, as amended.  Each of [read_emails], [list_calendar_events] and
    [create_calendar_event] lets no instance of [Exception] reach the
    caller.  Whenever the call returns, the value is a dictionary with a
    [status] key.  When the external dependency raised an instance [e] of
    [Exception] during the call, the result is exactly
    [{"status": "error", "message": str(e)}].  An exception that is not an
    instance of [Exception] ([KeyboardInterrupt], [SystemExit]) goes through
    the [except Exception] clause and reaches the caller. *)
Theorem capability_functions_catch_exceptions (env : Env) :
  (forall max_results query,
     catches_exceptions (Tools.read_emails env max_results query)) /\
  (forall max_results time_min time_max,
     catches_exceptions
       (Tools.list_calendar_events env max_results time_min time_max)) /\
  (forall summary start_time end_time description location attendees,
     catches_exceptions
       (Tools.create_calendar_event env summary start_time end_time
          description location attendees)).
Proof.
  split; [|split]; intros; apply try_except_catches; run_auto.
Qed.

Lemma emits_all_new_entries {A} Q (m : M A) w :
  emits Q m -> Forall Q (new_entries w (m w).2).
Proof.
  intros Hm. destruct (Hm w) as (t & Hl & HQ).
  rewrite (new_entries_app _ _ _ Hl). assumption.
Qed.

Lemma emits_new_entries {A} Q (m : M A) w ent :
  emits Q m -> In ent (new_entries w (m w).2) -> Q ent.
Proof.
  intros Hm Hin. destruct (Hm w) as (t & Hl & HQ).
  rewrite (new_entries_app _ _ _ Hl) in Hin.
  rewrite Forall_forall in HQ. apply HQ, list_elem_of_In, Hin.
Qed.

(** C2, as amended.  When the client-secret file [credentials.json] is
    absent and either no token file exists or the token file holds a
    credential that is invalid and cannot be refreshed,
    [get_google_credentials] raises [FileNotFoundError] with the fixed
    message, without contacting any service and without writing a file. *)
Theorem missing_client_secrets_raises
    (env : Env) (scopes : list string) (token_file : string) (w : World) :
  files w !! "credentials.json" = None ->
  (files w !! token_file = None \/
   exists c, files w !! token_file = Some (Pickled (Some c)) /\
             valid c = false /\ Tools.refreshable (Some c) = None) ->
  Tools.get_google_credentials env scopes token_file w
  = (Raise (Exn "FileNotFoundError"
       "credentials.json not found. Please download it from Google Cloud Console."),
     w).
Proof.
  intros Hsecrets Htoken.
  unfold Tools.get_google_credentials, Tools.renew, bind, Py.path_exists,
    Py.pickle_load.
  destruct Htoken as [Hnone|(c & Hsome & Hvalid & Hrefresh)].
  - rewrite Hnone.
    rewrite bool_decide_eq_false_2 by (intros [? ?]; discriminate).
    simpl. rewrite Hsecrets.
    rewrite bool_decide_eq_false_2 by (intros [? ?]; discriminate).
    reflexivity.
  - rewrite Hsome.
    rewrite bool_decide_eq_true_2 by eauto.
    rewrite Hsome. cbn -[Tools.refreshable].
    rewrite Hvalid, Hrefresh. cbn. rewrite Hsecrets.
    rewrite bool_decide_eq_false_2 by (intros [? ?]; discriminate).
    reflexivity.
Qed.

(** C9. A plain-message event that carries a subtype or a bot identifier
    (a truthy value under that key), or whose [channel_type] is not "im",
    is dropped: the handler returns and the world, log included, is
    unchanged. *)
Theorem ignored_message_is_dropped
    (env : Env) (agent : Agent.PersonalAssistantAgent)
    (d : list (string * pyval)) (w : World) :
  truthy (field d "subtype") = true \/
  truthy (field d "bot_id") = true \/
  eq_str (field d "channel_type") "im" = false ->
  SlackBot.handle_message env agent (VDict d) w = (Ok tt, w).
Proof.
  unfold field. intros H.
  unfold SlackBot.handle_message, bind, Py.dict_get, ret.
  destruct (truthy (from_option id VNone (dict_lookup "subtype" d))) eqn:E1;
    [reflexivity|].
  destruct (truthy (from_option id VNone (dict_lookup "bot_id" d))) eqn:E2;
    [reflexivity|].
  destruct H as [H|[H|H]]; try discriminate.
  unfold SlackBot._handle_message_async, try_except, bind, Py.dict_get, ret.
  rewrite H. reflexivity.
Qed.

Lemma create_calendar_event_requests
    env summary start_time end_time description location attendees :
  emits (only_request
           (CalendarEventsInsert "primary"
              (Tools.event_body summary start_time end_time description
                                location attendees)))
        (Tools.create_calendar_event env summary start_time end_time
                                     description location attendees).
Proof. unfold Tools.create_calendar_event. run_auto. Qed.

(** C5. Every request body [create_calendar_event] sends carries, for a
    non-empty [attendees] list, the key [attendees] bound to that list
    mapped in order to [{"email": address}] objects; for [attendees=None]
    the body has no [attendees] key. *)
Theorem attendees_in_request_body
    (env : Env) (summary start_time end_time description location : string)
    (w : World) :
  (forall attendees calendarId body r,
     attendees <> [] ->
     In (LExecute (CalendarEventsInsert calendarId body) r)
        (new_entries w
           (Tools.create_calendar_event env summary start_time end_time
              description location (Some attendees) w).2) ->
     exists d,
       body = VDict d /\
       dict_lookup "attendees" d
       = Some (VList (map (fun email => VDict [("email", VStr email)])
                          attendees))) /\
  (forall calendarId body r,
     In (LExecute (CalendarEventsInsert calendarId body) r)
        (new_entries w
           (Tools.create_calendar_event env summary start_time end_time
              description location None w).2) ->
     exists d, body = VDict d /\ dict_lookup "attendees" d = None).
Proof.
  split.
  - intros attendees calendarId body r Hne Hin.
    apply (emits_new_entries _ _ _ _ (create_calendar_event_requests _ _ _ _ _ _ _))
      in Hin.
    simpl in Hin. injection Hin as _ ->.
    destruct attendees as [|a l]; [congruence|].
    eexists. split; reflexivity.
  - intros calendarId body r Hin.
    apply (emits_new_entries _ _ _ _ (create_calendar_event_requests _ _ _ _ _ _ _))
      in Hin.
    simpl in Hin. injection Hin as _ ->.
    eexists. split; reflexivity.
Qed.

(** C10. With [attendees=[]] the call behaves exactly as with
    [attendees=None], and no request body it sends has an [attendees]
    key. *)
Theorem empty_attendees_like_none
    (env : Env) (summary start_time end_time description location : string)
    (w : World) :
  Tools.create_calendar_event env summary start_time end_time description
    location (Some []) w
  = Tools.create_calendar_event env summary start_time end_time description
      location None w /\
  forall calendarId body r,
    In (LExecute (CalendarEventsInsert calendarId body) r)
       (new_entries w
          (Tools.create_calendar_event env summary start_time end_time
             description location (Some []) w).2) ->
    exists d, body = VDict d /\ dict_lookup "attendees" d = None.
Proof.
  split; [reflexivity|].
  intros calendarId body r Hin.
  apply (emits_new_entries _ _ _ _ (create_calendar_event_requests _ _ _ _ _ _ _))
    in Hin.
  simpl in Hin. injection Hin as _ ->.
  eexists. split; reflexivity.
Qed.

Lemma sat_new_entries {A} (m : M A) P w :
  sat m P -> P (new_entries w (m w).2) (m w).1.
Proof.
  intros H. destruct (H w) as (t & Hl & HP).
  rewrite (new_entries_app _ _ _ Hl). assumption.
Qed.

(** The shape shared by the three capability functions: acquire the
    credential, build the client, run the rest. *)
Lemma sat_setup_then {A} env scopes token_file api version (k : M A)
    (P : list entry -> result A -> Prop) :
  sat k P ->
  sat (let* creds := Tools.get_google_credentials env scopes token_file in
       do Tools.build env api version creds in
       k)
      (fun t r =>
         (Forall is_setup t /\ exists e, r = Raise e) \/
         (exists t1 t2, t = t1 ++ t2 /\ Forall is_setup t1 /\ P t2 r)).
Proof.
  intros Hk w. unfold bind.
  destruct (emits_get_google_credentials env scopes token_file w)
    as (t1 & Hl1 & H1).
  destruct (Tools.get_google_credentials env scopes token_file w)
    as [[c|e] w1]; simpl in *.
  - unfold Tools.build, ask.
    destruct (discovery_build env (log w1) api version c) as [[]|e] eqn:E;
      simpl.
    + destruct (Hk (logged (LBuild api version c (Ok ())) w1))
        as (t2 & Hl2 & H2).
      exists ((t1 ++ [LBuild api version c (Ok ())]) ++ t2). split.
      * rewrite Hl2. simpl. rewrite Hl1, <- !app_assoc. reflexivity.
      * right. eexists _, t2. repeat split; [|assumption].
        apply Forall_app. split; [assumption|]. repeat constructor.
    + exists (t1 ++ [LBuild api version c (Raise e)]). split.
      * rewrite Hl1, <- !app_assoc. reflexivity.
      * left. split; [|eauto].
        apply Forall_app. split; [assumption|]. repeat constructor.
  - exists t1. split; [assumption|]. left. eauto.
Qed.

(** [try: m  except Exception as e: return f e] *)
Lemma sat_catch {A} (m : M A) (f : exn -> A) P :
  sat m P ->
  sat (try_except m (fun e => ret (f e)))
      (fun t r => exists r0, P t r0 /\
                    r = match r0 with
                        | Ok a => Ok a
                        | Raise e => if is_exception e then Ok (f e) else Raise e
                        end).
Proof.
  intros Hm w. destruct (Hm w) as (t & Hl & HP).
  unfold try_except. exists t.
  destruct (m w) as [[a|e] w1]; simpl in *; eauto.
  destruct (is_exception e) eqn:Hex; simpl; split; trivial;
    exists (Raise e); rewrite Hex; auto.
Qed.

Lemma Forall_setup_no_execute t req r :
  Forall is_setup t -> ~ In (LExecute req r) t.
Proof.
  intros H Hin. rewrite Forall_forall in H.
  apply list_elem_of_In in Hin. exact (H _ Hin).
Qed.

(** The part of [read_emails] that follows [build]. *)
Lemma read_emails_tail env max_results query :
  sat (let* results :=
         Tools.execute env (GmailMessagesList "me" max_results query) in
       let* messages := Py.dict_get env results "messages" (VList []) in
       if negb (truthy messages) then
         ret (VDict [("status", VStr "success"); ("count", VInt 0);
                     ("emails", VList [])])
       else
         let* msgs := Py.py_iter env messages in
         let* emails := Py.for_each (Tools.fetch_email env) msgs in
         ret (VDict [("status", VStr "success");
                     ("count", VInt (Z.of_nat (length emails)));
                     ("emails", VList emails)]))
      (fun t r =>
         exists r1 t',
           t = LExecute (GmailMessagesList "me" max_results query) r1 :: t' /\
           Forall not_messages_list t' /\
           forall d, r1 = Ok (VDict d) -> no_items d "messages" ->
             t' = [] /\
             r = Ok (VDict [("status", VStr "success"); ("count", VInt 0);
                            ("emails", VList [])])).
Proof.
  intros w.
  set (req := GmailMessagesList "me" max_results query).
  destruct (api_execute env (log w) req) as [results|e] eqn:E.
  - assert (Tools.execute env req w
            = (Ok results, logged (LExecute req (Ok results)) w)) as Hex.
    { unfold Tools.execute, ask. rewrite E. reflexivity. }
    rewrite (bind_ok _ _ _ _ _ Hex).
    set (w1 := logged (LExecute req (Ok results)) w).
    match goal with |- context [log (?k w1).2] => set (rest := k) end.
    assert (emits not_messages_list rest) as Hrest by (subst rest; run_auto).
    destruct (Hrest w1) as (t' & Hl & Ht').
    exists (LExecute req (Ok results) :: t'). split.
    { rewrite Hl. subst w1. simpl. rewrite <- app_assoc. reflexivity. }
    exists (Ok results), t'.
    split; [reflexivity|]. split; [assumption|].
    intros d [= Hd] Hno.
    assert (rest w1
            = (Ok (VDict [("status", VStr "success"); ("count", VInt 0);
                          ("emails", VList [])]), w1)) as Hrun.
    { subst rest. rewrite Hd. unfold bind, Py.dict_get, ret.
      destruct Hno as [-> | ->]; reflexivity. }
    rewrite Hrun in Hl |- *. split; [|reflexivity].
    cbn [snd] in Hl.
    apply (f_equal length) in Hl. rewrite length_app in Hl.
    destruct t'; [reflexivity|simpl in Hl; lia].
  - assert (Tools.execute env req w
            = (Raise e, logged (LExecute req (Raise e)) w)) as Hex.
    { unfold Tools.execute, ask. rewrite E. reflexivity. }
    rewrite (bind_raise _ _ _ _ _ Hex).
    exists [LExecute req (Raise e)]. split; [reflexivity|].
    exists (Raise e), [].
    split; [reflexivity|]. split; [constructor|]. discriminate.
Qed.

Lemma bind_ret {A B} (a : A) (k : A -> M B) w : bind (ret a) k w = k a w.
Proof. reflexivity. Qed.

Lemma bind_raise_now {A B} e (k : A -> M B) w :
  bind (raise e) k w = (Raise e, w).
Proof. reflexivity. Qed.

Lemma emits_nothing_silent {A} (m : M A) :
  emits (fun _ => False) m -> silent m.
Proof.
  intros H w. destruct (H w) as (t & Hl & Ht).
  destruct t as [|ent t]; [rewrite Hl; apply app_nil_r|].
  inversion Ht; contradiction.
Qed.

(** The part of [list_calendar_events] that follows the choice of
    [time_min]. *)
Lemma list_calendar_events_window env max_results tmin time_max :
  sat (let* time_max := match time_max with
                        | None => Py.datetime_add tmin (timedelta_days 7)
                        | Some t => ret t
                        end in
       let* events_result :=
         Tools.execute env
           (CalendarEventsList "primary"
              (isoformat tmin +:+ "Z") (isoformat time_max +:+ "Z")
              max_results true "startTime") in
       let* events := Py.dict_get env events_result "items" (VList []) in
       let* evs := Py.py_iter env events in
       let* formatted_events := Py.for_each (Tools.format_event env) evs in
       ret (VDict [("status", VStr "success");
                   ("count", VInt (Z.of_nat (length formatted_events)));
                   ("events", VList formatted_events)]))
      (window_post max_results tmin time_max).
Proof.
  unfold window_post.
  assert (forall tmax w, exists t,
    log ((let* events_result :=
            Tools.execute env (events_request max_results tmin tmax) in
          let* events := Py.dict_get env events_result "items" (VList []) in
          let* evs := Py.py_iter env events in
          let* formatted_events := Py.for_each (Tools.format_event env) evs in
          ret (VDict [("status", VStr "success");
                      ("count", VInt (Z.of_nat (length formatted_events)));
                      ("events", VList formatted_events)])) w).2 = log w ++ t /\
    exists r1,
      t = [LExecute (events_request max_results tmin tmax) r1] /\
      forall d, r1 = Ok (VDict d) -> no_items d "items" ->
        ((let* events_result :=
            Tools.execute env (events_request max_results tmin tmax) in
          let* events := Py.dict_get env events_result "items" (VList []) in
          let* evs := Py.py_iter env events in
          let* formatted_events := Py.for_each (Tools.format_event env) evs in
          ret (VDict [("status", VStr "success");
                      ("count", VInt (Z.of_nat (length formatted_events)));
                      ("events", VList formatted_events)])) w).1
        = Ok no_events_result) as Hsend.
  { intros tmax w.
    set (req := events_request max_results tmin tmax).
    destruct (api_execute env (log w) req) as [results|e] eqn:E.
    - assert (Tools.execute env req w
              = (Ok results, logged (LExecute req (Ok results)) w)) as Hex.
      { unfold Tools.execute, ask. rewrite E. reflexivity. }
      rewrite (bind_ok _ _ _ _ _ Hex).
      set (w1 := logged (LExecute req (Ok results)) w).
      match goal with |- context [log (?k w1).2] => set (rest := k) end.
      assert (silent rest) as Hrest
        by (apply emits_nothing_silent; subst rest; run_auto).
      exists [LExecute req (Ok results)]. split.
      { rewrite Hrest. reflexivity. }
      exists (Ok results). split; [reflexivity|].
      intros d [= Hd] Hno. subst rest. rewrite Hd.
      unfold bind, Py.dict_get, ret.
      destruct Hno as [-> | ->]; reflexivity.
    - assert (Tools.execute env req w
              = (Raise e, logged (LExecute req (Raise e)) w)) as Hex.
      { unfold Tools.execute, ask. rewrite E. reflexivity. }
      rewrite (bind_raise _ _ _ _ _ Hex).
      exists [LExecute req (Raise e)]. split; [reflexivity|].
      exists (Raise e). split; [reflexivity|]. discriminate. }
  intros w. destruct time_max as [tmax|].
  - rewrite bind_ret. destruct (Hsend tmax w) as (t & Hl & r1 & -> & Hr).
    eexists. split; [exact Hl|]. right. exists tmax, r1. auto.
  - unfold Py.datetime_add.
    destruct ((0 <=? tmin + timedelta_days 7)
              && (tmin + timedelta_days 7 <=? datetime_max)).
    + rewrite bind_ret.
      destruct (Hsend (tmin + timedelta_days 7) w) as (t & Hl & r1 & -> & Hr).
      eexists. split; [exact Hl|]. right.
      exists (tmin + timedelta_days 7), r1. auto.
    + rewrite bind_raise_now. exists []. split.
      * symmetry. apply app_nil_r.
      * left. eauto.
Qed.

(** The part of [list_calendar_events] that follows [build]. *)
Lemma list_calendar_events_tail env max_results time_min time_max :
  sat (let* time_min := match time_min with
                        | None => Py.utcnow env
                        | Some t => ret t
                        end in
       let* time_max := match time_max with
                        | None => Py.datetime_add time_min (timedelta_days 7)
                        | Some t => ret t
                        end in
       let* events_result :=
         Tools.execute env
           (CalendarEventsList "primary"
              (isoformat time_min +:+ "Z") (isoformat time_max +:+ "Z")
              max_results true "startTime") in
       let* events := Py.dict_get env events_result "items" (VList []) in
       let* evs := Py.py_iter env events in
       let* formatted_events := Py.for_each (Tools.format_event env) evs in
       ret (VDict [("status", VStr "success");
                   ("count", VInt (Z.of_nat (length formatted_events)));
                   ("events", VList formatted_events)]))
      (fun t r =>
         exists pre tmin t2,
           (time_min = Some tmin /\ pre = [] \/
            time_min = None /\ pre = [LNow tmin]) /\
           t = pre ++ t2 /\
           window_post max_results tmin time_max t2 r).
Proof.
  intros w. destruct time_min as [tmin|].
  - rewrite bind_ret.
    destruct (list_calendar_events_window env max_results tmin time_max w)
      as (t2 & Hl & H2).
    exists t2. split; [exact Hl|]. exists [], tmin, t2. auto.
  - set (now := clock env (log w)).
    assert (Py.utcnow env w = (Ok now, logged (LNow now) w)) as Hnow
      by reflexivity.
    rewrite (bind_ok _ _ _ _ _ Hnow).
    destruct (list_calendar_events_window env max_results now time_max
                (logged (LNow now) w)) as (t2 & Hl & H2).
    exists (LNow now :: t2). split.
    + rewrite Hl. simpl. rewrite <- app_assoc. reflexivity.
    + exists [LNow now], now, t2. auto.
Qed.

(** C3. When the external list call of [read_emails] (resp.
    [list_calendar_events]) returns a response without messages (resp.
    without events), the function returns
    [{"status": "success", "count": 0, "emails": []}] (resp.
    [... "events": []]), never an error result. *)
Theorem empty_listing_is_success (env : Env) (w : World) :
  (forall max_results query userId n q d,
     In (LExecute (GmailMessagesList userId n q) (Ok (VDict d)))
        (new_entries w (Tools.read_emails env max_results query w).2) ->
     no_items d "messages" ->
     (Tools.read_emails env max_results query w).1
     = Ok (VDict [("status", VStr "success"); ("count", VInt 0);
                  ("emails", VList [])])) /\
  (forall max_results time_min time_max calendarId a b n s o d,
     In (LExecute (CalendarEventsList calendarId a b n s o) (Ok (VDict d)))
        (new_entries w
           (Tools.list_calendar_events env max_results time_min time_max w).2) ->
     no_items d "items" ->
     (Tools.list_calendar_events env max_results time_min time_max w).1
     = Ok (VDict [("status", VStr "success"); ("count", VInt 0);
                  ("events", VList [])])).
Proof.
  split.
  - intros max_results query userId n q d Hin Hno.
    pose proof (sat_new_entries _ _ w
      (sat_catch _ Tools.error_result _
         (sat_setup_then env Tools.GMAIL_SCOPES "gmail_token.pickle"
            "gmail" "v1" _ _ (read_emails_tail env max_results query)))) as H.
    change (try_except _ _) with (Tools.read_emails env max_results query) in H.
    destruct H as (r0 & [[Hs _]|(t1 & t2 & Ht & Hs & r1 & t' & -> & Hq & Hr)]
                      & Hres).
    + exfalso. eapply Forall_setup_no_execute; eauto.
    + rewrite Ht in Hin. apply in_app_or in Hin as [Hin|[Hin|Hin]].
      * exfalso. eapply Forall_setup_no_execute; eauto.
      * assert (r1 = Ok (VDict d)) as Hr1 by congruence.
        destruct (Hr d Hr1 Hno) as [_ ->]. exact Hres.
      * rewrite Forall_forall in Hq.
        apply list_elem_of_In in Hin. destruct (Hq _ Hin).
  - intros max_results time_min time_max calendarId a b n s o d Hin Hno.
    pose proof (sat_new_entries _ _ w
      (sat_catch _ Tools.error_result _
         (sat_setup_then env Tools.CALENDAR_SCOPES "calendar_token.pickle"
            "calendar" "v3" _ _
            (list_calendar_events_tail env max_results time_min time_max))))
      as H.
    change (try_except _ _)
      with (Tools.list_calendar_events env max_results time_min time_max) in H.
    destruct H as (r0 & [[Hs _]|(t1 & t2 & Ht & Hs & pre & tmin & t3 & Hpre
                                   & -> & Hwin)] & Hres).
    + exfalso. eapply Forall_setup_no_execute; eauto.
    + rewrite Ht in Hin. apply in_app_or in Hin as [Hin|Hin].
      { exfalso. eapply Forall_setup_no_execute; eauto. }
      apply in_app_or in Hin as [Hin|Hin].
      { destruct Hpre as [[_ ->]|[_ ->]]; [destruct Hin|].
        destruct Hin as [Hin|[]]. discriminate. }
      destruct Hwin as [[-> _]|(tmax & r1 & _ & -> & Hr)]; [destruct Hin|].
      destruct Hin as [Hin|[]].
      assert (r1 = Ok (VDict d)) as Hr1 by congruence.
      rewrite (Hr d Hr1 Hno) in Hres. exact Hres.
Qed.

(** C4. When [list_calendar_events] is called without [time_min] and
    [time_max], every request it sends is the events listing of the
    primary calendar whose [timeMin] is the clock reading [now] taken
    during the call and whose [timeMax] is that reading plus seven days
    (both in ISO format with a "Z" suffix). *)
Theorem default_window_is_seven_days
    (env : Env) (max_results : Z) (w : World) (req : request)
    (r : result pyval) :
  In (LExecute req r)
     (new_entries w
        (Tools.list_calendar_events env max_results None None w).2) ->
  exists now,
    In (LNow now)
       (new_entries w
          (Tools.list_calendar_events env max_results None None w).2) /\
    req = CalendarEventsList "primary"
            (isoformat now +:+ "Z")
            (isoformat (now + timedelta_days 7) +:+ "Z")
            max_results true "startTime".
Proof.
  intros Hin.
  pose proof (sat_new_entries _ _ w
    (sat_catch _ Tools.error_result _
       (sat_setup_then env Tools.CALENDAR_SCOPES "calendar_token.pickle"
          "calendar" "v3" _ _
          (list_calendar_events_tail env max_results None None)))) as H.
  change (try_except _ _)
    with (Tools.list_calendar_events env max_results None None) in H.
  destruct H as (r0 & [[Hs _]|(t1 & t2 & Ht & Hs & pre & now & t3 & Hpre
                                 & -> & Hwin)] & Hres).
  - exfalso. eapply Forall_setup_no_execute; eauto.
  - destruct Hpre as [[Hpre _]|[_ ->]]; [discriminate|].
    rewrite Ht in Hin |- *. exists now. split.
    + apply in_or_app. right. left. reflexivity.
    + apply in_app_or in Hin as [Hin|Hin].
      { exfalso. eapply Forall_setup_no_execute; eauto. }
      destruct Hin as [Hin|Hin]; [discriminate|].
      destruct Hwin as [[-> _]|(tmax & r1 & Hmax & -> & _)]; [destruct Hin|].
      destruct Hin as [Hin|[]].
      assert (req = events_request max_results now tmax) as ->
        by congruence.
      destruct Hmax as [Hmax|[_ ->]]; [discriminate|]. reflexivity.
Qed.

(** ** Inverting runs *)

Lemma getitem_world env v k w r w' : Py.getitem env v k w = (r, w') -> w' = w.
Proof.
  unfold Py.getitem. destruct v; try (intros [= _ <-]; reflexivity).
  destruct (dict_lookup k d); intros [= _ <-]; reflexivity.
Qed.

Lemma dict_get_world env v k default w r w' :
  Py.dict_get env v k default w = (r, w') -> w' = w.
Proof.
  unfold Py.dict_get. destruct v; intros [= _ <-]; reflexivity.
Qed.

Lemma py_iter_world env v w r w' : Py.py_iter env v w = (r, w') -> w' = w.
Proof.
  unfold Py.py_iter. destruct v; intros [= _ <-]; reflexivity.
Qed.

Lemma bind_inv_ok {A B} (m : M A) (k : A -> M B) w b w' :
  bind m k w = (Ok b, w') ->
  exists a w1, m w = (Ok a, w1) /\ k a w1 = (Ok b, w').
Proof.
  unfold bind. destruct (m w) as [[a|e] w1]; [eauto|discriminate].
Qed.

(** ** Header extraction *)

Lemma first_match_absent hs name default x :
  first_match hs name default x -> Forall (other_header name) hs ->
  x = default.
Proof.
  intros [[_ ->]|(pre & h & post & -> & _ & (n & Hn & En) & _)] Hall;
    [reflexivity|].
  apply Forall_app in Hall as [_ Hall].
  apply Forall_cons in Hall as [(n' & Hn' & En') _]. congruence.
Qed.

(** What a header lookup that returned has found. *)
Lemma first_header_ok env name default hs w x w' :
  Tools.first_header env name default hs w = (Ok x, w') ->
  w' = w /\ first_match hs name default x.
Proof.
  induction hs as [|h hs IH]; cbn [Tools.first_header].
  - intros [= <- <-]. split; [reflexivity|]. left. auto.
  - unfold Py.getitem at 1.
    destruct h as [| | | | |d]; try discriminate.
    destruct (dict_lookup "name" d) as [n|] eqn:Hn; [|discriminate].
    rewrite bind_ret. destruct (eq_str n name) eqn:En.
    + unfold Py.getitem.
      destruct (dict_lookup "value" d) as [v|] eqn:Hv; [|discriminate].
      intros [= <- <-]. split; [reflexivity|].
      right. exists [], (VDict d), hs.
      repeat split; [constructor|exists n; auto|exact Hv].
    + intros Hrun. destruct (IH Hrun) as [-> Hx]. split; [reflexivity|].
      assert (other_header name (VDict d)) as Hother by (exists n; auto).
      destruct Hx as [[Hall ->]|(pre & h & post & -> & Hpre & Hh & Hval)].
      * left. auto.
      * right. exists (VDict d :: pre), h, post. auto.
Qed.

Lemma header_ok env headers name default w x w' :
  Tools.header env headers name default w = (Ok x, w') ->
  exists hs, elements headers = Some hs /\ w' = w /\
             first_match hs name default x.
Proof.
  unfold Tools.header, Py.py_iter.
  destruct headers as [| | |s|l|d]; try discriminate; rewrite bind_ret;
    intros Hrun; destruct (first_header_ok _ _ _ _ _ _ _ Hrun) as [-> Hm];
    eexists; (split; [reflexivity|]); auto.
Qed.

(** What the projection of a fetched message gives when it succeeds. *)
Lemma email_summary_ok env message w summary w' :
  Tools.email_summary env message w = (Ok summary, w') ->
  w' = w /\ summarises message summary.
Proof.
  unfold Tools.email_summary. unfold Py.getitem at 1.
  destruct message as [| | | | |m]; try discriminate.
  destruct (dict_lookup "payload" m) as [payload|] eqn:Hp; [|discriminate].
  rewrite bind_ret. unfold Py.getitem at 1.
  destruct payload as [| | | | |p]; try discriminate.
  destruct (dict_lookup "headers" p) as [headers|] eqn:Hh; [|discriminate].
  rewrite bind_ret. intros Hrun.
  apply bind_inv_ok in Hrun as (subject & w1 & Hs & Hrun).
  destruct (header_ok _ _ _ _ _ _ _ Hs) as (hs & Hel & -> & Hsm).
  apply bind_inv_ok in Hrun as (sender & w1 & Hf & Hrun).
  destruct (header_ok _ _ _ _ _ _ _ Hf) as (hs' & Hel' & -> & Hfm).
  apply bind_inv_ok in Hrun as (date & w1 & Hd & Hrun).
  destruct (header_ok _ _ _ _ _ _ _ Hd) as (hs'' & Hel'' & -> & Hdm).
  assert (hs' = hs) as -> by congruence.
  assert (hs'' = hs) as -> by congruence.
  revert Hrun. unfold Py.getitem, Py.dict_get.
  destruct (dict_lookup "id" m) as [mid|] eqn:Hid; [|discriminate].
  rewrite !bind_ret. intros [= <- <-]. split; [reflexivity|].
  exists m, p, headers, hs, mid, subject, sender, date.
  repeat split; eauto using first_match_absent.
Qed.

Lemma fetch_email_summarises env msg w email w' :
  Tools.fetch_email env msg w = (Ok email, w') ->
  exists mid message,
    log w' = log w ++ [LExecute (GmailMessagesGet "me" mid "full")
                         (Ok message)] /\
    summarises message email.
Proof.
  unfold Tools.fetch_email. unfold bind at 1, Py.getitem at 1.
  destruct msg as [| | | | |d]; try discriminate.
  destruct (dict_lookup "id" d) as [mid|]; [|discriminate].
  unfold ret at 1. unfold bind, Tools.execute, ask.
  destruct (api_execute env (log w) (GmailMessagesGet "me" mid "full"))
    as [message|e]; [|discriminate].
  intros Hsum. destruct (email_summary_ok _ _ _ _ _ Hsum) as [-> Hs].
  exists mid, message. split; [reflexivity|exact Hs].
Qed.

Lemma for_each_fetch_email_summarises env msgs w emails w' :
  Py.for_each (Tools.fetch_email env) msgs w = (Ok emails, w') ->
  exists gets,
    log w' = log w ++ gets /\ Forall2 summarises (fetched gets) emails.
Proof.
  revert w emails w'. induction msgs as [|msg msgs IH]; intros w emails w'.
  - intros [= <- <-]. exists []. rewrite app_nil_r. split; [reflexivity|].
    constructor.
  - cbn [Py.for_each]. unfold bind at 1.
    destruct (Tools.fetch_email env msg w) as [[email|e] w1] eqn:E1;
      [|discriminate].
    unfold bind at 1.
    destruct (Py.for_each (Tools.fetch_email env) msgs w1)
      as [[rest|e] w2] eqn:E2; [|discriminate].
    intros [= <- <-].
    destruct (fetch_email_summarises _ _ _ _ _ E1)
      as (mid & message & Hl1 & Hs).
    destruct (IH _ _ _ E2) as (gets & Hl2 & Hall).
    exists (LExecute (GmailMessagesGet "me" mid "full") (Ok message) :: gets).
    split.
    + rewrite Hl2, Hl1, <- app_assoc. reflexivity.
    + cbn. constructor; assumption.
Qed.

Lemma fetched_setup t : Forall is_setup t -> fetched t = [].
Proof.
  induction 1 as [|ent t Hent _ IH]; [reflexivity|].
  destruct ent; try contradiction; exact IH.
Qed.

(** C8. The summaries [read_emails] returns are the projections of the
    messages it fetched, one per fetched message and in the order of the
    fetches: each summary takes subject, sender and date from the first
    header of the fetched message that is named "Subject", "From" and
    "Date" (first match wins; only the headers up to that match are
    looked at), and when no header is named "Subject" the subject is
    exactly "No Subject", when none is named "From" the sender is exactly
    "Unknown". *)
Theorem header_extraction_first_match
    (env : Env) (max_results : Z) (query : string) (w : World)
    (d : list (string * pyval)) :
  (Tools.read_emails env max_results query w).1 = Ok (VDict d) ->
  dict_lookup "status" d = Some (VStr "success") ->
  exists emails,
    dict_lookup "emails" d = Some (VList emails) /\
    Forall2 summarises
      (fetched (new_entries w (Tools.read_emails env max_results query w).2))
      emails.
Proof.
  unfold Tools.read_emails, try_except.
  match goal with |- context [match ?b w with _ => _ end] =>
    destruct (b w) as [[v|e] w'] eqn:Hbody end.
  2:{ destruct (is_exception e); cbn; [intros [= <-]|]; discriminate. }
  cbn [fst snd]. intros [= ->] _.
  apply bind_inv_ok in Hbody as (creds & w1 & Hcreds & Hbody).
  apply bind_inv_ok in Hbody as ([] & w2 & Hbuild & Hbody).
  apply bind_inv_ok in Hbody as (results & w3 & Hlist & Hbody).
  apply bind_inv_ok in Hbody as (messages & w4 & Hget & Hbody).
  apply dict_get_world in Hget as ->.
  destruct (emits_get_google_credentials env Tools.GMAIL_SCOPES
              "gmail_token.pickle" w) as (t1 & Hl1 & Hs1).
  rewrite Hcreds in Hl1. cbn [snd] in Hl1.
  unfold Tools.build, ask in Hbuild.
  destruct (discovery_build env (log w1) "gmail" "v1" creds) as [[]|e] eqn:Eb;
    [|discriminate].
  injection Hbuild as <-.
  unfold Tools.execute, ask in Hlist.
  set (w2 := logged (LBuild "gmail" "v1" creds (Ok ())) w1) in *.
  destruct (api_execute env (log w2) (GmailMessagesList "me" max_results query))
    as [res|e] eqn:El; [|discriminate].
  injection Hlist as -> <-.
  set (w3 := logged (LExecute (GmailMessagesList "me" max_results query)
                       (Ok results)) w2) in *.
  assert (forall gets, log w' = log w3 ++ gets ->
                       fetched (new_entries w w') = fetched gets) as Hfin.
  { intros gets Hl.
    assert (log w' = log w ++ (t1 ++ [LBuild "gmail" "v1" creds (Ok ());
                                       LExecute (GmailMessagesList "me"
                                                   max_results query)
                                         (Ok results)] ++ gets)) as Hlog.
    { rewrite Hl. subst w3 w2. cbn. rewrite Hl1, <- !app_assoc. reflexivity. }
    rewrite (new_entries_app _ _ _ Hlog). unfold fetched.
    rewrite omap_app. fold (fetched t1). rewrite (fetched_setup _ Hs1).
    reflexivity. }
  destruct (negb (truthy messages)).
  - injection Hbody as <- <-. exists []. split; [reflexivity|].
    rewrite (Hfin []) by (symmetry; apply app_nil_r). constructor.
  - apply bind_inv_ok in Hbody as (msgs & w4 & Hit & Hbody).
    apply py_iter_world in Hit as ->.
    apply bind_inv_ok in Hbody as (emails & w4 & Hall & Hbody).
    injection Hbody as <- <-.
    destruct (for_each_fetch_email_summarises _ _ _ _ _ Hall)
      as (gets & Hl & Hsum).
    exists emails. split; [reflexivity|]. rewrite (Hfin gets Hl). exact Hsum.
Qed.

(** ** A query followed by replies *)

(** The run of [try: response = query(p); k(response)  except ...]: the
    query comes first, whatever [k] and the handler do comes after. *)
Lemma query_run {A} env agent p (k : string -> M A) h w :
  try_except (let* response := Agent.simple_query env agent p in k response)
    h w
  = try_except
      (match sdk_query env (log w) p (Agent.system_prompt agent)
               (Agent.api_key agent) with
       | Ok parts => k (concat_str parts)
       | Raise e => raise e
       end)
      h
      (logged (LQuery p (Agent.system_prompt agent) (Agent.api_key agent)
                 (sdk_query env (log w) p (Agent.system_prompt agent)
                    (Agent.api_key agent))) w).
Proof.
  unfold try_except, bind, Agent.simple_query, bind, ask, ret, raise.
  destruct (sdk_query env (log w) p (Agent.system_prompt agent)
              (Agent.api_key agent)); reflexivity.
Qed.

Lemma query_then_replies {A} env agent p (k : string -> M A) h w Q :
  (forall x, emits Q (k x)) -> (forall e, emits Q (h e)) ->
  exists rest,
    new_entries w
      (try_except (let* response := Agent.simple_query env agent p in
                   k response) h w).2
    = LQuery p (Agent.system_prompt agent) (Agent.api_key agent)
        (sdk_query env (log w) p (Agent.system_prompt agent)
           (Agent.api_key agent)) :: rest /\
    Forall Q rest.
Proof.
  intros Hk Hh. rewrite query_run.
  set (r := sdk_query env (log w) p (Agent.system_prompt agent)
              (Agent.api_key agent)).
  assert (emits Q (try_except
                     (match r with
                      | Ok parts => k (concat_str parts)
                      | Raise e => raise e
                      end) h)) as Hm.
  { apply emits_try; [|assumption]. destruct r; [apply Hk|apply emits_raise]. }
  match goal with |- context [try_except _ h ?w1] =>
    destruct (Hm w1) as (t & Hl & Ht) end.
  exists t. split; [|assumption]. apply new_entries_app.
  rewrite Hl. cbn [logged log]. rewrite <- app_assoc. reflexivity.
Qed.

Lemma query_then_reply {A} env agent p (k : string -> M A) h w Q :
  (forall x, emits Q (k x)) -> (forall e, emits Q (h e)) ->
  exists r rest,
    new_entries w
      (try_except (let* response := Agent.simple_query env agent p in
                   k response) h w).2
    = LQuery p (Agent.system_prompt agent) (Agent.api_key agent) r :: rest /\
    Forall Q rest.
Proof.
  intros Hk Hh.
  destruct (query_then_replies env agent p k h w Q Hk Hh) as (rest & H).
  eauto.
Qed.

(** ** The slash command *)

Lemma command_run env agent command text w :
  argument_text command = Some text ->
  SlackBot._handle_command_async env agent command w
  = try_except
      (if String.eqb text "" then SlackBot.say env SlackBot.help_listing VNone
       else if String.eqb (lower text) "emails" then
         let* result := Agent.read_recent_emails env 5 "is:unread" in
         SlackBot.render_emails env result
       else if String.eqb (lower text) "calendar" then
         let* result := Agent.get_calendar_events env 5 in
         SlackBot.render_events env result
       else
         let* response := Agent.simple_query env agent (VStr text) in
         SlackBot.say env (VStr response) VNone)
      (SlackBot.command_except env) w.
Proof.
  unfold argument_text. intros H.
  destruct command as [| | | | |d]; try discriminate.
  unfold SlackBot._handle_command_async, try_except.
  unfold bind at 1. unfold Py.dict_get at 1.
  destruct (from_option id (VStr "") (dict_lookup "text" d));
    try discriminate.
  injection H as <-. reflexivity.
Qed.

(** C6. Let [text] be the trimmed argument text of a slash command.
    - If [text] is empty the handler only sends the fixed help listing:
      it talks to no service but Slack, and when Slack accepts the listing
      that message is all it does.
    - If [text] equals "emails" up to case ("EMAILS" does), it calls
      [read_emails] with limit 5 and filter "is:unread" and replies from
      its result; every Gmail listing it sends has these parameters and
      the generic query is not used.
    - If [text] equals "calendar" up to case, it calls
      [list_calendar_events] with limit 5 and replies from its result.
    - Any other text ("emails please" is one) is passed unchanged to the
      generic query, which is the first thing the handler does; the rest
      are replies. *)
Theorem slash_command_dispatch
    (env : Env) (agent : Agent.PersonalAssistantAgent) (command : pyval)
    (text : string) (w : World) :
  argument_text command = Some text ->
  (text = "" ->
   SlackBot._handle_command_async env agent command w
   = try_except (SlackBot.say env SlackBot.help_listing VNone)
                (SlackBot.command_except env) w /\
   Forall is_reply
     (new_entries w (SlackBot._handle_command_async env agent command w).2) /\
   (slack_say env (log w) SlackBot.help_listing VNone = Ok tt ->
    SlackBot._handle_command_async env agent command w
    = (Ok tt, logged (LSay SlackBot.help_listing VNone (Ok tt)) w))) /\
  (lower text = "emails" ->
   SlackBot._handle_command_async env agent command w
   = try_except
       (let* result := Tools.read_emails env 5 "is:unread" in
        SlackBot.render_emails env result)
       (SlackBot.command_except env) w /\
   Forall emails_fetch
     (new_entries w (SlackBot._handle_command_async env agent command w).2)) /\
  (lower text = "calendar" ->
   SlackBot._handle_command_async env agent command w
   = try_except
       (let* result := Tools.list_calendar_events env 5 None None in
        SlackBot.render_events env result)
       (SlackBot.command_except env) w /\
   Forall events_fetch
     (new_entries w (SlackBot._handle_command_async env agent command w).2)) /\
  (text <> "" -> lower text <> "emails" -> lower text <> "calendar" ->
   SlackBot._handle_command_async env agent command w
   = try_except
       (let* response := Agent.simple_query env agent (VStr text) in
        SlackBot.say env (VStr response) VNone)
       (SlackBot.command_except env) w /\
   exists r rest,
     new_entries w (SlackBot._handle_command_async env agent command w).2
     = LQuery (VStr text) (Agent.system_prompt agent) (Agent.api_key agent) r
       :: rest /\
     Forall is_reply rest).
Proof.
  intros Harg. rewrite (command_run _ _ _ _ _ Harg).
  repeat apply conj.
  - intros ->. split; [reflexivity|]. split.
    + apply (emits_all_new_entries is_reply
               (try_except (SlackBot.say env SlackBot.help_listing VNone)
                           (SlackBot.command_except env))).
      run_auto.
    + intros Hsay. unfold try_except, SlackBot.say, ask. simpl.
      rewrite Hsay. reflexivity.
  - intros Hl. destruct (String.eqb_spec text "") as [->|_]; [discriminate|].
    rewrite Hl. split; [reflexivity|].
    apply (emits_all_new_entries emails_fetch
             (try_except
                (let* result := Tools.read_emails env 5 "is:unread" in
                 SlackBot.render_emails env result)
                (SlackBot.command_except env))).
    unfold Tools.read_emails. run_auto.
  - intros Hl. destruct (String.eqb_spec text "") as [->|_]; [discriminate|].
    rewrite Hl. split; [reflexivity|].
    apply (emits_all_new_entries events_fetch
             (try_except
                (let* result := Tools.list_calendar_events env 5 None None in
                 SlackBot.render_events env result)
                (SlackBot.command_except env))).
    unfold Tools.list_calendar_events. run_auto.
  - intros H1 H2 H3.
    destruct (String.eqb_spec text "") as [?|_]; [contradiction|].
    destruct (String.eqb_spec (lower text) "emails") as [?|_];
      [contradiction|].
    destruct (String.eqb_spec (lower text) "calendar") as [?|_];
      [contradiction|].
    split; [reflexivity|].
    apply query_then_reply; intros; run_auto.
Qed.

(** ** Mentions *)

Lemma re_sub_hit s rest :
  match_mention s = Some rest -> re_sub_mention s = re_sub_mention rest.
Proof.
  funelim (re_sub_mention s); intros Hm; [discriminate|congruence..].
Qed.

Lemma re_sub_miss c t :
  match_mention (String c t) = None ->
  re_sub_mention (String c t) = String c (re_sub_mention t).
Proof.
  funelim (re_sub_mention (String c t)); intros Hm; congruence.
Qed.

Lemma match_mention_other c t :
  Ascii.eqb c "<" = false -> match_mention (String c t) = None.
Proof.
  destruct c as [[] [] [] [] [] [] [] []]; simpl; intros H;
    solve [reflexivity | discriminate].
Qed.

Lemma append_nil (s : string) : "" +:+ s = s.
Proof. reflexivity. Qed.

Lemma append_cons (c : ascii) (t s : string) :
  String c t +:+ s = String c (t +:+ s).
Proof. reflexivity. Qed.

Lemma append_assoc (a b c : string) : (a +:+ b) +:+ c = a +:+ (b +:+ c).
Proof.
  induction a as [|x a IH]; [reflexivity|].
  rewrite !append_cons, IH. reflexivity.
Qed.

Lemma append_length (a b : string) :
  String.length (a +:+ b) = (String.length a + String.length b)%nat.
Proof.
  induction a as [|x a IH]; [reflexivity|].
  rewrite append_cons. cbn [String.length]. rewrite IH. reflexivity.
Qed.

Lemma class_ident c : mention_class c = ident_char c.
Proof. destruct c as [[] [] [] [] [] [] [] []]; reflexivity. Qed.

Lemma class_run_ident name rest :
  forallb ident_char (list_ascii_of_string name) = true ->
  class_run (name +:+ String ">" rest)
  = (String.length name, String ">" rest).
Proof.
  induction name as [|c name IH]; cbn [list_ascii_of_string forallb];
    [reflexivity|].
  intros [Hc Hname]%andb_prop.
  rewrite append_cons. cbn [class_run String.length].
  rewrite class_ident, Hc, (IH Hname). reflexivity.
Qed.

Lemma token_match tok post :
  mention_token tok -> match_mention (tok +:+ post) = Some post.
Proof.
  intros (name & Hname & ->). apply andb_prop in Hname as [Hne Hall].
  rewrite !append_cons, append_nil, (append_assoc name ">" post).
  rewrite append_cons, append_nil.
  cbn [match_mention]. rewrite (class_run_ident _ _ Hall).
  destruct name as [|c name]; [discriminate|]. reflexivity.
Qed.

Lemma class_run_split t n r :
  class_run t = (n, r) ->
  exists name,
    t = name +:+ r /\ String.length name = n /\
    forallb ident_char (list_ascii_of_string name) = true.
Proof.
  revert n. induction t as [|c t IH]; intros n; cbn [class_run].
  - intros [= <- <-]. exists "". auto.
  - destruct (mention_class c) eqn:Ec.
    + destruct (class_run t) as [n' r'] eqn:Et. intros [= <- <-].
      destruct (IH n' eq_refl) as (name & -> & Hlen & Hall).
      exists (String c name). cbn [list_ascii_of_string forallb String.length].
      rewrite <- class_ident, Ec, Hall, Hlen. auto.
    + intros [= <- <-]. exists "". auto.
Qed.

Lemma match_token s rest :
  match_mention s = Some rest ->
  exists tok, mention_token tok /\ s = tok +:+ rest.
Proof.
  unfold match_mention.
  destruct s as [|a s]; [discriminate|].
  destruct (Ascii.eqb_spec a "<") as [->|Ha];
    [|intros H; destruct a as [[] [] [] [] [] [] [] []]; congruence].
  destruct s as [|b s]; [discriminate|].
  destruct (Ascii.eqb_spec b "@") as [->|Hb];
    [|intros H; destruct b as [[] [] [] [] [] [] [] []]; congruence].
  destruct (class_run s) as [n r] eqn:Et.
  destruct n as [|n]; [discriminate|].
  destruct r as [|c r]; [discriminate|].
  destruct (Ascii.eqb_spec c ">") as [->|Hc];
    [|intros H; destruct c as [[] [] [] [] [] [] [] []]; congruence].
  intros [= ->].
  destruct (class_run_split _ _ _ Et) as (name & -> & Hlen & Hall).
  exists ("<@" +:+ name +:+ ">"). split.
  - exists name. split; [|reflexivity]. unfold ident. rewrite Hall.
    destruct name; [discriminate|reflexivity].
  - rewrite !append_cons, append_nil, (append_assoc name ">" rest).
    rewrite append_cons, append_nil. reflexivity.
Qed.

Lemma class_run_append t a x :
  mention_class a = false ->
  class_run (t +:+ String a x)
  = ((class_run t).1, (class_run t).2 +:+ String a x).
Proof.
  intros Ha. induction t as [|c t IH].
  - rewrite append_nil. cbn [class_run]. rewrite Ha. reflexivity.
  - rewrite append_cons. cbn [class_run].
    destruct (mention_class c); [|reflexivity].
    rewrite IH. destruct (class_run t). reflexivity.
Qed.

(** A match cannot run into a text that starts with "<". *)
Lemma match_mention_append c t x :
  match_mention (String c t +:+ String "<" x)
  = option_map (fun rest => rest +:+ String "<" x) (match_mention (String c t)).
Proof.
  rewrite append_cons. unfold match_mention.
  destruct (Ascii.eqb_spec c "<") as [->|Hc];
    [|destruct c as [[] [] [] [] [] [] [] []]; solve [reflexivity|congruence]].
  destruct t as [|b t]; [reflexivity|]. rewrite append_cons.
  destruct (Ascii.eqb_spec b "@") as [->|Hb];
    [|destruct b as [[] [] [] [] [] [] [] []]; solve [reflexivity|congruence]].
  rewrite class_run_append by reflexivity.
  destruct (class_run t) as [n r]. cbn [fst snd].
  destruct n as [|n]; [reflexivity|].
  destruct r as [|d r]; [reflexivity|]. rewrite append_cons.
  destruct (Ascii.eqb_spec d ">") as [->|Hd];
    [reflexivity|destruct d as [[] [] [] [] [] [] [] []];
                  solve [reflexivity|congruence]].
Qed.

Lemma token_head tok :
  mention_token tok -> exists x, tok = String "<" x.
Proof. intros (name & _ & ->). eexists. reflexivity. Qed.

(** Every mention token is removed, wherever it stands. *)
Lemma re_sub_token s1 tok s2 :
  mention_token tok ->
  re_sub_mention (s1 +:+ tok +:+ s2) = re_sub_mention s1 +:+ re_sub_mention s2.
Proof.
  intros Htok. destruct (token_head _ Htok) as (x & Hx).
  remember (String.length s1) as n eqn:Hn. revert s1 Hn.
  induction n as [n IH] using lt_wf_ind. intros s1 Hn.
  destruct s1 as [|c t].
  - rewrite append_nil, (re_sub_hit _ _ (token_match _ s2 Htok)).
    simp re_sub_mention. reflexivity.
  - assert (match_mention (String c t +:+ tok +:+ s2)
            = option_map (fun rest => rest +:+ tok +:+ s2)
                (match_mention (String c t))) as Hm.
    { rewrite Hx, append_cons. apply (match_mention_append c t). }
    destruct (match_mention (String c t)) as [rest|] eqn:Hs.
    + rewrite (re_sub_hit _ _ Hm), (re_sub_hit _ _ Hs).
      destruct (match_token _ _ Hs) as (tok' & (name & _ & ->) & Hsplit).
      apply (IH (String.length rest)); [|reflexivity].
      subst n. rewrite Hsplit, !append_length. cbn [String.length]. lia.
    + rewrite append_cons in Hm |- *.
      rewrite (re_sub_miss _ _ Hm), (re_sub_miss _ _ Hs), append_cons.
      f_equal.
      apply (IH (String.length t)); [subst n; cbn; lia|reflexivity].
Qed.

(** A text without mention token is left as it is. *)
Lemma re_sub_no_token s :
  (forall pre tok post, s = pre +:+ tok +:+ post -> ~ mention_token tok) ->
  re_sub_mention s = s.
Proof.
  induction s as [|c t IH]; intros Hno; [simp re_sub_mention; reflexivity|].
  destruct (match_mention (String c t)) as [rest|] eqn:Hs.
  - destruct (match_token _ _ Hs) as (tok & Htok & Hsplit).
    destruct (Hno "" tok rest Hsplit Htok).
  - rewrite (re_sub_miss _ _ Hs). f_equal. apply IH.
    intros pre tok post ->. apply (Hno (String c pre) tok post). reflexivity.
Qed.

Lemma mention_run env agent event text w :
  dict_lookup "text" event = Some (VStr text) ->
  SlackBot._handle_mention_async env agent (VDict event) w
  = try_except
      (if String.eqb (strip (re_sub_mention text)) "" then
         SlackBot.say env (VStr SlackBot.greeting) VNone
       else
         let* ts := Py.dict_get env (VDict event) "ts" VNone in
         do SlackBot.say env (VStr "Processing your request...") ts in
         let* response :=
           Agent.simple_query env agent (VStr (strip (re_sub_mention text))) in
         let* ts := Py.dict_get env (VDict event) "ts" VNone in
         SlackBot.say env (VStr response) ts)
      (SlackBot.mention_except env (VDict event)) w.
Proof.
  intros H. unfold SlackBot._handle_mention_async, try_except.
  unfold bind at 1. unfold Py.dict_get at 1. rewrite H. reflexivity.
Qed.

(** C7. What the mention handler does with the text of an event.  It
    removes every mention token - "<@", uppercase letters and digits, ">" -
    wherever the token stands and whoever it names, not only a leading
    mention of the bot; a text without token is left as it is; the result
    is trimmed.  For the text of the claim, "<@U123ABC> what's on my
    calendar", that gives "what's on my calendar", as the claim says.  For
    "<@U123ABC> ask <@U456DEF> to join" it gives "ask  to join", where
    stripping the leading token would give "ask <@U456DEF> to join": the
    mention of the colleague is lost.  If nothing is left the handler only
    sends the fixed greeting; otherwise the cleaned text is what it passes
    to the generic query. *)
Theorem mention_tokens_are_removed
    (env : Env) (agent : Agent.PersonalAssistantAgent)
    (event : list (string * pyval)) (text : string) (w : World) :
  dict_lookup "text" event = Some (VStr text) ->
  (forall s1 tok s2,
     mention_token tok ->
     re_sub_mention (s1 +:+ tok +:+ s2)
     = re_sub_mention s1 +:+ re_sub_mention s2) /\
  (forall s,
     (forall pre tok post, s = pre +:+ tok +:+ post -> ~ mention_token tok) ->
     re_sub_mention s = s) /\
  strip (re_sub_mention "<@U123ABC> what's on my calendar")
  = "what's on my calendar" /\
  (strip (re_sub_mention "<@U123ABC> ask <@U456DEF> to join") = "ask  to join" /\
   strip_leading_mention "<@U123ABC> ask <@U456DEF> to join"
   = "ask <@U456DEF> to join") /\
  (strip (re_sub_mention text) = "" ->
   SlackBot._handle_mention_async env agent (VDict event) w
   = try_except (SlackBot.say env (VStr SlackBot.greeting) VNone)
                (SlackBot.mention_except env (VDict event)) w /\
   Forall is_reply
     (new_entries w
        (SlackBot._handle_mention_async env agent (VDict event) w).2) /\
   (slack_say env (log w) (VStr SlackBot.greeting) VNone = Ok tt ->
    SlackBot._handle_mention_async env agent (VDict event) w
    = (Ok tt, logged (LSay (VStr SlackBot.greeting) VNone (Ok tt)) w))) /\
  (strip (re_sub_mention text) <> "" ->
   SlackBot._handle_mention_async env agent (VDict event) w
   = try_except
       (let* ts := Py.dict_get env (VDict event) "ts" VNone in
        do SlackBot.say env (VStr "Processing your request...") ts in
        let* response :=
          Agent.simple_query env agent (VStr (strip (re_sub_mention text))) in
        let* ts := Py.dict_get env (VDict event) "ts" VNone in
        SlackBot.say env (VStr response) ts)
       (SlackBot.mention_except env (VDict event)) w).
Proof.
  intros Htext. rewrite (mention_run _ _ _ _ _ Htext).
  repeat apply conj.
  - intros s1 tok s2. apply re_sub_token.
  - apply re_sub_no_token.
  - reflexivity.
  - vm_compute. reflexivity.
  - vm_compute. reflexivity.
  - intros ->. split; [reflexivity|]. split.
    + apply (emits_all_new_entries is_reply
               (try_except (SlackBot.say env (VStr SlackBot.greeting) VNone)
                           (SlackBot.mention_except env (VDict event)))).
      run_auto.
    + intros Hsay. unfold try_except, SlackBot.say, ask. simpl.
      rewrite Hsay. reflexivity.
  - intros Hne.
    destruct (String.eqb_spec (strip (re_sub_mention text)) "") as [?|_];
      [contradiction|reflexivity].
Qed.

(** * Worked examples *)

(** During an outage [read_emails] returns the error result built from the
    exception of the Gmail listing. *)
Lemma outage_gives_error_result :
  (Tools.read_emails Demo.outage 10 "" Demo.world).1
  = Ok (VDict [("status", VStr "error");
               ("message", VStr "503 Service Unavailable")]).
Proof.
  apply (proj2 (proj1 (capability_functions_catch_exceptions Demo.outage)
                  10 "" Demo.world)
           (LExecute (GmailMessagesList "me" 10 "")
              (Raise (Exn "HttpError" "503 Service Unavailable")))
           (Exn "HttpError" "503 Service Unavailable")).
  - vm_compute. right. left. reflexivity.
  - reflexivity.
Defined.

(** C1 as stated fails: an interrupt during the Gmail listing is not
    caught by [except Exception]; [read_emails] returns no dictionary, the
    [KeyboardInterrupt] reaches the caller. *)
Lemma interrupt_reaches_the_caller :
  Tools.read_emails Cases.interrupted 10 "" Demo.world
  = (Raise (BaseExn "KeyboardInterrupt" ""),
     logged (LExecute (GmailMessagesList "me" 10 "")
               (Raise (BaseExn "KeyboardInterrupt" "")))
       (logged (LBuild "gmail" "v1" Demo.creds (Ok tt)) Demo.world)) /\
  ~ never_raises (Tools.read_emails Cases.interrupted 10 "").
Proof.
  assert (Tools.read_emails Cases.interrupted 10 "" Demo.world
          = (Raise (BaseExn "KeyboardInterrupt" ""),
             logged (LExecute (GmailMessagesList "me" 10 "")
                       (Raise (BaseExn "KeyboardInterrupt" "")))
               (logged (LBuild "gmail" "v1" Demo.creds (Ok tt)) Demo.world)))
    as Hrun by (vm_compute; reflexivity).
  split; [exact Hrun|].
  intros H. destruct (H Demo.world) as (d & Hd & _).
  rewrite Hrun in Hd. discriminate.
Qed.

(** On a fresh checkout the credential manager raises
    [FileNotFoundError]. *)
Lemma fresh_checkout_raises_file_not_found :
  Tools.get_google_credentials Demo.env Tools.GMAIL_SCOPES
    "gmail_token.pickle" Demo.fresh_world
  = (Raise (Exn "FileNotFoundError"
       "credentials.json not found. Please download it from Google Cloud Console."),
     Demo.fresh_world).
Proof.
  apply missing_client_secrets_raises.
  - reflexivity.
  - left. reflexivity.
Defined.

(** C2 as stated fails: on a fresh checkout (no token file, no
    [credentials.json]) the exception raised is not a
    [ConfigurationError]. *)
Lemma fresh_checkout_not_configuration_error :
  ~ exists e w',
      Tools.get_google_credentials Demo.env Tools.GMAIL_SCOPES
        "gmail_token.pickle" Demo.fresh_world = (Raise e, w') /\
      exn_class e = "ConfigurationError".
Proof.
  intros (e & w' & Hrun & Hclass).
  vm_compute in Hrun. injection Hrun as <- _. discriminate.
Qed.

(** A filter that matches nothing and an empty calendar give empty success
    results. *)
Lemma nothing_found_is_success :
  (Tools.read_emails Demo.env 10 "from:nobody@example.com"
     Demo.world).1
  = Ok (VDict [("status", VStr "success"); ("count", VInt 0);
               ("emails", VList [])]) /\
  (Tools.list_calendar_events Demo.env 10 None None Demo.world).1
  = Ok (VDict [("status", VStr "success"); ("count", VInt 0);
               ("events", VList [])]).
Proof.
  split.
  - apply (proj1 (empty_listing_is_success Demo.env Demo.world)
             10 "from:nobody@example.com" "me" 10 "from:nobody@example.com"
             [("resultSizeEstimate", VInt 0)]).
    + vm_compute. right. left. reflexivity.
    + left. reflexivity.
  - apply (proj2 (empty_listing_is_success Demo.env Demo.world)
             10 None None "primary" "2025-10-24T10:00:00Z"
             "2025-10-31T10:00:00Z" 10 true "startTime"
             [("kind", VStr "calendar#events"); ("items", VList [])]).
    + vm_compute. right. right. left. reflexivity.
    + right. reflexivity.
Defined.

(** Called at 2025-10-24T10:00:00 without bounds, [list_calendar_events]
    asks for the window that starts at that reading of the clock and ends
    seven days later. *)
Lemma default_window_on_24_october :
  exists now,
    In (LNow now)
       (new_entries Demo.world
          (Tools.list_calendar_events Demo.env 10 None None
             Demo.world).2) /\
    CalendarEventsList "primary" "2025-10-24T10:00:00Z"
      "2025-10-31T10:00:00Z" 10 true "startTime"
    = CalendarEventsList "primary"
        (isoformat now +:+ "Z")
        (isoformat (now + timedelta_days 7) +:+ "Z")
        10 true "startTime".
Proof.
  apply (default_window_is_seven_days Demo.env 10 Demo.world
           (CalendarEventsList "primary" "2025-10-24T10:00:00Z"
              "2025-10-31T10:00:00Z" 10 true "startTime")
           (Ok (VDict [("kind", VStr "calendar#events");
                       ("items", VList [])]))).
  vm_compute. right. right. left. reflexivity.
Defined.

(** The body sent for two attendees lists them in order. *)
Lemma two_attendees_in_body :
  exists d,
    Tools.event_body "Standup" "2025-10-24T10:00:00" "2025-10-24T10:15:00"
      "" "" (Some ["a@x.com"; "b@y.com"]) = VDict d /\
    dict_lookup "attendees" d
    = Some (VList [VDict [("email", VStr "a@x.com")];
                   VDict [("email", VStr "b@y.com")]]).
Proof.
  apply (proj1 (attendees_in_request_body Demo.env "Standup"
                  "2025-10-24T10:00:00" "2025-10-24T10:15:00" "" ""
                  Demo.world)
           ["a@x.com"; "b@y.com"] "primary" _
           (Ok (VDict [("id", VStr "ev42");
                       ("htmlLink",
                        VStr "https://www.google.com/calendar/event?eid=ev42")]))).
  - discriminate.
  - vm_compute. right. left. reflexivity.
Defined.

(** The body sent for [attendees=[]] has no [attendees] key. *)
Lemma no_attendees_key_for_empty_list :
  exists d,
    Tools.event_body "Standup" "2025-10-24T10:00:00" "2025-10-24T10:15:00"
      "" "" (Some []) = VDict d /\
    dict_lookup "attendees" d = None.
Proof.
  apply (proj2 (empty_attendees_like_none Demo.env "Standup"
                  "2025-10-24T10:00:00" "2025-10-24T10:15:00" "" ""
                  Demo.world)
           "primary" _
           (Ok (VDict [("id", VStr "ev42");
                       ("htmlLink",
                        VStr "https://www.google.com/calendar/event?eid=ev42")]))).
  vm_compute. right. left. reflexivity.
Defined.

(** "/assistant EMAILS" fetches the unread messages; "/assistant emails
    please" is a generic query. *)
Lemma emails_command_ignores_case :
  SlackBot._handle_command_async Demo.env Demo.agent
    (VDict [("text", VStr "EMAILS")]) Demo.world
  = try_except
      (let* result := Tools.read_emails Demo.env 5 "is:unread" in
       SlackBot.render_emails Demo.env result)
      (SlackBot.command_except Demo.env) Demo.world.
Proof.
  apply (slash_command_dispatch Demo.env Demo.agent
           (VDict [("text", VStr "EMAILS")]) "EMAILS" Demo.world).
  - reflexivity.
  - reflexivity.
Defined.

(** With a second mention in the text, what the handler forwards is not
    the text with only its leading mention stripped: the mention of the
    colleague is removed too. *)
Lemma second_mention_is_removed_too :
  strip_leading_mention Demo.two_mentions = "ask <@U456DEF> to join" /\
  new_entries Demo.world
    (SlackBot._handle_mention_async Demo.env Demo.agent
       (VDict [("text", VStr Demo.two_mentions);
               ("ts", VStr "1761300000.000100")]) Demo.world).2
  = [LSay (VStr "Processing your request...") (VStr "1761300000.000100")
       (Ok tt);
     LQuery (VStr "ask  to join") "You are a helpful personal assistant"
       "sk-ant-test" (Ok ["You have "; "a free afternoon."]);
     LSay (VStr "You have a free afternoon.") (VStr "1761300000.000100")
       (Ok tt)] /\
  "ask  to join" <> strip_leading_mention Demo.two_mentions.
Proof.
  split; [vm_compute; reflexivity|]. split; [|vm_compute; discriminate].
  rewrite (proj2 (proj2 (proj2 (proj2 (proj2
             (mention_tokens_are_removed Demo.env Demo.agent
                [("text", VStr Demo.two_mentions);
                 ("ts", VStr "1761300000.000100")]
                Demo.two_mentions Demo.world eq_refl)))))).
  - vm_compute. reflexivity.
  - vm_compute. discriminate.
Defined.

(** The one message of the mailbox has no Subject header: the summary
    [read_emails] returns for it is its projection, with the fallback
    subject. *)
Lemma missing_subject_falls_back :
  exists emails,
    dict_lookup "emails"
      [("status", VStr "success"); ("count", VInt 1);
       ("emails", VList [Cases.unread_summary])]
    = Some (VList emails) /\
    Forall2 summarises
      (fetched
         (new_entries Demo.world
            (Tools.read_emails Demo.env 5 "is:unread" Demo.world).2))
      emails.
Proof.
  apply (header_extraction_first_match Demo.env 5 "is:unread" Demo.world
           [("status", VStr "success"); ("count", VInt 1);
            ("emails", VList [Cases.unread_summary])]).
  - vm_compute. reflexivity.
  - reflexivity.
Defined.

(** A message posted in a public channel is dropped. *)
Lemma channel_message_is_dropped :
  SlackBot.handle_message Demo.env Demo.agent
    (VDict [("type", VStr "message"); ("channel_type", VStr "channel");
            ("text", VStr "hello")]) Demo.world
  = (Ok tt, Demo.world).
Proof.
  apply ignored_message_is_dropped. right. right. reflexivity.
Defined.

(** "/assistant emails please" is forwarded as it is to the generic
    query. *)
Example emails_please_is_a_query :
  new_entries Demo.world
    (SlackBot._handle_command_async Demo.env Demo.agent
       (VDict [("text", VStr "emails please")]) Demo.world).2
  = [LQuery (VStr "emails please") "You are a helpful personal assistant"
       "sk-ant-test" (Ok ["You have "; "a free afternoon."]);
     LSay (VStr "You have a free afternoon.") VNone (Ok tt)].
Proof. vm_compute. reflexivity. Qed.

(** "/assistant" alone is answered with the help listing. *)
Example bare_command_gets_help :
  new_entries Demo.world
    (SlackBot.handle_assistant_command Demo.env Demo.agent
       (VDict [("text", VStr "  ")]) Demo.world).2
  = [LAck; LSay SlackBot.help_listing VNone (Ok tt)].
Proof. vm_compute. reflexivity. Qed.

(** A mention with nothing but the bot's name is greeted. *)
Example bare_mention_is_greeted :
  new_entries Demo.world
    (SlackBot.handle_mention Demo.env Demo.agent
       (VDict [("text", VStr "<@U123ABC> "); ("ts", VStr "1761300000.000100")])
       Demo.world).2
  = [LSay (VStr "Hi! How can I assist you today?") VNone (Ok tt)].
Proof. vm_compute. reflexivity. Qed.

(** One unread message, without a Subject header. *)
Example one_unread_message :
  (Tools.read_emails Demo.env 5 "is:unread" Demo.world).1
  = Ok (VDict [("status", VStr "success"); ("count", VInt 1);
               ("emails",
                VList [VDict [("id", VStr "18c2f0");
                              ("subject", VStr "No Subject");
                              ("from", VStr "ann@example.com");
                              ("date", VStr "Fri, 24 Oct 2025 09:12:00 +0000");
                              ("snippet", VStr "See you at ten")]])]).
Proof. vm_compute. reflexivity. Qed.

(** Values of [isoformat], as the standard library prints them. *)
Example isoformat_min : isoformat 0 = "0001-01-01T00:00:00".
Proof. reflexivity. Qed.

Example isoformat_leap_day :
  isoformat 63844847999000005 = "2024-02-29T23:59:59.000005".
Proof. reflexivity. Qed.

Example isoformat_max :
  isoformat datetime_max = "9999-12-31T23:59:59.999999".
Proof. reflexivity. Qed.

(** * Further properties of tools.py *)

(** ** The credential manager *)

Lemma cached_credentials env scopes token_file w c :
  files w !! token_file = Some (Pickled (Some c)) -> valid c = true ->
  Tools.get_google_credentials env scopes token_file w = (Ok c, w).
Proof.
  intros Hf Hv.
  unfold Tools.get_google_credentials, bind, Py.path_exists, Py.pickle_load.
  rewrite Hf, bool_decide_eq_true_2 by eauto.
  rewrite Hf. cbn. rewrite Hv. reflexivity.
Qed.

Lemma renew_persists env scopes token_file creds w c w' :
  Tools.renew env scopes token_file creds w = (Ok c, w') ->
  files w' !! token_file = Some (Pickled (Some c)).
Proof.
  unfold Tools.renew, bind, Tools.refresh, Tools.run_flow, ask,
    Py.path_exists, Py.pickle_dump, ret, raise.
  destruct (Tools.refreshable creds) as [c0|].
  - destruct (oauth_refresh env (log w) c0) as [c1|e]; [|discriminate].
    intros [= <- <-]. cbn. apply lookup_insert_eq.
  - destruct (bool_decide (is_Some (files w !! "credentials.json")));
      [|discriminate].
    destruct (oauth_flow env (log w) "credentials.json" scopes) as [c1|e];
      [|discriminate].
    intros [= <- <-]. cbn. apply lookup_insert_eq.
Qed.

Lemma acquired_is_persisted env scopes token_file w c w' :
  Tools.get_google_credentials env scopes token_file w = (Ok c, w') ->
  files w' !! token_file = Some (Pickled (Some c)).
Proof.
  unfold Tools.get_google_credentials, Py.path_exists.
  unfold bind at 1. cbn [ret].
  destruct (files w !! token_file) as [f|] eqn:Hf.
  - rewrite bool_decide_eq_true_2 by eauto.
    unfold bind, Py.pickle_load. rewrite Hf.
    destruct f as [[c0|]|data]; [..|discriminate].
    + destruct (valid c0) eqn:Hv.
      * intros [= <- <-]. exact Hf.
      * apply renew_persists.
    + apply renew_persists.
  - rewrite bool_decide_eq_false_2 by (intros [? ?]; discriminate).
    unfold bind at 1. cbn [ret]. apply renew_persists.
Qed.

(** X1. A token file that holds a valid credential is all the credential
    manager uses: it returns that credential whatever scopes are asked
    for, contacts no service and writes no file. *)
Theorem valid_token_is_reused
    (env : Env) (scopes : list string) (token_file : string) (w : World)
    (c : Credentials) :
  files w !! token_file = Some (Pickled (Some c)) -> valid c = true ->
  Tools.get_google_credentials env scopes token_file w = (Ok c, w).
Proof. apply cached_credentials. Qed.

(** X2. An invalid credential that is expired and has a non-empty refresh
    token is refreshed, whether or not [credentials.json] exists: the only
    interaction is the refresh; when it succeeds the refreshed credential
    is returned and replaces the content of the token file; when it raises
    the exception goes to the caller and no file is written. *)
Theorem expired_token_is_refreshed
    (env : Env) (scopes : list string) (token_file : string) (w : World)
    (c : Credentials) (t : string) :
  files w !! token_file = Some (Pickled (Some c)) ->
  valid c = false -> expired c = true ->
  refresh_token c = Some t -> t <> "" ->
  Tools.get_google_credentials env scopes token_file w
  = match oauth_refresh env (log w) c with
    | Ok c' =>
        (Ok c',
         {| files := <[token_file := Pickled (Some c')]> (files w);
            log := log w ++ [LRefresh c (Ok c')] |})
    | Raise e => (Raise e, logged (LRefresh c (Raise e)) w)
    end.
Proof.
  intros Hf Hv He Ht Hne.
  unfold Tools.get_google_credentials, Tools.renew, bind, Py.path_exists,
    Py.pickle_load.
  rewrite Hf, bool_decide_eq_true_2 by eauto.
  rewrite Hf. cbn. rewrite Hv, He, Ht. cbn.
  destruct (String.eqb_spec t "") as [?|_]; [contradiction|]. cbn.
  unfold Tools.refresh, ask.
  destruct (oauth_refresh env (log w) c); reflexivity.
Qed.

(** X3. Without a usable credential (no token file, or an invalid
    credential that cannot be refreshed) and with [credentials.json]
    present, the interactive flow is run on [credentials.json] with the
    requested scopes and is the only interaction; its credential is
    returned and written to the token file; when it raises nothing is
    written. *)
Theorem interactive_flow_when_nothing_usable
    (env : Env) (scopes : list string) (token_file : string) (w : World) :
  is_Some (files w !! "credentials.json") ->
  (files w !! token_file = None \/
   exists c, files w !! token_file = Some (Pickled (Some c)) /\
             valid c = false /\ Tools.refreshable (Some c) = None) ->
  Tools.get_google_credentials env scopes token_file w
  = match oauth_flow env (log w) "credentials.json" scopes with
    | Ok c' =>
        (Ok c',
         {| files := <[token_file := Pickled (Some c')]> (files w);
            log := log w ++ [LAuthFlow "credentials.json" scopes (Ok c')] |})
    | Raise e =>
        (Raise e, logged (LAuthFlow "credentials.json" scopes (Raise e)) w)
    end.
Proof.
  intros Hsecrets Htoken.
  unfold Tools.get_google_credentials, Tools.renew, bind, Py.path_exists,
    Py.pickle_load.
  destruct Htoken as [Hnone|(c & Hsome & Hvalid & Hrefresh)].
  - rewrite Hnone.
    rewrite bool_decide_eq_false_2 by (intros [? ?]; discriminate).
    cbn. rewrite bool_decide_eq_true_2 by assumption.
    unfold Tools.run_flow, ask.
    destruct (oauth_flow env (log w) "credentials.json" scopes); reflexivity.
  - rewrite Hsome.
    rewrite bool_decide_eq_true_2 by eauto.
    rewrite Hsome. cbn -[Tools.refreshable].
    rewrite Hvalid, Hrefresh. cbn.
    rewrite bool_decide_eq_true_2 by assumption.
    unfold Tools.run_flow, ask.
    destruct (oauth_flow env (log w) "credentials.json" scopes); reflexivity.
Qed.

(** X4. Acquisition is cached: a credential that a call returned is in the
    token file afterwards, and if it is valid the next call for that token
    file, for any scopes, returns it again without any interaction or
    write. *)
Theorem acquired_credentials_are_cached
    (env : Env) (scopes scopes' : list string) (token_file : string)
    (w w' : World) (c : Credentials) :
  Tools.get_google_credentials env scopes token_file w = (Ok c, w') ->
  files w' !! token_file = Some (Pickled (Some c)) /\
  (valid c = true ->
   Tools.get_google_credentials env scopes' token_file w' = (Ok c, w')).
Proof.
  intros Hrun. pose proof (acquired_is_persisted _ _ _ _ _ _ Hrun) as Hf.
  split; [exact Hf|]. intros Hv. apply cached_credentials; assumption.
Qed.

(** ** Which files a run writes *)

Section FrameRules.
Context {A B : Type}.
Variable path : string.

Lemma writes_ret (a : A) : writes_only path (ret a).
Proof. intros w q _. reflexivity. Qed.

Lemma writes_raise e : writes_only path (@raise A e).
Proof. intros w q _. reflexivity. Qed.

Lemma writes_ask (oracle : list entry -> result A) mk :
  writes_only path (ask oracle mk).
Proof. intros w q _. reflexivity. Qed.

Lemma writes_bind (m : M A) (k : A -> M B) :
  writes_only path m -> (forall a, writes_only path (k a)) ->
  writes_only path (bind m k).
Proof.
  intros Hm Hk w q Hq. specialize (Hm w q Hq). unfold bind.
  destruct (m w) as [[a|e] w1]; simpl in *; [|assumption].
  rewrite (Hk a w1 q Hq). assumption.
Qed.

Lemma writes_try (m : M A) (h : exn -> M A) :
  writes_only path m -> (forall e, writes_only path (h e)) ->
  writes_only path (try_except m h).
Proof.
  intros Hm Hh w q Hq. specialize (Hm w q Hq). unfold try_except.
  destruct (m w) as [[a|e] w1]; simpl in *; [assumption|].
  destruct (is_exception e); [|assumption].
  rewrite (Hh e w1 q Hq). assumption.
Qed.

End FrameRules.

Lemma writes_for_each {A B} path (f : A -> M B) l :
  (forall x, writes_only path (f x)) -> writes_only path (Py.for_each f l).
Proof.
  intros Hf. induction l as [|x l IH]; simpl.
  - apply writes_ret.
  - apply writes_bind; [apply Hf|]. intros y.
    apply writes_bind; [apply IH|]. intros ys. apply writes_ret.
Qed.

Lemma writes_utcnow env path : writes_only path (Py.utcnow env).
Proof. intros w q _. reflexivity. Qed.

Lemma writes_path_exists path p : writes_only path (Py.path_exists p).
Proof. intros w q _. reflexivity. Qed.

Lemma writes_pickle_load env path p : writes_only path (Py.pickle_load env p).
Proof.
  intros w q _. unfold Py.pickle_load.
  destruct (files w !! p) as [[]|]; reflexivity.
Qed.

Lemma writes_pickle_dump path creds :
  writes_only path (Py.pickle_dump path creds).
Proof. intros w q Hq. cbn. apply lookup_insert_ne. congruence. Qed.

Ltac frame_basic :=
  match goal with
  | |- writes_only _ (bind _ _) => apply writes_bind; [|intros ?]
  | |- writes_only _ (try_except _ _) => apply writes_try; [|intros ?]
  | |- writes_only _ (ret _) => apply writes_ret
  | |- writes_only _ (raise _) => apply writes_raise
  | |- writes_only _ (ask _ _) => apply writes_ask
  | |- writes_only _ (Py.for_each _ _) => apply writes_for_each; intros ?
  | |- writes_only _ (Py.utcnow _) => apply writes_utcnow
  | |- writes_only _ (Py.path_exists _) => apply writes_path_exists
  | |- writes_only _ (Py.pickle_load _ _) => apply writes_pickle_load
  | |- writes_only _ (Py.pickle_dump _ _) => apply writes_pickle_dump
  | |- writes_only _ (match ?x with _ => _ end) => destruct x
  end.

Lemma writes_first_header env path name default hs :
  writes_only path (Tools.first_header env name default hs).
Proof.
  induction hs as [|h hs IH]; simpl;
    repeat (frame_basic || autounfold with runs); assumption.
Qed.

Ltac frame_auto :=
  repeat (first [ frame_basic
                | apply writes_first_header
                | autounfold with runs ]).

(** X5. No capability function touches a file other than its token file:
    the credential manager leaves every file but [token_file] as it is,
    [read_emails] every file but "gmail_token.pickle", and the two
    calendar functions every file but "calendar_token.pickle". *)
Theorem only_the_token_file_is_written (env : Env) :
  (forall scopes token_file,
     writes_only token_file
       (Tools.get_google_credentials env scopes token_file)) /\
  (forall max_results query,
     writes_only "gmail_token.pickle"
       (Tools.read_emails env max_results query)) /\
  (forall max_results time_min time_max,
     writes_only "calendar_token.pickle"
       (Tools.list_calendar_events env max_results time_min time_max)) /\
  (forall summary start_time end_time description location attendees,
     writes_only "calendar_token.pickle"
       (Tools.create_calendar_event env summary start_time end_time
          description location attendees)).
Proof.
  repeat apply conj; intros.
  - frame_auto.
  - unfold Tools.read_emails. frame_auto.
  - unfold Tools.list_calendar_events. frame_auto.
  - unfold Tools.create_calendar_event. frame_auto.
Qed.

(** X6. What the capability functions talk to.  Besides acquiring its
    credential and building its client, [read_emails] only sends Gmail
    listings for user "me" with the limit and filter it was given, and
    full-format message fetches; [list_calendar_events] only reads the
    clock and lists the primary calendar with its limit, single events,
    ordered by start time; [create_calendar_event] only inserts into the
    primary calendar.  None of them talks to Slack or to the language
    model. *)
Theorem capability_functions_stay_in_their_service (env : Env) (w : World) :
  (forall max_results query,
     Forall (gmail_only max_results query)
       (new_entries w (Tools.read_emails env max_results query w).2)) /\
  (forall max_results time_min time_max,
     Forall (calendar_only (is_events_list max_results))
       (new_entries w
          (Tools.list_calendar_events env max_results time_min time_max w).2)) /\
  (forall summary start_time end_time description location attendees,
     Forall (calendar_only is_events_insert)
       (new_entries w
          (Tools.create_calendar_event env summary start_time end_time
             description location attendees w).2)).
Proof.
  repeat apply conj; intros; apply emits_all_new_entries.
  - unfold Tools.read_emails, Tools.GMAIL_SCOPES. run_auto.
  - unfold Tools.list_calendar_events, Tools.CALENDAR_SCOPES. run_auto.
  - unfold Tools.create_calendar_event, Tools.CALENDAR_SCOPES. run_auto.
Qed.

(** ** read_emails: one listing, one fetch per message *)

Lemma silent_email_summary env message : silent (Tools.email_summary env message).
Proof. apply emits_nothing_silent. run_auto. Qed.

Lemma fetch_email_ok env msg w email w' :
  Tools.fetch_email env msg w = (Ok email, w') ->
  exists ent, log w' = log w ++ [ent] /\ answered_get ent.
Proof.
  unfold Tools.fetch_email. unfold bind at 1.
  destruct (Py.getitem env msg "id" w) as [[mid|e] w1] eqn:Eid;
    [|discriminate].
  apply getitem_world in Eid as ->.
  unfold bind, Tools.execute, ask.
  destruct (api_execute env (log w) (GmailMessagesGet "me" mid "full"))
    as [message|e]; [|discriminate].
  intros Hsum.
  pose proof (silent_email_summary env message
                (logged (LExecute (GmailMessagesGet "me" mid "full")
                           (Ok message)) w)) as Hs.
  rewrite Hsum in Hs. cbn [snd] in Hs.
  eexists. split; [exact Hs|]. exact I.
Qed.

Lemma for_each_fetch_email_ok env msgs w emails w' :
  Py.for_each (Tools.fetch_email env) msgs w = (Ok emails, w') ->
  exists gets,
    log w' = log w ++ gets /\ length gets = length emails /\
    Forall answered_get gets.
Proof.
  revert w emails w'. induction msgs as [|msg msgs IH]; intros w emails w'.
  - intros [= <- <-]. exists []. rewrite app_nil_r. auto.
  - cbn [Py.for_each]. unfold bind at 1.
    destruct (Tools.fetch_email env msg w) as [[email|e] w1] eqn:E1;
      [|discriminate].
    unfold bind at 1.
    destruct (Py.for_each (Tools.fetch_email env) msgs w1)
      as [[rest|e] w2] eqn:E2; [|discriminate].
    intros [= <- <-].
    destruct (fetch_email_ok _ _ _ _ _ E1) as (ent & Hl1 & Hent).
    destruct (IH _ _ _ E2) as (gets & Hl2 & Hlen & Hall).
    exists (ent :: gets). repeat split.
    + rewrite Hl2, Hl1, <- app_assoc. reflexivity.
    + simpl. congruence.
    + constructor; assumption.
Qed.

Lemma consistent_ok_no_raise {A} (m : M A) w a w' :
  consistent m -> m w = (Ok a, w') ->
  exists t, log w' = log w ++ t /\ Forall (fun ent => raised ent = None) t.
Proof.
  intros Hc Hrun. destruct (Hc w) as (t & Hl & Ht).
  rewrite Hrun in Hl, Ht. cbn [fst snd] in *.
  exists t. split; [assumption|].
  apply Forall_forall. intros ent Hin%list_elem_of_In.
  destruct (raised ent) as [e|] eqn:Hr; [|reflexivity].
  specialize (Ht _ _ Hin Hr). discriminate.
Qed.

Lemma no_raise_no_requests t :
  Forall is_setup t ->
  filter is_messages_list t = [] /\ filter is_messages_get t = [].
Proof.
  induction 1 as [|ent t Hent _ [IH1 IH2]]; [auto|].
  destruct ent; try contradiction; auto.
Qed.

Lemma answered_gets_are_gets t :
  Forall answered_get t ->
  filter is_messages_list t = [] /\ filter is_messages_get t = t /\
  Forall (fun ent => raised ent = None) t.
Proof.
  induction 1 as [|ent t Hent _ (IH1 & IH2 & IH3)]; [auto|].
  destruct ent as [| | |[] []| | | | |]; try contradiction.
  rewrite filter_cons_False by (intros []).
  rewrite filter_cons_True by exact I.
  rewrite IH2. auto.
Qed.

(** X7. A successful [read_emails] made exactly one listing request and
    one message fetch per email it returns, no interaction of the call
    raised, and its [count] is the number of emails in the result. *)
Theorem one_fetch_per_email
    (env : Env) (max_results : Z) (query : string) (w : World)
    (d : list (string * pyval)) :
  (Tools.read_emails env max_results query w).1 = Ok (VDict d) ->
  dict_lookup "status" d = Some (VStr "success") ->
  exists emails,
    d = [("status", VStr "success");
         ("count", VInt (Z.of_nat (length emails)));
         ("emails", VList emails)] /\
    length (filter is_messages_list
              (new_entries w (Tools.read_emails env max_results query w).2))
    = 1%nat /\
    length (filter is_messages_get
              (new_entries w (Tools.read_emails env max_results query w).2))
    = length emails /\
    Forall (fun ent => raised ent = None)
      (new_entries w (Tools.read_emails env max_results query w).2).
Proof.
  unfold Tools.read_emails, try_except.
  match goal with |- context [match ?b w with _ => _ end] =>
    destruct (b w) as [[v|e] w'] eqn:Hbody end.
  2:{ destruct (is_exception e); cbn; [intros [= <-]|]; discriminate. }
  cbn [fst snd]. intros [= ->] _.
  apply bind_inv_ok in Hbody as (creds & w1 & Hcreds & Hbody).
  apply bind_inv_ok in Hbody as ([] & w2 & Hbuild & Hbody).
  apply bind_inv_ok in Hbody as (results & w3 & Hlist & Hbody).
  apply bind_inv_ok in Hbody as (messages & w4 & Hget & Hbody).
  apply dict_get_world in Hget as ->.
  destruct (emits_get_google_credentials env Tools.GMAIL_SCOPES
              "gmail_token.pickle" w) as (t1 & Hl1 & Hs1).
  destruct (consistent_ok_no_raise _ _ _ _
              (consistent_get_google_credentials env _ _) Hcreds)
    as (t1' & Hl1' & Hn1).
  rewrite Hcreds in Hl1. cbn [snd] in Hl1.
  assert (t1' = t1) as -> by (rewrite Hl1 in Hl1'; eapply app_inv_head; eauto).
  unfold Tools.build, ask in Hbuild.
  destruct (discovery_build env (log w1) "gmail" "v1" creds) as [[]|e] eqn:Eb;
    [|discriminate].
  injection Hbuild as <-.
  unfold Tools.execute, ask in Hlist.
  set (w2 := logged (LBuild "gmail" "v1" creds (Ok ())) w1) in *.
  destruct (api_execute env (log w2) (GmailMessagesList "me" max_results query))
    as [res|e] eqn:El; [|discriminate].
  injection Hlist as -> <-.
  set (w3 := logged (LExecute (GmailMessagesList "me" max_results query)
                       (Ok results)) w2) in *.
  destruct (no_raise_no_requests _ Hs1) as [Hf1 Hf2].
  assert (forall (gets : list entry) (emails : list pyval),
            log w' = log w3 ++ gets -> length gets = length emails ->
            Forall answered_get gets ->
            length (filter is_messages_list (new_entries w w')) = 1%nat /\
            length (filter is_messages_get (new_entries w w')) = length emails /\
            Forall (fun ent => raised ent = None) (new_entries w w')) as Hfin.
  { intros gets emails Hl Hlen Hall.
    destruct (answered_gets_are_gets _ Hall) as (Hg1 & Hg2 & Hg3).
    assert (log w' = log w ++ (t1 ++ [LBuild "gmail" "v1" creds (Ok ());
                                       LExecute (GmailMessagesList "me"
                                                   max_results query)
                                         (Ok results)] ++ gets)) as Hlog.
    { rewrite Hl. subst w3 w2. cbn. rewrite Hl1, <- !app_assoc. reflexivity. }
    rewrite (new_entries_app _ _ _ Hlog).
    rewrite !filter_app, Hf1, Hf2, Hg1, Hg2. cbn.
    repeat split; [assumption|].
    apply Forall_app. split; [assumption|].
    repeat constructor. assumption. }
  destruct (negb (truthy messages)).
  - injection Hbody as <- <-. exists [].
    split; [reflexivity|]. apply (Hfin [] []); auto.
    symmetry. apply app_nil_r.
  - apply bind_inv_ok in Hbody as (msgs & w4 & Hit & Hbody).
    apply py_iter_world in Hit as ->.
    apply bind_inv_ok in Hbody as (emails & w4 & Hall & Hbody).
    injection Hbody as <- <-.
    destruct (for_each_fetch_email_ok _ _ _ _ _ Hall)
      as (gets & Hl & Hlen & Hgets).
    exists emails. split; [reflexivity|]. eapply Hfin; eauto.
Qed.

(** ** The calendar functions in detail *)

(** Acquire, build, run the rest: as [sat_setup_then], and the log tells
    whether [build] succeeded. *)
Lemma sat_setup_built {A} env scopes token_file api version (k : M A)
    (P : list entry -> result A -> Prop) :
  sat k P ->
  sat (let* creds := Tools.get_google_credentials env scopes token_file in
       do Tools.build env api version creds in
       k)
      (fun t r =>
         (Forall (fun ent => is_setup ent /\ ~ is_built ent) t /\
          exists e, r = Raise e) \/
         (exists t1 c t2,
            t = t1 ++ LBuild api version c (Ok tt) :: t2 /\
            Forall is_oauth t1 /\ P t2 r)).
Proof.
  intros Hk w. unfold bind.
  assert (emits is_oauth (Tools.get_google_credentials env scopes token_file))
    as Hcreds by run_auto.
  destruct (Hcreds w) as (t1 & Hl1 & H1).
  assert (Forall (fun ent => is_setup ent /\ ~ is_built ent) t1) as H1'.
  { eapply Forall_impl; [exact H1|]. intros [] Hent; try contradiction;
      split; auto. }
  destruct (Tools.get_google_credentials env scopes token_file w)
    as [[c|e] w1]; simpl in *.
  - unfold Tools.build, ask.
    destruct (discovery_build env (log w1) api version c) as [[]|e] eqn:E;
      simpl.
    + destruct (Hk (logged (LBuild api version c (Ok ())) w1))
        as (t2 & Hl2 & H2).
      exists (t1 ++ LBuild api version c (Ok ()) :: t2). split.
      * rewrite Hl2. simpl. rewrite Hl1, <- !app_assoc. reflexivity.
      * right. exists t1, c, t2. auto.
    + exists (t1 ++ [LBuild api version c (Raise e)]). split.
      * rewrite Hl1, <- !app_assoc. reflexivity.
      * left. split; [|eauto].
        apply Forall_app. split; [assumption|].
        repeat constructor. simpl. auto.
  - exists t1. split; [assumption|]. left. eauto.
Qed.

Lemma silent_format_events env events_result :
  silent (format_events env events_result).
Proof. apply emits_nothing_silent. unfold format_events. run_auto. Qed.

Lemma list_calendar_events_listing env max_results time_min time_max :
  sat (let* time_min := match time_min with
                        | None => Py.utcnow env
                        | Some t => ret t
                        end in
       let* time_max := match time_max with
                        | None => Py.datetime_add time_min (timedelta_days 7)
                        | Some t => ret t
                        end in
       let* events_result :=
         Tools.execute env
           (CalendarEventsList "primary"
              (isoformat time_min +:+ "Z") (isoformat time_max +:+ "Z")
              max_results true "startTime") in
       let* events := Py.dict_get env events_result "items" (VList []) in
       let* evs := Py.py_iter env events in
       let* formatted_events := Py.for_each (Tools.format_event env) evs in
       ret (VDict [("status", VStr "success");
                   ("count", VInt (Z.of_nat (length formatted_events)));
                   ("events", VList formatted_events)]))
      (calendar_listing env max_results time_min time_max).
Proof.
  assert (forall tmin w, exists t,
    log ((let* time_max := match time_max with
                           | None => Py.datetime_add tmin (timedelta_days 7)
                           | Some t => ret t
                           end in
          let* events_result :=
            Tools.execute env
              (CalendarEventsList "primary"
                 (isoformat tmin +:+ "Z") (isoformat time_max +:+ "Z")
                 max_results true "startTime") in
          format_events env events_result) w).2 = log w ++ t /\
    match window_end tmin time_max with
    | None =>
        t = [] /\
        ((let* time_max := match time_max with
                           | None => Py.datetime_add tmin (timedelta_days 7)
                           | Some t => ret t
                           end in
          let* events_result :=
            Tools.execute env
              (CalendarEventsList "primary"
                 (isoformat tmin +:+ "Z") (isoformat time_max +:+ "Z")
                 max_results true "startTime") in
          format_events env events_result) w).1
        = Raise (Exn "OverflowError" "date value out of range")
    | Some tmax =>
        exists r1 w1,
          t = [LExecute (events_request max_results tmin tmax) r1] /\
          ((let* time_max := match time_max with
                             | None => Py.datetime_add tmin (timedelta_days 7)
                             | Some t => ret t
                             end in
            let* events_result :=
              Tools.execute env
                (CalendarEventsList "primary"
                   (isoformat tmin +:+ "Z") (isoformat time_max +:+ "Z")
                   max_results true "startTime") in
            format_events env events_result) w).1
          = match r1 with
            | Ok events_result => (format_events env events_result w1).1
            | Raise e => Raise e
            end
    end) as Hwin.
  { assert (forall tmin tmax w, exists r1 w1,
      log ((let* events_result :=
              Tools.execute env (events_request max_results tmin tmax) in
            format_events env events_result) w).2
      = log w ++ [LExecute (events_request max_results tmin tmax) r1] /\
      ((let* events_result :=
          Tools.execute env (events_request max_results tmin tmax) in
        format_events env events_result) w).1
      = match r1 with
        | Ok events_result => (format_events env events_result w1).1
        | Raise e => Raise e
        end) as Hsend.
    { intros tmin tmax w.
      set (req := events_request max_results tmin tmax).
      unfold bind, Tools.execute, ask.
      destruct (api_execute env (log w) req) as [results|e].
      - exists (Ok results), (logged (LExecute req (Ok results)) w).
        split; [|reflexivity]. cbn [snd].
        rewrite silent_format_events. reflexivity.
      - exists (Raise e), w. split; reflexivity. }
    intros tmin w. unfold window_end. destruct time_max as [tmax|].
    - rewrite bind_ret. destruct (Hsend tmin tmax w) as (r1 & w1 & Hl & Hr).
      eexists. split; [exact Hl|]. exists r1, w1. auto.
    - unfold Py.datetime_add.
      destruct ((0 <=? tmin + timedelta_days 7)
                && (tmin + timedelta_days 7 <=? datetime_max)).
      + rewrite bind_ret.
        destruct (Hsend tmin (tmin + timedelta_days 7) w)
          as (r1 & w1 & Hl & Hr).
        eexists. split; [exact Hl|]. exists r1, w1. auto.
      + rewrite bind_raise_now. exists []. split.
        * symmetry. apply app_nil_r.
        * auto. }
  intros w. unfold calendar_listing. destruct time_min as [tmin|].
  - rewrite bind_ret. destruct (Hwin tmin w) as (t & Hl & Ht).
    exists t. split; [exact Hl|]. exists [], tmin. split; [auto|].
    destruct (window_end tmin time_max).
    + destruct Ht as (r1 & w1 & -> & Hr). exists r1, w1. auto.
    + destruct Ht as [-> Hr]. auto.
  - set (now := clock env (log w)).
    assert (Py.utcnow env w = (Ok now, logged (LNow now) w)) as Hnow
      by reflexivity.
    rewrite (bind_ok _ _ _ _ _ Hnow).
    destruct (Hwin now (logged (LNow now) w)) as (t & Hl & Ht).
    exists (LNow now :: t). split.
    + etransitivity; [exact Hl|]. simpl. rewrite <- app_assoc. reflexivity.
    + exists [LNow now], now. split; [auto|].
      destruct (window_end now time_max).
      * destruct Ht as (r1 & w1 & -> & Hr). exists r1, w1. auto.
      * destruct Ht as [-> Hr]. auto.
Qed.

Lemma list_calendar_events_run env max_results time_min time_max w :
  exists r0,
    ((Forall (fun ent => is_setup ent /\ ~ is_built ent)
        (new_entries w
           (Tools.list_calendar_events env max_results time_min time_max w).2)
      /\ exists e, r0 = Raise e) \/
     (exists t1 c t2,
        new_entries w
          (Tools.list_calendar_events env max_results time_min time_max w).2
        = t1 ++ LBuild "calendar" "v3" c (Ok tt) :: t2 /\
        Forall is_oauth t1 /\
        calendar_listing env max_results time_min time_max t2 r0)) /\
    (Tools.list_calendar_events env max_results time_min time_max w).1
    = match r0 with
      | Ok v => Ok v
      | Raise e => if is_exception e then Ok (Tools.error_result e) else Raise e
      end.
Proof.
  exact (sat_new_entries _ _ w
    (sat_catch _ Tools.error_result _
       (sat_setup_built env Tools.CALENDAR_SCOPES "calendar_token.pickle"
          "calendar" "v3" _ _
          (list_calendar_events_listing env max_results time_min time_max)))).
Qed.

Lemma Forall_not_in {A} (P : A -> Prop) (l : list A) x :
  Forall P l -> ~ P x -> ~ In x l.
Proof.
  intros H Hx Hin. rewrite Forall_forall in H.
  apply Hx, H, list_elem_of_In, Hin.
Qed.

Lemma format_event_projection env d out w :
  event_projection d = Some out ->
  Tools.format_event env (VDict d) w = (Ok out, w).
Proof.
  unfold event_projection.
  destruct (dict_lookup "start" d) as [[| | | | |s]|] eqn:Hs; try discriminate.
  destruct (dict_lookup "end" d) as [[| | | | |e]|] eqn:He; try discriminate.
  destruct (dict_lookup "id" d) as [eid|] eqn:Hid; try discriminate.
  intros [= <-].
  unfold Tools.format_event, Tools.event_time, bind, Py.getitem, Py.dict_get,
    ret, shown_time.
  rewrite Hs, He, Hid. cbn.
  destruct (dict_lookup "dateTime" s), (dict_lookup "date" s),
    (dict_lookup "dateTime" e), (dict_lookup "date" e); reflexivity.
Qed.

Lemma for_each_format_event env evs outs w :
  Forall2 projects evs outs ->
  Py.for_each (Tools.format_event env) evs w = (Ok outs, w).
Proof.
  induction 1 as [|ev out evs outs (d & -> & Hp) _ IH]; [reflexivity|].
  cbn [Py.for_each].
  rewrite (bind_ok _ _ _ _ _ (format_event_projection env _ _ w Hp)).
  rewrite (bind_ok _ _ _ _ _ IH). reflexivity.
Qed.

(** X8. When the calendar answers the listing with events that each have
    an [id] and dictionaries under [start] and [end],
    [list_calendar_events] returns them all, in the order received, each
    projected to id, summary (default "No Title"), start and end (the
    timestamp if present, else the date, else [None]), location and
    description (default empty), with [count] their number. *)
Theorem events_are_projected_in_order
    (env : Env) (max_results : Z) (time_min time_max : option Z) (w : World)
    (calendarId a b : string) (n : Z) (s : bool) (o : string)
    (d : list (string * pyval)) (evs outs : list pyval) :
  In (LExecute (CalendarEventsList calendarId a b n s o) (Ok (VDict d)))
     (new_entries w
        (Tools.list_calendar_events env max_results time_min time_max w).2) ->
  dict_lookup "items" d = Some (VList evs) ->
  Forall2 projects evs outs ->
  (Tools.list_calendar_events env max_results time_min time_max w).1
  = Ok (VDict [("status", VStr "success");
               ("count", VInt (Z.of_nat (length outs)));
               ("events", VList outs)]).
Proof.
  intros Hin Hitems Hevs.
  destruct (list_calendar_events_run env max_results time_min time_max w)
    as (r0 & [[Hall _]|(t1 & c & t2 & Ht & H1 & pre & tmin & Hpre & Hwin)]
          & Hres).
  - exfalso. revert Hin. eapply Forall_not_in; [exact Hall|].
    intros [[] _].
  - rewrite Hres. rewrite Ht in Hin.
    apply in_app_or in Hin as [Hin|[Hin|Hin]].
    { exfalso. revert Hin. eapply Forall_not_in; [exact H1|]. intros []. }
    { discriminate. }
    destruct (window_end tmin time_max) as [tmax|].
    + destruct Hwin as (r1 & w1 & -> & ->).
      apply in_app_or in Hin as [Hin|[Hin|[]]].
      { destruct Hpre as [[_ ->]|[_ ->]]; [destruct Hin|].
        destruct Hin as [Hin|[]]. discriminate. }
      assert (r1 = Ok (VDict d)) as -> by congruence.
      unfold format_events, bind, Py.dict_get, Py.py_iter, ret.
      rewrite Hitems. cbn.
      rewrite (for_each_format_event env evs outs w1 Hevs). reflexivity.
    + destruct Hwin as [-> _].
      destruct Hpre as [[_ ->]|[_ ->]]; [destruct Hin|].
      destruct Hin as [Hin|[]]. discriminate.
Qed.

(** X9. With an explicit [time_min], [list_calendar_events] never reads
    the clock, and every request it sends is for the window from
    [time_min] to the given [time_max] or, by default, to seven days after
    [time_min] (not after the current time). *)
Theorem explicit_window_is_used
    (env : Env) (max_results tmin : Z) (time_max : option Z) (w : World) :
  (forall t,
     ~ In (LNow t)
         (new_entries w
            (Tools.list_calendar_events env max_results (Some tmin)
               time_max w).2)) /\
  (forall req r,
     In (LExecute req r)
        (new_entries w
           (Tools.list_calendar_events env max_results (Some tmin)
              time_max w).2) ->
     exists tmax,
       (time_max = Some tmax \/
        time_max = None /\ tmax = tmin + timedelta_days 7) /\
       req = CalendarEventsList "primary"
               (isoformat tmin +:+ "Z") (isoformat tmax +:+ "Z")
               max_results true "startTime").
Proof.
  destruct (list_calendar_events_run env max_results (Some tmin) time_max w)
    as (r0 & [[Hall _]|(t1 & c & t2 & Ht & H1 & pre & tmin' & Hpre & Hwin)]
          & Hres).
  - split.
    + intros t. eapply Forall_not_in; [exact Hall|]. intros [[] _].
    + intros req r Hin. exfalso. revert Hin.
      eapply Forall_not_in; [exact Hall|]. intros [[] _].
  - destruct Hpre as [[[= <-] ->]|[[=] _]].
    rewrite Ht. cbn [app] in Hwin.
    assert (forall ent, In ent (t1 ++ LBuild "calendar" "v3" c (Ok ()) :: t2) ->
                        is_oauth ent \/ ent = LBuild "calendar" "v3" c (Ok ())
                        \/ In ent t2) as Hcases.
    { intros ent [Hin|[Hin|Hin]]%in_app_or; auto.
      left. rewrite Forall_forall in H1. apply H1, list_elem_of_In, Hin. }
    unfold window_end in Hwin. split.
    + intros t Hin. apply Hcases in Hin as [[]|[Hin|Hin]]; [discriminate|].
      destruct time_max as [tmax|];
        [|destruct ((0 <=? tmin + timedelta_days 7)
                    && (tmin + timedelta_days 7 <=? datetime_max))].
      * destruct Hwin as (r1 & w1 & -> & _). destruct Hin as [Hin|[]].
        discriminate.
      * destruct Hwin as (r1 & w1 & -> & _). destruct Hin as [Hin|[]].
        discriminate.
      * destruct Hwin as [-> _]. destruct Hin.
    + intros req r Hin.
      apply Hcases in Hin as [[]|[Hin|Hin]]; [discriminate|].
      destruct time_max as [tmax|];
        [|destruct ((0 <=? tmin + timedelta_days 7)
                    && (tmin + timedelta_days 7 <=? datetime_max))].
      * destruct Hwin as (r1 & w1 & -> & _). destruct Hin as [Hin|[]].
        exists tmax. split; [auto|]. unfold events_request in Hin. congruence.
      * destruct Hwin as (r1 & w1 & -> & _). destruct Hin as [Hin|[]].
        exists (tmin + timedelta_days 7). split; [auto|].
        unfold events_request in Hin. congruence.
      * destruct Hwin as [-> _]. destruct Hin.
Qed.

(** X10. When [time_max] is omitted and [time_min] lies less than seven
    days before [datetime.max], [list_calendar_events] sends no request
    and never returns a success: it returns an error result, unless an
    exception that is not an instance of [Exception] was raised while the
    credential and the client were being obtained, which then reaches the
    caller; once the client was built, the result is the error result with
    message "date value out of range". *)
Theorem window_overflow_is_an_error
    (env : Env) (max_results tmin : Z) (w : World) :
  datetime_max < tmin + timedelta_days 7 ->
  (forall req r,
     ~ In (LExecute req r)
         (new_entries w
            (Tools.list_calendar_events env max_results (Some tmin)
               None w).2)) /\
  match (Tools.list_calendar_events env max_results (Some tmin) None w).1 with
  | Ok v => exists e, v = Tools.error_result e
  | Raise e => is_exception e = false
  end /\
  (Exists is_built
     (new_entries w
        (Tools.list_calendar_events env max_results (Some tmin) None w).2) ->
   (Tools.list_calendar_events env max_results (Some tmin) None w).1
   = Ok (VDict [("status", VStr "error");
                ("message", VStr "date value out of range")])).
Proof.
  intros Hover.
  destruct (list_calendar_events_run env max_results (Some tmin) None w)
    as (r0 & [[Hall [e ->]]|(t1 & c & t2 & Ht & H1 & pre & tmin' & Hpre & Hwin)]
          & Hres).
  - repeat apply conj.
    + intros req r. eapply Forall_not_in; [exact Hall|]. intros [[] _].
    + rewrite Hres. destruct (is_exception e) eqn:Hexc; eauto.
    + intros Hex. exfalso. apply Exists_exists in Hex as (ent & Hin & Hb).
      rewrite Forall_forall in Hall. destruct (Hall _ Hin) as [_ Hnb]. auto.
  - destruct Hpre as [[[= <-] ->]|[[=] _]].
    unfold window_end in Hwin.
    replace ((0 <=? tmin + timedelta_days 7)
             && (tmin + timedelta_days 7 <=? datetime_max)) with false in Hwin
      by (symmetry; apply andb_false_iff; right; apply Z.leb_gt; lia).
    destruct Hwin as [-> ->]. rewrite Ht, Hres.
    repeat apply conj.
    + intros req r [Hin|[Hin|[]]]%in_app_or; [|discriminate].
      revert Hin. eapply Forall_not_in; [exact H1|]. intros [].
    + cbn. eauto.
    + reflexivity.
Qed.

Lemma create_calendar_event_tail env body :
  sat (let* created_event :=
         Tools.execute env (CalendarEventsInsert "primary" body) in
       let* id := Py.getitem env created_event "id" in
       let* link := Py.dict_get env created_event "htmlLink" (VStr "") in
       ret (VDict [("status", VStr "success"); ("event_id", id);
                   ("event_link", link)]))
      (fun t r =>
         exists r1,
           t = [LExecute (CalendarEventsInsert "primary" body) r1] /\
           forall d, r1 = Ok (VDict d) ->
             match r with
             | Ok v => Ok v
             | Raise e =>
                 if is_exception e then Ok (Tools.error_result e) else Raise e
             end = Ok (created_result d)).
Proof.
  intros w. unfold bind, Tools.execute, ask.
  destruct (api_execute env (log w) (CalendarEventsInsert "primary" body))
    as [created|e].
  - destruct created as [| | | | |d];
      try (eexists; split; [reflexivity|]; eexists; split;
           [reflexivity|discriminate]).
    unfold Py.getitem, Py.dict_get, created_result.
    destruct (dict_lookup "id" d) as [eid|] eqn:Hid;
      (eexists; split; [reflexivity|]; eexists; split; [reflexivity|]);
      intros d' [= <-]; rewrite Hid; reflexivity.
  - eexists. split; [reflexivity|]. eexists. split; [reflexivity|].
    discriminate.
Qed.

(** X11. When the calendar service answers the insertion with an object,
    [create_calendar_event] returns
    [{"status": "success", "event_id": id, "event_link": htmlLink}] with
    the link defaulting to the empty string; if the answer has no [id] it
    returns the error result with message "'id'", although the event was
    created. *)
Theorem created_event_result
    (env : Env) (summary start_time end_time description location : string)
    (attendees : option (list string)) (w : World)
    (calendarId : string) (body : pyval) (d : list (string * pyval)) :
  In (LExecute (CalendarEventsInsert calendarId body) (Ok (VDict d)))
     (new_entries w
        (Tools.create_calendar_event env summary start_time end_time
           description location attendees w).2) ->
  (Tools.create_calendar_event env summary start_time end_time description
     location attendees w).1
  = Ok (match dict_lookup "id" d with
        | Some eid =>
            VDict [("status", VStr "success"); ("event_id", eid);
                   ("event_link",
                    from_option id (VStr "") (dict_lookup "htmlLink" d))]
        | None => VDict [("status", VStr "error"); ("message", VStr "'id'")]
        end).
Proof.
  intros Hin.
  pose proof (sat_new_entries _ _ w
    (sat_catch _ Tools.error_result _
       (sat_setup_then env Tools.CALENDAR_SCOPES "calendar_token.pickle"
          "calendar" "v3" _ _
          (create_calendar_event_tail env
             (Tools.event_body summary start_time end_time description
                location attendees))))) as H.
  change (try_except _ _)
    with (Tools.create_calendar_event env summary start_time end_time
            description location attendees) in H.
  destruct H as (r0 & [[Hs _]|(t1 & t2 & Ht & Hs & r1 & -> & Hr)] & Hres).
  - exfalso. eapply Forall_setup_no_execute; eauto.
  - rewrite Ht in Hin. apply in_app_or in Hin as [Hin|[Hin|[]]].
    { exfalso. eapply Forall_setup_no_execute; eauto. }
    assert (r1 = Ok (VDict d)) as Hr1 by congruence.
    rewrite Hres, (Hr d Hr1). unfold created_result.
    destruct (dict_lookup "id" d); reflexivity.
Qed.

(** X12. Every body [create_calendar_event] sends carries the summary,
    location and description it was given, and under [start] and [end] the
    given time strings, unchanged and unchecked, with the time zone fixed
    to "UTC"; its keys are these five, followed by [attendees] when there
    are attendees. *)
Theorem event_body_is_passed_through
    (env : Env) (summary start_time end_time description location : string)
    (attendees : option (list string)) (w : World)
    (calendarId : string) (body : pyval) (r : result pyval) :
  In (LExecute (CalendarEventsInsert calendarId body) r)
     (new_entries w
        (Tools.create_calendar_event env summary start_time end_time
           description location attendees w).2) ->
  calendarId = "primary" /\
  exists d,
    body = VDict d /\
    dict_lookup "summary" d = Some (VStr summary) /\
    dict_lookup "location" d = Some (VStr location) /\
    dict_lookup "description" d = Some (VStr description) /\
    dict_lookup "start" d
    = Some (VDict [("dateTime", VStr start_time); ("timeZone", VStr "UTC")]) /\
    dict_lookup "end" d
    = Some (VDict [("dateTime", VStr end_time); ("timeZone", VStr "UTC")]) /\
    (map fst d = ["summary"; "location"; "description"; "start"; "end"] \/
     map fst d = ["summary"; "location"; "description"; "start"; "end";
                  "attendees"]).
Proof.
  intros Hin.
  apply (emits_new_entries _ _ _ _ (create_calendar_event_requests _ _ _ _ _ _ _))
    in Hin.
  simpl in Hin. injection Hin as -> ->. split; [reflexivity|].
  destruct attendees as [[|a l]|]; eexists;
    (split; [reflexivity|]); repeat (split; [reflexivity|]);
    solve [left; reflexivity | right; reflexivity].
Qed.

(** ** Header lookup is lazy *)

Lemma first_header_skip env name default pre rest w :
  Forall (other_header name) pre ->
  Tools.first_header env name default (pre ++ rest) w
  = Tools.first_header env name default rest w.
Proof.
  induction 1 as [|h pre (n & Hn & En) _ IH]; [reflexivity|].
  destruct h as [| | | | |d]; try discriminate. simpl in Hn.
  cbn [app Tools.first_header]. unfold Py.getitem at 1.
  rewrite Hn, bind_ret, En. exact IH.
Qed.

(** X13. The header lookup stops at the first header with the wanted
    name: the headers after it are never inspected, whatever they are.  A
    header before it that is an object without [name] makes the lookup
    raise [KeyError] "'name'", and a first match without [value] makes it
    raise [KeyError] "'value'". *)
Theorem header_lookup_stops_at_first_match
    (env : Env) (name : string) (default : pyval) (pre post : list pyval)
    (h : list (string * pyval)) (w : World) :
  Forall (other_header name) pre ->
  (forall v,
     header_named name (VDict h) -> dict_lookup "value" h = Some v ->
     Tools.first_header env name default (pre ++ VDict h :: post) w
     = (Ok v, w)) /\
  (header_named name (VDict h) -> dict_lookup "value" h = None ->
   Tools.first_header env name default (pre ++ VDict h :: post) w
   = (Raise (Exn "KeyError" "'value'"), w)) /\
  (dict_lookup "name" h = None ->
   Tools.first_header env name default (pre ++ VDict h :: post) w
   = (Raise (Exn "KeyError" "'name'"), w)).
Proof.
  intros Hpre. rewrite (first_header_skip _ _ _ _ _ _ Hpre).
  cbn [Tools.first_header]. unfold Py.getitem.
  repeat apply conj.
  - intros v (n & Hn & En) Hv. simpl in Hn.
    rewrite Hn, bind_ret, En, Hv. reflexivity.
  - intros (n & Hn & En) Hv. simpl in Hn.
    rewrite Hn, bind_ret, En, Hv. reflexivity.
  - intros Hn. rewrite Hn. reflexivity.
Qed.

(** * Further properties of slack_bot.py *)

Lemma say_run env text ts w :
  SlackBot.say env text ts w
  = (slack_say env (log w) text ts,
     logged (LSay text ts (slack_say env (log w) text ts)) w).
Proof. reflexivity. Qed.

Lemma message_run env agent d w :
  truthy (field d "subtype") = false ->
  truthy (field d "bot_id") = false ->
  eq_str (field d "channel_type") "im" = true ->
  SlackBot.handle_message env agent (VDict d) w
  = try_except
      (let text := from_option id (VStr "") (dict_lookup "text" d) in
       if negb (truthy text) then ret tt
       else
         let* response := Agent.simple_query env agent text in
         SlackBot.say env (VStr response) VNone)
      (SlackBot.message_except env) w.
Proof.
  unfold field. intros H1 H2 H3.
  unfold SlackBot.handle_message, bind, Py.dict_get, ret.
  rewrite H1, H2.
  unfold SlackBot._handle_message_async, try_except, bind, Py.dict_get, ret.
  rewrite H3. reflexivity.
Qed.

(** X14. A direct message (no subtype, no bot id, channel type "im") with
    a non-empty text is answered: the text goes to the generic query as it
    is, untrimmed and with its mentions, and this is the first thing the
    handler does; everything after is a reply; when the query returns and
    Slack accepts the answer, the only reply is the concatenation of the
    streamed parts, outside any thread. *)
Theorem direct_message_is_answered
    (env : Env) (agent : Agent.PersonalAssistantAgent)
    (d : list (string * pyval)) (text : pyval) (w : World) :
  truthy (field d "subtype") = false ->
  truthy (field d "bot_id") = false ->
  eq_str (field d "channel_type") "im" = true ->
  dict_lookup "text" d = Some text -> truthy text = true ->
  exists r rest,
    new_entries w (SlackBot.handle_message env agent (VDict d) w).2
    = LQuery text (Agent.system_prompt agent) (Agent.api_key agent) r :: rest /\
    Forall is_reply rest /\
    forall parts,
      r = Ok parts ->
      slack_say env
        (log w ++ [LQuery text (Agent.system_prompt agent)
                     (Agent.api_key agent) (Ok parts)])
        (VStr (concat_str parts)) VNone = Ok tt ->
      rest = [LSay (VStr (concat_str parts)) VNone (Ok tt)] /\
      (SlackBot.handle_message env agent (VDict d) w).1 = Ok tt.
Proof.
  intros H1 H2 H3 Htext Htruthy.
  assert (SlackBot.handle_message env agent (VDict d) w
          = try_except
              (let* response := Agent.simple_query env agent text in
               SlackBot.say env (VStr response) VNone)
              (SlackBot.message_except env) w) as Hrun.
  { rewrite (message_run _ _ _ _ H1 H2 H3), Htext. cbn [from_option id].
    rewrite Htruthy. reflexivity. }
  rewrite Hrun.
  destruct (query_then_replies env agent text
              (fun response => SlackBot.say env (VStr response) VNone)
              (SlackBot.message_except env) w is_reply)
    as (rest & Hnew & Hrest); [intros; run_auto..|].
  eexists _, rest. split; [exact Hnew|]. split; [exact Hrest|].
  intros parts Hr Hsay. revert Hnew. rewrite query_run, Hr.
  unfold try_except. rewrite say_run. cbn [logged log files]. rewrite Hsay.
  intros Hnew. split; [|reflexivity].
  rewrite (new_entries_app _ _
             [LQuery text (Agent.system_prompt agent) (Agent.api_key agent)
                (Ok parts);
              LSay (VStr (concat_str parts)) VNone (Ok tt)]) in Hnew.
  - injection Hnew as <-. reflexivity.
  - cbn [snd log logged]. rewrite <- ?app_assoc. reflexivity.
Qed.

(** X15. A direct message without text, or with an empty one, is dropped
    like a foreign event: the world is unchanged. *)
Theorem empty_direct_message_is_dropped
    (env : Env) (agent : Agent.PersonalAssistantAgent)
    (d : list (string * pyval)) (w : World) :
  truthy (field d "subtype") = false ->
  truthy (field d "bot_id") = false ->
  eq_str (field d "channel_type") "im" = true ->
  truthy (from_option id (VStr "") (dict_lookup "text" d)) = false ->
  SlackBot.handle_message env agent (VDict d) w = (Ok tt, w).
Proof.
  intros H1 H2 H3 Htext.
  rewrite (message_run _ _ _ _ H1 H2 H3). cbn zeta. rewrite Htext.
  reflexivity.
Qed.

(** ** Errors stay inside the handlers *)

Ltac run_handlers :=
  repeat (run_step || autounfold with runs
          || (progress unfold SlackBot.re_sub, SlackBot.py_strip,
                Agent.read_recent_emails, Agent.get_calendar_events,
                Tools.read_emails, Tools.list_calendar_events)
          || (progress cbv zeta)).

Lemma try_except_escape {A} (body : M A) (handler : exn -> M A) w e :
  emits (fun _ => True) body ->
  (try_except body handler w).1 = Raise e -> is_exception e = true ->
  exists e0 w1 pre,
    log w1 = log w ++ pre /\ try_except body handler w = handler e0 w1.
Proof.
  intros Hb. destruct (Hb w) as (pre & Hl & _). unfold try_except.
  destruct (body w) as [[a|e0] w1]; [discriminate|].
  destruct (is_exception e0) eqn:He0.
  - intros _ _. exists e0, w1, pre. split; [exact Hl|reflexivity].
  - cbn. intros [= <-] He. congruence.
Qed.

Lemma try_except_handled {A} (body : M A) (handler : exn -> M A) w :
  (forall e0 w1, no_exception_out (handler e0 w1).1) ->
  no_exception_out (try_except body handler w).1.
Proof.
  intros Hh. unfold try_except.
  destruct (body w) as [[a|e0] w1]; [exact I|].
  destruct (is_exception e0) eqn:He0; [apply Hh|exact He0].
Qed.

Lemma apology_run env msg text ts w :
  (do SlackBot.logger_error msg in SlackBot.say env text ts) w
  = (slack_say env (log w ++ [LLogError msg]) text ts,
     {| files := files w;
        log := log w ++ [LLogError msg;
                         LSay text ts
                           (slack_say env (log w ++ [LLogError msg]) text ts)]
     |}).
Proof.
  unfold bind, SlackBot.logger_error, SlackBot.say, ask, logged.
  cbn [log files]. rewrite <- app_assoc. reflexivity.
Qed.

Lemma mention_except_run env d e :
  SlackBot.mention_except env (VDict d) e
  = (do SlackBot.logger_error ("Error handling mention: " +:+ exn_str e) in
     SlackBot.say env (VStr ("Sorry, I encountered an error: " +:+ exn_str e))
       (field d "ts")).
Proof. reflexivity. Qed.

Lemma emits_mention_body env agent event :
  emits (fun _ => True)
    (let* text := Py.dict_get env event "text" (VStr "") in
     let* user_id := Py.dict_get env event "user" VNone in
     let* channel_id := Py.dict_get env event "channel" VNone in
     let* replaced := SlackBot.re_sub env text in
     let clean_text := strip replaced in
     if String.eqb clean_text "" then
       SlackBot.say env (VStr SlackBot.greeting) VNone
     else
       let* ts := Py.dict_get env event "ts" VNone in
       do SlackBot.say env (VStr "Processing your request...") ts in
       let* response := Agent.simple_query env agent (VStr clean_text) in
       let* ts := Py.dict_get env event "ts" VNone in
       SlackBot.say env (VStr response) ts).
Proof. run_handlers. Qed.

Lemma emits_message_body env agent event :
  emits (fun _ => True)
    (let* channel_type := Py.dict_get env event "channel_type" VNone in
     if negb (eq_str channel_type "im") then ret tt
     else
       let* text := Py.dict_get env event "text" (VStr "") in
       let* user_id := Py.dict_get env event "user" VNone in
       if negb (truthy text) then ret tt
       else
         let* response := Agent.simple_query env agent text in
         SlackBot.say env (VStr response) VNone).
Proof. run_handlers. Qed.

Lemma emits_command_body env agent command :
  emits (fun _ => True)
    (let* text := Py.dict_get env command "text" (VStr "") in
     let* command_text := SlackBot.py_strip env text in
     if String.eqb command_text "" then
       SlackBot.say env SlackBot.help_listing VNone
     else if String.eqb (lower command_text) "emails" then
       let* result := Agent.read_recent_emails env 5 "is:unread" in
       SlackBot.render_emails env result
     else if String.eqb (lower command_text) "calendar" then
       let* result := Agent.get_calendar_events env 5 in
       SlackBot.render_events env result
     else
       let* response := Agent.simple_query env agent (VStr command_text) in
       SlackBot.say env (VStr response) VNone).
Proof. run_handlers. Qed.

(** X16. As long as Slack accepts what the bot says, no handler lets an
    instance of [Exception] out: the mention and message handlers on any
    event object, and the slash-command handler on any command, return
    normally whatever instance of [Exception] the agent, Gmail, Calendar or
    the event's fields raise.  What can still leave a handler is an
    exception that is not an instance of [Exception] ([KeyboardInterrupt],
    [SystemExit], a cancellation), which its [except Exception] clause does
    not catch. *)
Theorem handlers_contain_errors
    (env : Env) (agent : Agent.PersonalAssistantAgent) :
  (forall h text ts, slack_say env h text ts = Ok tt) ->
  (forall d w,
     no_exception_out (SlackBot.handle_mention env agent (VDict d) w).1) /\
  (forall d w,
     no_exception_out (SlackBot.handle_message env agent (VDict d) w).1) /\
  (forall command w,
     no_exception_out
       (SlackBot.handle_assistant_command env agent command w).1).
Proof.
  intros Hsay.
  repeat apply conj.
  - intros d w.
    unfold SlackBot.handle_mention, SlackBot._handle_mention_async.
    apply try_except_handled. intros e0 w1.
    rewrite mention_except_run, apology_run. cbn [fst].
    rewrite Hsay. exact I.
  - intros d w.
    unfold SlackBot.handle_message, bind, Py.dict_get, ret.
    destruct (truthy _); [exact I|].
    destruct (truthy _); [exact I|].
    unfold SlackBot._handle_message_async.
    apply try_except_handled. intros e0 w1.
    unfold SlackBot.message_except. rewrite apology_run. cbn [fst].
    rewrite Hsay. exact I.
  - intros command w.
    unfold SlackBot.handle_assistant_command, bind at 1, SlackBot.ack.
    unfold SlackBot._handle_command_async.
    apply try_except_handled. intros e0 w1.
    unfold SlackBot.command_except. rewrite apology_run. cbn [fst].
    rewrite Hsay. exact I.
Qed.

(** X17. The only instance of [Exception] a handler lets out is the one
    Slack raised when the handler tried to post its apology: if the
    slash-command or the message handler raises an instance [e] of
    [Exception], the run ends with the error being logged and the apology
    "Sorry, I encountered an error: ..." for an earlier exception [e0] being
    refused with [e]; the same holds for the mention handler, whose apology
    goes to the thread of the event. *)
Theorem exception_escapes_only_from_failed_apology
    (env : Env) (agent : Agent.PersonalAssistantAgent) (w : World) (e : exn) :
  is_exception e = true ->
  (forall command,
     (SlackBot.handle_assistant_command env agent command w).1 = Raise e ->
     exists e0 pre,
       new_entries w (SlackBot.handle_assistant_command env agent command w).2
       = pre ++ [LLogError ("Error handling command: " +:+ exn_str e0);
                 LSay (VStr ("Sorry, I encountered an error: " +:+ exn_str e0))
                   VNone (Raise e)]) /\
  (forall d,
     (SlackBot.handle_message env agent (VDict d) w).1 = Raise e ->
     exists e0 pre,
       new_entries w (SlackBot.handle_message env agent (VDict d) w).2
       = pre ++ [LLogError ("Error handling message: " +:+ exn_str e0);
                 LSay (VStr ("Sorry, I encountered an error: " +:+ exn_str e0))
                   VNone (Raise e)]) /\
  (forall d,
     (SlackBot.handle_mention env agent (VDict d) w).1 = Raise e ->
     exists e0 pre,
       new_entries w (SlackBot.handle_mention env agent (VDict d) w).2
       = pre ++ [LLogError ("Error handling mention: " +:+ exn_str e0);
                 LSay (VStr ("Sorry, I encountered an error: " +:+ exn_str e0))
                   (field d "ts") (Raise e)]).
Proof.
  intros He.
  repeat apply conj.
  - intros command.
    assert (SlackBot.handle_assistant_command env agent command w
            = SlackBot._handle_command_async env agent command
                (logged LAck w)) as -> by reflexivity.
    unfold SlackBot._handle_command_async. intros Hr.
    destruct (try_except_escape _ _ _ _
                (emits_command_body env agent command) Hr He)
      as (e0 & w1 & pre & Hl & Hrun).
    rewrite Hrun in Hr |- *. unfold SlackBot.command_except in Hr |- *.
    rewrite apology_run in Hr |- *. cbn [fst snd] in Hr |- *.
    exists e0, (LAck :: pre). apply new_entries_app. cbn [log].
    rewrite Hr, Hl. cbn [logged log]. rewrite <- !app_assoc. reflexivity.
  - intros d.
    unfold SlackBot.handle_message, bind, Py.dict_get, ret.
    destruct (truthy _); [discriminate|].
    destruct (truthy _); [discriminate|].
    unfold SlackBot._handle_message_async. intros Hr.
    destruct (try_except_escape _ _ _ _
                (emits_message_body env agent (VDict d)) Hr He)
      as (e0 & w1 & pre & Hl & Hrun).
    rewrite Hrun in Hr |- *. unfold SlackBot.message_except in Hr |- *.
    rewrite apology_run in Hr |- *. cbn [fst snd] in Hr |- *.
    exists e0, pre. apply new_entries_app. cbn [log].
    rewrite Hr, Hl. rewrite <- !app_assoc. reflexivity.
  - intros d.
    intros Hr.
    destruct (try_except_escape _ _ _ _
                (emits_mention_body env agent (VDict d)) Hr He)
      as (e0 & w1 & pre & Hl & Hrun).
    assert (SlackBot.handle_mention env agent (VDict d) w
            = SlackBot.mention_except env (VDict d) e0 w1) as Hrun'
      by exact Hrun.
    rewrite Hrun' in Hr |- *. rewrite mention_except_run in Hr |- *.
    rewrite apology_run in Hr |- *. cbn [fst snd] in Hr |- *.
    exists e0, pre. apply new_entries_app. cbn [log].
    rewrite Hr, Hl. rewrite <- !app_assoc. reflexivity.
Qed.

(** ** Replies *)

(** The run of [try: say(x, ts); k  except ...]: the message comes first. *)
Lemma say_first_run {A} env x ts (k : M A) h w :
  try_except (do SlackBot.say env x ts in k) h w
  = try_except
      (match slack_say env (log w) x ts with
       | Ok _ => k
       | Raise e => raise e
       end)
      h (logged (LSay x ts (slack_say env (log w) x ts)) w).
Proof.
  unfold try_except, bind. rewrite say_run.
  destruct (slack_say env (log w) x ts); reflexivity.
Qed.

Lemma mention_request_run env agent d text w :
  dict_lookup "text" d = Some (VStr text) ->
  strip (re_sub_mention text) <> "" ->
  SlackBot.handle_mention env agent (VDict d) w
  = try_except
      (do SlackBot.say env (VStr "Processing your request...") (field d "ts") in
       let* response :=
         Agent.simple_query env agent (VStr (strip (re_sub_mention text))) in
       SlackBot.say env (VStr response) (field d "ts"))
      (SlackBot.mention_except env (VDict d)) w.
Proof.
  intros Htext Hclean. unfold SlackBot.handle_mention.
  rewrite (mention_run _ _ _ _ _ Htext).
  destruct (String.eqb_spec (strip (re_sub_mention text)) "") as [?|_];
    [contradiction|].
  reflexivity.
Qed.

(** X18. A mention with something left after cleaning is acknowledged
    first, with "Processing your request..." in the thread of the event
    ([thread_ts] is the event's [ts]); whatever follows is the query, a log
    line, or a message to that same thread, the apology included.  When
    Slack and the agent answer, the run is exactly: acknowledgement, query
    with the cleaned text, answer in the thread. *)
Theorem mention_is_answered_in_its_thread
    (env : Env) (agent : Agent.PersonalAssistantAgent)
    (d : list (string * pyval)) (text : string) (w : World) :
  dict_lookup "text" d = Some (VStr text) ->
  strip (re_sub_mention text) <> "" ->
  let ts := field d "ts" in
  let q := LQuery (VStr (strip (re_sub_mention text)))
             (Agent.system_prompt agent) (Agent.api_key agent) in
  let processing := LSay (VStr "Processing your request...") ts in
  exists r rest,
    new_entries w (SlackBot.handle_mention env agent (VDict d) w).2
    = processing r :: rest /\
    Forall (in_thread ts) rest /\
    forall parts,
      r = Ok tt ->
      sdk_query env (log w ++ [processing (Ok tt)])
        (VStr (strip (re_sub_mention text)))
        (Agent.system_prompt agent) (Agent.api_key agent) = Ok parts ->
      slack_say env (log w ++ [processing (Ok tt); q (Ok parts)])
        (VStr (concat_str parts)) ts = Ok tt ->
      rest = [q (Ok parts); LSay (VStr (concat_str parts)) ts (Ok tt)] /\
      (SlackBot.handle_mention env agent (VDict d) w).1 = Ok tt.
Proof.
  intros Htext Hclean ts q processing.
  rewrite (mention_request_run _ _ _ _ _ Htext Hclean). fold ts.
  rewrite say_first_run. fold processing.
  set (r := slack_say env (log w) (VStr "Processing your request...") ts).
  set (body := match r with
               | Ok _ =>
                   let* response :=
                     Agent.simple_query env agent
                       (VStr (strip (re_sub_mention text))) in
                   SlackBot.say env (VStr response) ts
               | Raise e => raise e
               end).
  assert (emits (in_thread ts)
            (try_except body (SlackBot.mention_except env (VDict d)))) as Hm.
  { apply emits_try.
    - subst body. destruct r; run_auto.
    - intros e. rewrite mention_except_run. fold ts. run_auto. }
  destruct (Hm (logged (processing r) w)) as (rest & Hl & Hrest).
  exists r, rest. split; [|split; [exact Hrest|]].
  { apply new_entries_app. rewrite Hl. cbn [logged log].
    rewrite <- app_assoc. reflexivity. }
  intros parts Hr Hquery Hsay. revert Hl. subst body. rewrite Hr.
  rewrite query_run. cbn [logged log]. rewrite Hquery. fold q.
  unfold try_except. rewrite say_run. cbn [logged log].
  rewrite <- (app_assoc (log w)). cbn [app]. rewrite Hsay.
  cbn [fst snd log]. intros Hl. split; [|reflexivity].
  cbn [log logged] in Hl. rewrite <- !app_assoc in Hl. cbn [app] in Hl.
  apply app_inv_head in Hl. congruence.
Qed.

(** ** The listing commands *)

Lemma try_except_bind_ok {A B} (m : M A) (k : A -> M B) h w a w1 :
  m w = (Ok a, w1) -> try_except (bind m k) h w = try_except (k a) h w1.
Proof. intros H. unfold try_except, bind. rewrite H. reflexivity. Qed.

Lemma emails_command_run env agent command text w result w1 :
  argument_text command = Some text -> lower text = "emails" ->
  Tools.read_emails env 5 "is:unread" w = (Ok result, w1) ->
  SlackBot._handle_command_async env agent command w
  = try_except (SlackBot.render_emails env result)
               (SlackBot.command_except env) w1.
Proof.
  intros Harg Hl Hrun. rewrite (command_run _ _ _ _ _ Harg).
  destruct (String.eqb_spec text "") as [->|_]; [discriminate|].
  rewrite Hl. cbn [String.eqb Ascii.eqb Bool.eqb].
  apply try_except_bind_ok, Hrun.
Qed.

Lemma calendar_command_run env agent command text w result w1 :
  argument_text command = Some text -> lower text = "calendar" ->
  Tools.list_calendar_events env 5 None None w = (Ok result, w1) ->
  SlackBot._handle_command_async env agent command w
  = try_except (SlackBot.render_events env result)
               (SlackBot.command_except env) w1.
Proof.
  intros Harg Hl Hrun. rewrite (command_run _ _ _ _ _ Harg).
  destruct (String.eqb_spec text "") as [->|_]; [discriminate|].
  rewrite Hl. cbn [String.eqb Ascii.eqb Bool.eqb].
  apply try_except_bind_ok, Hrun.
Qed.

Lemma for_each_bullet env a sep b items lines w :
  Forall2 (bullet_line env a sep b) items lines ->
  Py.for_each (SlackBot.bullet env a sep b) items w = (Ok lines, w).
Proof.
  induction 1 as [|item line items lines (d & x & y & -> & Hx & Hy & ->) _ IH];
    [reflexivity|].
  cbn [Py.for_each]. unfold bind at 1, SlackBot.bullet at 1.
  unfold Py.getitem. rewrite Hx, bind_ret, Hy, bind_ret. unfold ret at 1.
  unfold bind. rewrite IH. reflexivity.
Qed.

(** X19. The listing commands do not tell a failure from an empty
    result.  When [read_emails] has returned an error result - Gmail was
    unreachable, the token could not be obtained - "/assistant emails"
    replies "No unread emails found or unable to access Gmail.", the very
    reply it gives when the mailbox has no unread message; the error
    message of the result is not shown.  "/assistant calendar" does the
    same with "No upcoming events found or unable to access Calendar.". *)
Theorem listing_commands_hide_the_cause
    (env : Env) (agent : Agent.PersonalAssistantAgent)
    (command : pyval) (text : string) (result : pyval) (w w1 : World) :
  argument_text command = Some text ->
  (lower text = "emails" ->
   Tools.read_emails env 5 "is:unread" w = (Ok result, w1) ->
   nothing_to_show "emails" result ->
   SlackBot._handle_command_async env agent command w
   = try_except
       (SlackBot.say env
          (VStr "No unread emails found or unable to access Gmail.") VNone)
       (SlackBot.command_except env) w1) /\
  (lower text = "calendar" ->
   Tools.list_calendar_events env 5 None None w = (Ok result, w1) ->
   nothing_to_show "events" result ->
   SlackBot._handle_command_async env agent command w
   = try_except
       (SlackBot.say env
          (VStr "No upcoming events found or unable to access Calendar.")
          VNone)
       (SlackBot.command_except env) w1).
Proof.
  intros Harg. split; intros Hl Hrun Hres.
  - rewrite (emails_command_run _ _ _ _ _ _ _ Harg Hl Hrun).
    destruct Hres as [[e ->]| ->]; reflexivity.
  - rewrite (calendar_command_run _ _ _ _ _ _ _ Harg Hl Hrun).
    destruct Hres as [[e ->]| ->]; reflexivity.
Qed.

Lemma has_items_success env key n items w :
  SlackBot.has_items env
    (VDict [("status", VStr "success"); ("count", VInt n);
            (key, VList items)]) w
  = (Ok (0 <? n), w).
Proof. reflexivity. Qed.

Lemma render_emails_items env n items lines w :
  (0 <? n) = true ->
  Forall2 (bullet_line env "subject" " from " "from") items lines ->
  SlackBot.render_emails env
    (VDict [("status", VStr "success"); ("count", VInt n);
            ("emails", VList items)]) w
  = SlackBot.say env
      (VStr ("You have " +:+ pretty n +:+ " unread emails:" +:+ nl
             +:+ join nl lines)) VNone w.
Proof.
  intros Hn Hlines.
  unfold SlackBot.render_emails, bind at 1. rewrite has_items_success, Hn.
  unfold Py.getitem. cbn [dict_lookup String.eqb Ascii.eqb Bool.eqb].
  rewrite bind_ret. unfold Py.py_iter. rewrite bind_ret.
  unfold bind at 1. rewrite (for_each_bullet _ _ _ _ _ _ _ Hlines).
  rewrite bind_ret. reflexivity.
Qed.

Lemma render_events_items env n items lines w :
  (0 <? n) = true ->
  Forall2 (bullet_line env "summary" " - " "start") items lines ->
  SlackBot.render_events env
    (VDict [("status", VStr "success"); ("count", VInt n);
            ("events", VList items)]) w
  = SlackBot.say env
      (VStr ("Upcoming events:" +:+ nl +:+ join nl lines)) VNone w.
Proof.
  intros Hn Hlines.
  unfold SlackBot.render_events, bind at 1. rewrite has_items_success, Hn.
  unfold Py.getitem. cbn [dict_lookup String.eqb Ascii.eqb Bool.eqb].
  rewrite bind_ret. unfold Py.py_iter. rewrite bind_ret.
  unfold bind at 1. rewrite (for_each_bullet _ _ _ _ _ _ _ Hlines).
  reflexivity.
Qed.

(** X20. What the listing commands show.  When [read_emails] has
    returned [n] > 0 summaries, "/assistant emails" replies with one
    message, outside any thread: the line "You have n unread emails:"
    followed by one bullet per summary, in the order of the result, each
    made of the summary's subject and sender.  "/assistant calendar"
    replies "Upcoming events:" followed by one bullet per event, made of
    its summary and start. *)
Theorem listing_commands_show_every_item
    (env : Env) (agent : Agent.PersonalAssistantAgent)
    (command : pyval) (text : string) (n : Z)
    (items : list pyval) (lines : list string) (w w1 : World) :
  argument_text command = Some text -> 0 < n ->
  (lower text = "emails" ->
   Tools.read_emails env 5 "is:unread" w
   = (Ok (VDict [("status", VStr "success"); ("count", VInt n);
                 ("emails", VList items)]), w1) ->
   Forall2 (bullet_line env "subject" " from " "from") items lines ->
   SlackBot._handle_command_async env agent command w
   = try_except
       (SlackBot.say env
          (VStr ("You have " +:+ pretty n +:+ " unread emails:" +:+ nl
                 +:+ join nl lines)) VNone)
       (SlackBot.command_except env) w1) /\
  (lower text = "calendar" ->
   Tools.list_calendar_events env 5 None None w
   = (Ok (VDict [("status", VStr "success"); ("count", VInt n);
                 ("events", VList items)]), w1) ->
   Forall2 (bullet_line env "summary" " - " "start") items lines ->
   SlackBot._handle_command_async env agent command w
   = try_except
       (SlackBot.say env
          (VStr ("Upcoming events:" +:+ nl +:+ join nl lines)) VNone)
       (SlackBot.command_except env) w1).
Proof.
  intros Harg Hn. apply Z.ltb_lt in Hn.
  split; intros Hl Hrun Hlines.
  - rewrite (emails_command_run _ _ _ _ _ _ _ Harg Hl Hrun).
    unfold try_except. rewrite (render_emails_items _ _ _ _ _ Hn Hlines).
    reflexivity.
  - rewrite (calendar_command_run _ _ _ _ _ _ _ Harg Hl Hrun).
    unfold try_except. rewrite (render_events_items _ _ _ _ _ Hn Hlines).
    reflexivity.
Qed.

(** * Properties of the start-up code *)

Lemma unset_set_to environ name value :
  set_to environ name value -> SlackStartup.unset (environ !! name) = false.
Proof.
  intros [-> Hne]. simpl. destruct (String.eqb_spec value ""); congruence.
Qed.

Lemma agent_init_env environ key :
  set_to environ "ANTHROPIC_API_KEY" key ->
  AgentStartup.__init__ environ None
  = Ok {| Agent.api_key := key;
          Agent.system_prompt := AgentStartup.SYSTEM_PROMPT |}.
Proof.
  intros [Hk Hne]. unfold AgentStartup.__init__, AgentStartup.str_or.
  rewrite Hk. destruct (String.eqb_spec key ""); congruence.
Qed.

Lemma agent_init_unset environ :
  SlackStartup.unset (environ !! "ANTHROPIC_API_KEY") = true ->
  AgentStartup.__init__ environ None
  = Raise (Exn "ValueError" "ANTHROPIC_API_KEY must be set").
Proof.
  unfold AgentStartup.__init__, AgentStartup.str_or, SlackStartup.unset.
  destruct (environ !! "ANTHROPIC_API_KEY") as [key|]; [|reflexivity].
  intros ->. reflexivity.
Qed.

(** X21. The agent's API key.  An agent that was constructed has a
    non-empty key and the fixed system prompt; the key is the argument when
    that is a non-empty string, and otherwise - argument omitted or empty -
    the value of ANTHROPIC_API_KEY.  Construction fails only when neither
    gives a non-empty string, and then with [ValueError]
    "ANTHROPIC_API_KEY must be set". *)
Theorem agent_key_comes_from_argument_or_environment
    (environ : gmap string string) (api_key : option string) :
  match AgentStartup.__init__ environ api_key with
  | Ok self =>
      Agent.api_key self <> "" /\
      Agent.system_prompt self = AgentStartup.SYSTEM_PROMPT /\
      (api_key = Some (Agent.api_key self) \/
       SlackStartup.unset api_key = true /\
       environ !! "ANTHROPIC_API_KEY" = Some (Agent.api_key self))
  | Raise e =>
      e = Exn "ValueError" "ANTHROPIC_API_KEY must be set" /\
      SlackStartup.unset api_key = true /\
      SlackStartup.unset (environ !! "ANTHROPIC_API_KEY") = true
  end.
Proof.
  unfold AgentStartup.__init__, AgentStartup.str_or, SlackStartup.unset.
  destruct api_key as [k|].
  - destruct (String.eqb_spec k "") as [->|Hk].
    + destruct (environ !! "ANTHROPIC_API_KEY") as [k'|]; [|auto].
      destruct (String.eqb_spec k' "") as [->|Hk']; cbn; auto.
    + destruct (String.eqb_spec k "") as [?|_]; [contradiction|].
      cbn. auto.
  - destruct (environ !! "ANTHROPIC_API_KEY") as [k'|]; [|auto].
    destruct (String.eqb_spec k' "") as [->|Hk']; cbn; auto.
Qed.

(** X22. The example program of agent.py.  Without ANTHROPIC_API_KEY it
    prints "Error: ANTHROPIC_API_KEY must be set" and the hint, and sends
    nothing.  With the key it sends exactly one query - the weather
    question, under the fixed system prompt and that key - and prints the
    two announcement lines followed by the answer, or by the error and the
    hint when the query fails with an instance of [Exception]; an exception
    that is not one ends the program after the two announcement lines. *)
Theorem example_program_asks_one_question
    (env : Env) (environ : gmap string string) (w : World) :
  let hint :=
    nl +:+ "Make sure ANTHROPIC_API_KEY is set in your environment or .env file"
  in
  (SlackStartup.unset (environ !! "ANTHROPIC_API_KEY") = true ->
   AgentStartup.main env environ w
   = (["Error: ANTHROPIC_API_KEY must be set"; hint], w)) /\
  (forall key,
     set_to environ "ANTHROPIC_API_KEY" key ->
     let r := sdk_query env (log w) example_question
                AgentStartup.SYSTEM_PROMPT key in
     AgentStartup.main env environ w
     = (["Personal Assistant Agent initialized successfully!";
         nl +:+ "Example: Asking a simple question..."]
        ++ match r with
           | Ok parts => [nl +:+ "Agent Response:" +:+ nl +:+ concat_str parts]
           | Raise e =>
               if is_exception e then ["Error: " +:+ exn_str e; hint] else []
           end,
        logged (LQuery example_question AgentStartup.SYSTEM_PROMPT key r) w)).
Proof.
  intros hint. split.
  - intros Hu. unfold AgentStartup.main. rewrite (agent_init_unset _ Hu).
    reflexivity.
  - intros key Hk r. unfold AgentStartup.main.
    rewrite (agent_init_env _ _ Hk).
    unfold Agent.simple_query, bind, ask. cbn [Agent.api_key Agent.system_prompt].
    fold example_question. fold r. destruct r as [parts|[]]; reflexivity.
Qed.

(** X23. What the Slack program prints.
    - If SLACK_BOT_TOKEN or SLACK_APP_TOKEN is missing or empty: the
      configuration error "SLACK_BOT_TOKEN and SLACK_APP_TOKEN must be set"
      with the list of the three variables, whatever the Slack runtime
      would have done and whether or not ANTHROPIC_API_KEY is set.
    - With both tokens, the Slack app is created before the API key is
      looked at: if that fails, its error is what is reported, even when
      ANTHROPIC_API_KEY is missing too.
    - With both tokens and the app created, a missing ANTHROPIC_API_KEY
      is reported as the configuration error "ANTHROPIC_API_KEY must be
      set".
    - With everything set and the socket handler created, the program
      announces that the bot is running before it starts the handler. *)
Theorem bot_program_reports_configuration_errors
    (rt : SlackStartup.Runtime) (environ : gmap string string) :
  (SlackStartup.unset (environ !! "SLACK_BOT_TOKEN") = true \/
   SlackStartup.unset (environ !! "SLACK_APP_TOKEN") = true ->
   SlackStartup.main rt environ
   = configuration_error "SLACK_BOT_TOKEN and SLACK_APP_TOKEN must be set") /\
  (forall bot app,
     set_to environ "SLACK_BOT_TOKEN" bot ->
     set_to environ "SLACK_APP_TOKEN" app ->
     (forall e,
        SlackStartup.new_app rt bot = Raise e ->
        SlackStartup.main rt environ = SlackStartup.main_except rt e) /\
     (SlackStartup.new_app rt bot = Ok tt ->
      (SlackStartup.unset (environ !! "ANTHROPIC_API_KEY") = true ->
       SlackStartup.main rt environ
       = configuration_error "ANTHROPIC_API_KEY must be set") /\
      (forall key,
         set_to environ "ANTHROPIC_API_KEY" key ->
         SlackStartup.new_socket_handler rt app = Ok tt ->
         SlackStartup.main rt environ
         = "Personal Assistant Slack Bot is running!"
           :: match SlackStartup.socket_start rt with
              | Ok _ => []
              | Raise e => SlackStartup.main_except rt e
              end))).
Proof.
  split.
  - intros Hu. unfold SlackStartup.main, SlackStartup.__init__.
    apply orb_true_iff in Hu. cbn zeta. rewrite Hu. reflexivity.
  - intros bot app Hbot Happ.
    pose proof (unset_set_to _ _ _ Hbot) as Hb.
    pose proof (unset_set_to _ _ _ Happ) as Ha.
    destruct Hbot as [Hbot _], Happ as [Happ _].
    unfold SlackStartup.main, SlackStartup.__init__. cbn zeta.
    rewrite Hb, Ha, Hbot, Happ. cbn [orb default from_option id].
    split.
    + intros e ->. reflexivity.
    + intros ->. split.
      * intros Hu. rewrite (agent_init_unset _ Hu). reflexivity.
      * intros key Hk Hs. rewrite (agent_init_env _ _ Hk).
        unfold SlackStartup.start. cbn [SlackStartup.app_token].
        rewrite Hs. destruct (SlackStartup.socket_start rt); reflexivity.
Qed.

(** * Listings whose field is null *)

Lemma read_emails_tail_falsy env max_results query :
  sat (let* results :=
         Tools.execute env (GmailMessagesList "me" max_results query) in
       let* messages := Py.dict_get env results "messages" (VList []) in
       if negb (truthy messages) then
         ret (VDict [("status", VStr "success"); ("count", VInt 0);
                     ("emails", VList [])])
       else
         let* msgs := Py.py_iter env messages in
         let* emails := Py.for_each (Tools.fetch_email env) msgs in
         ret (VDict [("status", VStr "success");
                     ("count", VInt (Z.of_nat (length emails)));
                     ("emails", VList emails)]))
      (fun t r =>
         exists r1 t',
           t = LExecute (GmailMessagesList "me" max_results query) r1 :: t' /\
           Forall not_messages_list t' /\
           forall d m,
             r1 = Ok (VDict d) -> dict_lookup "messages" d = Some m ->
             truthy m = false ->
             t' = [] /\
             r = Ok (VDict [("status", VStr "success"); ("count", VInt 0);
                            ("emails", VList [])])).
Proof.
  intros w.
  set (req := GmailMessagesList "me" max_results query).
  destruct (api_execute env (log w) req) as [results|e] eqn:E.
  - assert (Tools.execute env req w
            = (Ok results, logged (LExecute req (Ok results)) w)) as Hex.
    { unfold Tools.execute, ask. rewrite E. reflexivity. }
    rewrite (bind_ok _ _ _ _ _ Hex).
    set (w1 := logged (LExecute req (Ok results)) w).
    match goal with |- context [log (?k w1).2] => set (rest := k) end.
    assert (emits not_messages_list rest) as Hrest by (subst rest; run_auto).
    destruct (Hrest w1) as (t' & Hl & Ht').
    exists (LExecute req (Ok results) :: t'). split.
    { rewrite Hl. subst w1. simpl. rewrite <- app_assoc. reflexivity. }
    exists (Ok results), t'.
    split; [reflexivity|]. split; [assumption|].
    intros d m [= Hd] Hm Hfalsy.
    assert (rest w1
            = (Ok (VDict [("status", VStr "success"); ("count", VInt 0);
                          ("emails", VList [])]), w1)) as Hrun.
    { subst rest. rewrite Hd. unfold bind, Py.dict_get, ret.
      rewrite Hm. cbn [from_option id]. rewrite Hfalsy. reflexivity. }
    rewrite Hrun in Hl |- *. split; [|reflexivity].
    cbn [snd] in Hl.
    apply (f_equal length) in Hl. rewrite length_app in Hl.
    destruct t'; [reflexivity|simpl in Hl; lia].
  - assert (Tools.execute env req w
            = (Raise e, logged (LExecute req (Raise e)) w)) as Hex.
    { unfold Tools.execute, ask. rewrite E. reflexivity. }
    rewrite (bind_raise _ _ _ _ _ Hex).
    exists [LExecute req (Raise e)]. split; [reflexivity|].
    exists (Raise e), [].
    split; [reflexivity|]. split; [constructor|]. discriminate.
Qed.

(** X24. The two listings treat a null field differently.  [read_emails]
    guards with [if not messages]: a response whose [messages] is null (or
    any other falsy value) gives the empty success result and no message
    is fetched.  [list_calendar_events] has no such guard: a response
    whose [items] is null makes the loop fail, and the function returns an
    error result carrying the interpreter's message for iterating over
    [None]. *)
Theorem null_listing_fields (env : Env) (w : World) :
  (forall max_results query userId n q d m,
     In (LExecute (GmailMessagesList userId n q) (Ok (VDict d)))
        (new_entries w (Tools.read_emails env max_results query w).2) ->
     dict_lookup "messages" d = Some m -> truthy m = false ->
     (Tools.read_emails env max_results query w).1
     = Ok (VDict [("status", VStr "success"); ("count", VInt 0);
                  ("emails", VList [])]) /\
     forall req r,
       In (LExecute req r)
          (new_entries w (Tools.read_emails env max_results query w).2) ->
       is_messages_list (LExecute req r)) /\
  (forall max_results time_min time_max calendarId a b n s o d,
     In (LExecute (CalendarEventsList calendarId a b n s o) (Ok (VDict d)))
        (new_entries w
           (Tools.list_calendar_events env max_results time_min time_max w).2) ->
     dict_lookup "items" d = Some VNone ->
     (Tools.list_calendar_events env max_results time_min time_max w).1
     = Ok (Tools.error_result (Py.builtin_error env (NotIterable VNone)))).
Proof.
  split.
  - intros max_results query userId n q d m Hin Hm Hfalsy.
    pose proof (sat_new_entries _ _ w
      (sat_catch _ Tools.error_result _
         (sat_setup_then env Tools.GMAIL_SCOPES "gmail_token.pickle"
            "gmail" "v1" _ _
            (read_emails_tail_falsy env max_results query)))) as H.
    change (try_except _ _) with (Tools.read_emails env max_results query) in H.
    destruct H as (r0 & [[Hs _]|(t1 & t2 & Ht & Hs & r1 & t' & -> & Hq & Hr)]
                      & Hres).
    + exfalso. eapply Forall_setup_no_execute; eauto.
    + rewrite Ht in Hin. apply in_app_or in Hin as [Hin|[Hin|Hin]].
      * exfalso. eapply Forall_setup_no_execute; eauto.
      * assert (r1 = Ok (VDict d)) as Hr1 by congruence.
        destruct (Hr d m Hr1 Hm Hfalsy) as [-> ->]. split; [exact Hres|].
        intros req r Hreq. rewrite Ht in Hreq.
        apply in_app_or in Hreq as [Hreq|[Hreq|[]]].
        -- exfalso. eapply Forall_setup_no_execute; eauto.
        -- inversion Hreq; subst. exact I.
      * rewrite Forall_forall in Hq.
        apply list_elem_of_In in Hin. destruct (Hq _ Hin).
  - intros max_results time_min time_max calendarId a b n s o d Hin Hitems.
    destruct (list_calendar_events_run env max_results time_min time_max w)
      as (r0 & [[Hall _]|(t1 & c & t2 & Ht & H1 & pre & tmin & Hpre & Hwin)]
            & Hres).
    + exfalso. revert Hin. eapply Forall_not_in; [exact Hall|].
      intros [[] _].
    + rewrite Hres. rewrite Ht in Hin.
      apply in_app_or in Hin as [Hin|[Hin|Hin]].
      { exfalso. revert Hin. eapply Forall_not_in; [exact H1|]. intros []. }
      { discriminate. }
      destruct (window_end tmin time_max) as [tmax|].
      * destruct Hwin as (r1 & w1 & -> & ->).
        apply in_app_or in Hin as [Hin|[Hin|[]]].
        { destruct Hpre as [[_ ->]|[_ ->]]; [destruct Hin|].
          destruct Hin as [Hin|[]]. discriminate. }
        assert (r1 = Ok (VDict d)) as -> by congruence.
        unfold format_events, bind, Py.dict_get, Py.py_iter, ret.
        rewrite Hitems. reflexivity.
      * destruct Hwin as [-> _].
        destruct Hpre as [[_ ->]|[_ ->]]; [destruct Hin|].
        destruct Hin as [Hin|[]]. discriminate.
Qed.

(** * More worked examples *)

(** A valid stored token is returned without any interaction. *)
Lemma stored_token_is_reused :
  Tools.get_google_credentials Demo.env Tools.GMAIL_SCOPES
    "gmail_token.pickle" Demo.world
  = (Ok Demo.creds, Demo.world).
Proof.
  apply (valid_token_is_reused Demo.env Tools.GMAIL_SCOPES
           "gmail_token.pickle" Demo.world Demo.creds).
  - vm_compute. reflexivity.
  - reflexivity.
Defined.

(** The expired token is refreshed and the new credential stored. *)
Lemma stale_token_is_refreshed :
  Tools.get_google_credentials Demo.env Tools.GMAIL_SCOPES
    "gmail_token.pickle" Cases.stale_world
  = (Ok Cases.expired_creds,
     {| files := <["gmail_token.pickle" := Pickled (Some Cases.expired_creds)]>
                   (files Cases.stale_world);
        log := [LRefresh Cases.expired_creds (Ok Cases.expired_creds)] |}).
Proof.
  apply (expired_token_is_refreshed Demo.env Tools.GMAIL_SCOPES
           "gmail_token.pickle" Cases.stale_world Cases.expired_creds "1//0g").
  - vm_compute. reflexivity.
  - reflexivity.
  - reflexivity.
  - reflexivity.
  - discriminate.
Defined.

(** With the client secrets installed and no token, the interactive flow
    runs and its credential is stored. *)
Lemma first_run_uses_the_flow :
  Tools.get_google_credentials Demo.env Tools.GMAIL_SCOPES
    "gmail_token.pickle" Cases.installed_world
  = (Ok Demo.creds,
     {| files := <["gmail_token.pickle" := Pickled (Some Demo.creds)]>
                   (files Cases.installed_world);
        log := [LAuthFlow "credentials.json" Tools.GMAIL_SCOPES
                  (Ok Demo.creds)] |}).
Proof.
  apply (interactive_flow_when_nothing_usable Demo.env Tools.GMAIL_SCOPES
           "gmail_token.pickle" Cases.installed_world).
  - vm_compute. eexists. reflexivity.
  - left. vm_compute. reflexivity.
Defined.

(** After the first run the stored credential serves the next call. *)
Lemma second_run_uses_the_cache :
  let w' := (Tools.get_google_credentials Demo.env Tools.GMAIL_SCOPES
               "gmail_token.pickle" Cases.installed_world).2 in
  files w' !! "gmail_token.pickle" = Some (Pickled (Some Demo.creds)) /\
  (valid Demo.creds = true ->
   Tools.get_google_credentials Demo.env Tools.CALENDAR_SCOPES
     "gmail_token.pickle" w' = (Ok Demo.creds, w')).
Proof.
  apply (acquired_credentials_are_cached Demo.env Tools.GMAIL_SCOPES
           Tools.CALENDAR_SCOPES "gmail_token.pickle" Cases.installed_world).
  vm_compute. reflexivity.
Defined.

(** One unread message: one listing, one fetch, nothing raised. *)
Lemma one_message_one_fetch :
  exists emails,
    [("status", VStr "success"); ("count", VInt 1);
     ("emails", VList [Cases.unread_summary])]
    = [("status", VStr "success");
       ("count", VInt (Z.of_nat (length emails)));
       ("emails", VList emails)] /\
    length (filter is_messages_list
              (new_entries Demo.world
                 (Tools.read_emails Demo.env 5 "is:unread" Demo.world).2))
    = 1%nat /\
    length (filter is_messages_get
              (new_entries Demo.world
                 (Tools.read_emails Demo.env 5 "is:unread" Demo.world).2))
    = length emails /\
    Forall (fun ent => raised ent = None)
      (new_entries Demo.world
         (Tools.read_emails Demo.env 5 "is:unread" Demo.world).2).
Proof.
  apply (one_fetch_per_email Demo.env 5 "is:unread" Demo.world
           [("status", VStr "success"); ("count", VInt 1);
            ("emails", VList [Cases.unread_summary])]).
  - vm_compute. reflexivity.
  - reflexivity.
Defined.

(** The two events of the busy calendar, the second without a title and
    with dates for times. *)
Lemma both_events_are_listed :
  (Tools.list_calendar_events Cases.busy 5 None None Demo.world).1
  = Ok (VDict [("status", VStr "success");
               ("count", VInt (Z.of_nat (length Cases.listed_events)));
               ("events", VList Cases.listed_events)]).
Proof.
  apply (events_are_projected_in_order Cases.busy 5 None None Demo.world
           "primary" "2025-10-24T10:00:00Z" "2025-10-31T10:00:00Z" 5 true
           "startTime"
           [("kind", VStr "calendar#events");
            ("items", VList [VDict Cases.standup; VDict Cases.holiday])]
           [VDict Cases.standup; VDict Cases.holiday]).
  - vm_compute. right. right. left. reflexivity.
  - reflexivity.
  - constructor; [eexists; split; reflexivity|].
    constructor; [eexists; split; reflexivity|]. constructor.
Defined.

(** A listing from 2025-10-24T10:00:00 without an upper bound asks for the
    week that starts then. *)
Lemma week_from_explicit_start :
  exists tmax,
    (@None Z = Some tmax \/
     @None Z = None /\ tmax = Demo.now + timedelta_days 7) /\
    CalendarEventsList "primary" "2025-10-24T10:00:00Z"
      "2025-10-31T10:00:00Z" 5 true "startTime"
    = CalendarEventsList "primary"
        (isoformat Demo.now +:+ "Z") (isoformat tmax +:+ "Z")
        5 true "startTime".
Proof.
  apply (proj2 (explicit_window_is_used Demo.env 5 Demo.now None Demo.world)
           _ (Ok (VDict [("kind", VStr "calendar#events");
                         ("items", VList [])]))).
  vm_compute. right. left. reflexivity.
Defined.

(** A listing that starts at the last representable instant fails with
    the overflow message and sends nothing. *)
Lemma window_past_the_last_day :
  (Tools.list_calendar_events Demo.env 5 (Some datetime_max) None
     Demo.world).1
  = Ok (VDict [("status", VStr "error");
               ("message", VStr "date value out of range")]).
Proof.
  refine (proj2 (proj2 (window_overflow_is_an_error Demo.env 5 datetime_max
                          Demo.world _)) _).
  - vm_compute. reflexivity.
  - vm_compute. left. exact I.
Defined.

(** The identifier and link of the created event are returned. *)
Lemma created_event_is_reported :
  (Tools.create_calendar_event Demo.env "Standup" "2025-10-24T10:00:00"
     "2025-10-24T10:15:00" "" "" None Demo.world).1
  = Ok (match dict_lookup "id" Cases.created with
        | Some eid =>
            VDict [("status", VStr "success"); ("event_id", eid);
                   ("event_link",
                    from_option id (VStr "")
                      (dict_lookup "htmlLink" Cases.created))]
        | None => VDict [("status", VStr "error"); ("message", VStr "'id'")]
        end).
Proof.
  apply (created_event_result Demo.env "Standup" "2025-10-24T10:00:00"
           "2025-10-24T10:15:00" "" "" None Demo.world "primary"
           (Tools.event_body "Standup" "2025-10-24T10:00:00"
              "2025-10-24T10:15:00" "" "" None)
           Cases.created).
  vm_compute. right. left. reflexivity.
Defined.

(** The body sent for the stand-up has the five keys and nothing else. *)
Lemma standup_body_keys :
  "primary" = "primary" /\
  exists d,
    Tools.event_body "Standup" "2025-10-24T10:00:00" "2025-10-24T10:15:00"
      "Daily" "Room 4" None = VDict d /\
    dict_lookup "summary" d = Some (VStr "Standup") /\
    dict_lookup "location" d = Some (VStr "Room 4") /\
    dict_lookup "description" d = Some (VStr "Daily") /\
    dict_lookup "start" d
    = Some (VDict [("dateTime", VStr "2025-10-24T10:00:00");
                   ("timeZone", VStr "UTC")]) /\
    dict_lookup "end" d
    = Some (VDict [("dateTime", VStr "2025-10-24T10:15:00");
                   ("timeZone", VStr "UTC")]) /\
    (map fst d = ["summary"; "location"; "description"; "start"; "end"] \/
     map fst d = ["summary"; "location"; "description"; "start"; "end";
                  "attendees"]).
Proof.
  apply (event_body_is_passed_through Demo.env "Standup"
           "2025-10-24T10:00:00" "2025-10-24T10:15:00" "Daily" "Room 4" None
           Demo.world "primary"
           (Tools.event_body "Standup" "2025-10-24T10:00:00"
              "2025-10-24T10:15:00" "Daily" "Room 4" None)
           (Ok (VDict Cases.created))).
  vm_compute. right. left. reflexivity.
Defined.

(** The first Subject header is taken; the malformed entries after it are
    never looked at. *)
Lemma later_headers_are_not_inspected :
  Tools.first_header Demo.env "Subject" (VStr "No Subject") Cases.headers
    Demo.world
  = (Ok (VStr "Lunch"), Demo.world).
Proof.
  refine (proj1 (header_lookup_stops_at_first_match Demo.env "Subject"
                   (VStr "No Subject")
                   [VDict [("name", VStr "From");
                           ("value", VStr "ann@example.com")]]
                   [VDict [("name", VStr "Subject")]; VInt 7]
                   [("name", VStr "Subject"); ("value", VStr "Lunch")]
                   Demo.world _) (VStr "Lunch") _ _).
  - constructor; [|constructor].
    exists (VStr "From"). split; reflexivity.
  - exists (VStr "Subject"). split; reflexivity.
  - reflexivity.
Defined.

(** A direct message is passed to the agent and answered outside any
    thread. *)
Lemma direct_message_gets_the_answer :
  exists r rest,
    new_entries Demo.world
      (SlackBot.handle_message Demo.env Demo.agent
         (VDict Cases.direct_message) Demo.world).2
    = LQuery (VStr "any plans today?") (Agent.system_prompt Demo.agent)
        (Agent.api_key Demo.agent) r :: rest /\
    Forall is_reply rest /\
    forall parts,
      r = Ok parts ->
      slack_say Demo.env
        (log Demo.world ++
         [LQuery (VStr "any plans today?") (Agent.system_prompt Demo.agent)
            (Agent.api_key Demo.agent) (Ok parts)])
        (VStr (concat_str parts)) VNone = Ok tt ->
      rest = [LSay (VStr (concat_str parts)) VNone (Ok tt)] /\
      (SlackBot.handle_message Demo.env Demo.agent
         (VDict Cases.direct_message) Demo.world).1 = Ok tt.
Proof.
  apply (direct_message_is_answered Demo.env Demo.agent Cases.direct_message
           (VStr "any plans today?") Demo.world);
    reflexivity.
Defined.

(** A direct message with an empty text leaves no trace. *)
Lemma empty_text_is_dropped :
  SlackBot.handle_message Demo.env Demo.agent
    (VDict Cases.empty_direct_message) Demo.world
  = (Ok tt, Demo.world).
Proof.
  apply (empty_direct_message_is_dropped Demo.env Demo.agent
           Cases.empty_direct_message Demo.world);
    reflexivity.
Defined.

(** During the outage of the Google APIs the slash command lets no
    instance of [Exception] out. *)
Lemma outage_does_not_crash_the_command :
  no_exception_out
    (SlackBot.handle_assistant_command Demo.outage Demo.agent
       Cases.emails_command Demo.world).1.
Proof.
  refine (proj2 (proj2 (handlers_contain_errors Demo.outage Demo.agent _))
            Cases.emails_command Demo.world).
  intros h text ts. reflexivity.
Defined.

(** When Slack refuses every message, the command handler raises what
    Slack raised for the apology. *)
Lemma refused_apology_escapes :
  exists e0 pre,
    new_entries Demo.world
      (SlackBot.handle_assistant_command Cases.slack_down Demo.agent
         Cases.emails_command Demo.world).2
    = pre ++ [LLogError ("Error handling command: " +:+ exn_str e0);
              LSay (VStr ("Sorry, I encountered an error: " +:+ exn_str e0))
                VNone (Raise (Exn "SlackApiError" "channel_not_found"))].
Proof.
  apply (proj1 (exception_escapes_only_from_failed_apology Cases.slack_down
                  Demo.agent Demo.world
                  (Exn "SlackApiError" "channel_not_found") eq_refl)
           Cases.emails_command).
  vm_compute. reflexivity.
Defined.

(** The mention "<@U123ABC> what's on my calendar" is acknowledged and
    answered in the thread of the event. *)
Lemma calendar_question_in_thread :
  let text := "<@U123ABC> what's on my calendar" in
  let ts := field Cases.mention "ts" in
  let q := LQuery (VStr (strip (re_sub_mention text)))
             (Agent.system_prompt Demo.agent) (Agent.api_key Demo.agent) in
  let processing := LSay (VStr "Processing your request...") ts in
  exists r rest,
    new_entries Demo.world
      (SlackBot.handle_mention Demo.env Demo.agent (VDict Cases.mention)
         Demo.world).2
    = processing r :: rest /\
    Forall (in_thread ts) rest /\
    forall parts,
      r = Ok tt ->
      sdk_query Demo.env (log Demo.world ++ [processing (Ok tt)])
        (VStr (strip (re_sub_mention text)))
        (Agent.system_prompt Demo.agent) (Agent.api_key Demo.agent)
      = Ok parts ->
      slack_say Demo.env
        (log Demo.world ++ [processing (Ok tt); q (Ok parts)])
        (VStr (concat_str parts)) ts = Ok tt ->
      rest = [q (Ok parts); LSay (VStr (concat_str parts)) ts (Ok tt)] /\
      (SlackBot.handle_mention Demo.env Demo.agent (VDict Cases.mention)
         Demo.world).1 = Ok tt.
Proof.
  apply (mention_is_answered_in_its_thread Demo.env Demo.agent Cases.mention
           "<@U123ABC> what's on my calendar" Demo.world).
  - reflexivity.
  - vm_compute. discriminate.
Defined.

(** During the outage "/assistant Emails" answers as for an empty
    mailbox. *)
Lemma outage_looks_like_no_mail :
  SlackBot._handle_command_async Demo.outage Demo.agent Cases.emails_command
    Demo.world
  = try_except
      (SlackBot.say Demo.outage
         (VStr "No unread emails found or unable to access Gmail.") VNone)
      (SlackBot.command_except Demo.outage)
      (Tools.read_emails Demo.outage 5 "is:unread" Demo.world).2.
Proof.
  refine (proj1 (listing_commands_hide_the_cause Demo.outage Demo.agent
                   Cases.emails_command "Emails"
                   (Tools.error_result
                      (Exn "HttpError" "503 Service Unavailable"))
                   Demo.world
                   (Tools.read_emails Demo.outage 5 "is:unread" Demo.world).2
                   _) _ _ _).
  - reflexivity.
  - reflexivity.
  - vm_compute. reflexivity.
  - left. eexists. reflexivity.
Defined.

(** "/assistant Emails" with one unread message lists it. *)
Lemma one_unread_message_is_listed :
  SlackBot._handle_command_async Demo.env Demo.agent Cases.emails_command
    Demo.world
  = try_except
      (SlackBot.say Demo.env
         (VStr ("You have " +:+ pretty 1 +:+ " unread emails:" +:+ nl
                +:+ join nl ["• *No Subject* from ann@example.com"])) VNone)
      (SlackBot.command_except Demo.env)
      (Tools.read_emails Demo.env 5 "is:unread" Demo.world).2.
Proof.
  refine (proj1 (listing_commands_show_every_item Demo.env Demo.agent
                   Cases.emails_command "Emails" 1 [Cases.unread_summary]
                   ["• *No Subject* from ann@example.com"] Demo.world
                   (Tools.read_emails Demo.env 5 "is:unread" Demo.world).2
                   _ _) _ _ _).
  - reflexivity.
  - reflexivity.
  - reflexivity.
  - vm_compute. reflexivity.
  - constructor; [|constructor].
    eexists _, _, _. repeat split; reflexivity.
Defined.

(** Without ANTHROPIC_API_KEY the example program prints the error and
    the hint, and sends nothing. *)
Lemma example_program_without_key :
  AgentStartup.main Demo.env Cases.without_key Demo.world
  = (["Error: ANTHROPIC_API_KEY must be set";
      nl +:+ "Make sure ANTHROPIC_API_KEY is set in your environment or .env file"],
     Demo.world).
Proof.
  apply (proj1 (example_program_asks_one_question Demo.env Cases.without_key
                  Demo.world)).
  vm_compute. reflexivity.
Defined.

(** With the Slack tokens but no API key, the bot reports the missing
    key as a configuration error. *)
Lemma bot_program_without_key :
  SlackStartup.main Cases.runtime Cases.without_key
  = configuration_error "ANTHROPIC_API_KEY must be set".
Proof.
  refine (proj1 (proj2 (proj2 (bot_program_reports_configuration_errors
                                 Cases.runtime Cases.without_key)
                          "xoxb-1" "xapp-1" _ _) _) _).
  - split; [vm_compute; reflexivity|discriminate].
  - split; [vm_compute; reflexivity|discriminate].
  - reflexivity.
  - vm_compute. reflexivity.
Defined.

(** A calendar listing whose [items] is null is reported as an error. *)
Lemma null_items_is_an_error :
  (Tools.list_calendar_events Cases.null_items 5 None None Demo.world).1
  = Ok (Tools.error_result
          (Py.builtin_error Cases.null_items (NotIterable VNone))).
Proof.
  apply (proj2 (null_listing_fields Cases.null_items Demo.world)
           5 None None "primary" "2025-10-24T10:00:00Z"
           "2025-10-31T10:00:00Z" 5 true "startTime"
           [("kind", VStr "calendar#events"); ("items", VNone)]).
  - vm_compute. right. right. left. reflexivity.
  - reflexivity.
Defined.
